(** * Warning ledger and punishment escalation of pippin-mod

    A shallow embedding of the point-accumulation and punishment engine found in
    [server/routes.ts] (the admin REST handlers) and in the Discord service
    (the [MessageCreate] handler), with the moderation mapping of
    [services/moderation.ts], the configuration routes of [server/routes.ts]
    (punishment rules, warning levels and their rules, prompt templates, the
    users listing) and the classifier of [services/openai.ts].

    The relational tables are lists of rows, in table order.  A drizzle
    [findFirst] is [List.find], [findMany] is [filter] followed by the
    [orderBy], and [update(...).set(...).where(...)] rewrites every row the
    [where] clause selects.  Integers are [Z]; timestamps are milliseconds
    since the epoch, also in [Z]; text columns are [string].  Where a write
    of the ignore, reset and test handlers can be refused by the schema (the
    foreign key of [warnings.ignored_by], the range of [users.total_points])
    the refusal is part of the handler: the statements run one by one, and
    what was written before the refusal stays written. *)

From Stdlib Require Import ZArith List String Ascii Bool Lia Permutation Sorted
  DecimalString.
Import ListNotations.

Local Open Scope string_scope.
Local Open Scope list_scope.
Local Open Scope Z_scope.

(** ** Schema (db/schema.ts) *)

(** [punishment_rules.type] is a text column; both routes that write it
    (POST and PUT /api/punishment-rules) refuse anything but "ban" and "mute". *)
Inductive PunishmentType : Type :=
| ban
| mute.

Definition PunishmentType_eqb (a b : PunishmentType) : bool :=
  match a, b with
  | ban, ban | mute, mute => true
  | _, _ => false
  end.

Module User.
Record t : Type := mk {
  id : string;
  username : string;
  totalPoints : Z;
  isBanned : bool;
  isMuted : bool;
  muteExpiresAt : option Z
}.
End User.

Module WarningLevel.
Record t : Type := mk {
  id : Z;
  name : string;
  points : Z;
  deleteMessage : bool
}.
End WarningLevel.

Module Warning.
Record t : Type := mk {
  id : Z;
  userId : string;
  levelId : Z;
  points : Z;
  ruleTriggered : string;
  messageContent : string;
  createdAt : Z;
  messageDeleted : bool;
  messageIgnored : bool;
  ignoredAt : option Z;
  ignoredBy : option string;
  ignoreReason : option string
}.
End Warning.

Module Punishment.
Record t : Type := mk {
  id : Z;
  userId : string;
  type : PunishmentType;
  reason : string;
  duration : option Z;
  createdAt : Z;
  expiresAt : option Z
}.
End Punishment.

Module PunishmentRule.
Record t : Type := mk {
  id : Z;
  type : PunishmentType;
  pointThreshold : Z;
  duration : option Z;
  isActive : bool
}.
End PunishmentRule.

(** The database: one list per table, and the two serial counters the
    handlers draw fresh primary keys from. *)
Record Db : Type := mkDb {
  users : list User.t;
  warningLevels : list WarningLevel.t;
  warnings : list Warning.t;
  warningsSeq : Z;
  punishments : list Punishment.t;
  punishmentsSeq : Z;
  punishmentRules : list PunishmentRule.t
}.

Definition withUsers (us : list User.t) (db : Db) : Db :=
  mkDb us (warningLevels db) (warnings db) (warningsSeq db)
       (punishments db) (punishmentsSeq db) (punishmentRules db).

Definition withWarnings (ws : list Warning.t) (db : Db) : Db :=
  mkDb (users db) (warningLevels db) ws (warningsSeq db)
       (punishments db) (punishmentsSeq db) (punishmentRules db).

(** ** Query primitives *)

Definition findFirst {A : Type} (where_ : A -> bool) (rows : list A) : option A :=
  find where_ rows.

Definition findMany {A : Type} (where_ : A -> bool) (rows : list A) : list A :=
  filter where_ rows.

Definition updateWhere {A : Type} (where_ : A -> bool) (set : A -> A)
  (rows : list A) : list A :=
  map (fun r => if where_ r then set r else r) rows.

(** [.returning()] of an update: the rewritten rows, in table order. *)
Definition returning {A : Type} (where_ : A -> bool) (set : A -> A)
  (rows : list A) : list A :=
  map set (filter where_ rows).

Definition userIs (userId : string) (u : User.t) : bool :=
  String.eqb (User.id u) userId.

Definition warningIs (id : Z) (w : Warning.t) : bool :=
  Warning.id w =? id.

Definition warningOf (userId : string) (w : Warning.t) : bool :=
  String.eqb (Warning.userId w) userId.

(** [orderBy desc(pointThreshold)]: insertion sort on descending threshold.
    Rows with equal thresholds stay in table order (SQL leaves that order
    open). *)
Fixpoint insertDesc (r : PunishmentRule.t) (l : list PunishmentRule.t)
  : list PunishmentRule.t :=
  match l with
  | [] => [r]
  | x :: xs =>
      if PunishmentRule.pointThreshold x <=? PunishmentRule.pointThreshold r
      then r :: x :: xs
      else x :: insertDesc r xs
  end.

Definition orderByThresholdDesc (l : list PunishmentRule.t) : list PunishmentRule.t :=
  fold_right insertDesc [] l.

(** The query issued by every handler:
    [findMany({ where: eq(isActive, true), orderBy: desc(pointThreshold) })]. *)
Definition activeRulesDesc (db : Db) : list PunishmentRule.t :=
  orderByThresholdDesc (findMany PunishmentRule.isActive (punishmentRules db)).

(** [rule.duration || 60]: [null] and [0] are both falsy. *)
Definition durationOr60 (d : option Z) : Z :=
  match d with
  | Some n => if n =? 0 then 60 else n
  | None => 60
  end.

Definition expiryFrom (now : Z) (d : option Z) : Z :=
  now + durationOr60 d * 60 * 1000.

Definition meets (total : Z) (rule : PunishmentRule.t) : bool :=
  total >=? PunishmentRule.pointThreshold rule.

Definition isBan (rule : PunishmentRule.t) : bool :=
  PunishmentType_eqb (PunishmentRule.type rule) ban.

Definition isMute (rule : PunishmentRule.t) : bool :=
  PunishmentType_eqb (PunishmentRule.type rule) mute.

(** ** HTTP responses *)

Inductive Body : Type :=
| UserBody (u : option User.t)
| WarningBody (w : Warning.t) (username : string)
| ModerateBody (warningLevel : string) (points : Z) (totalPoints : Z)
    (punishment : option PunishmentType)
| NoWarningBody
| SuccessBody.

(** What the database refuses: a value of a referencing column that is no
    key of the referenced table, and a value outside an [integer] column. *)
Inductive DbError : Type :=
| ForeignKeyViolation
| IntegerOutOfRange.

(** [DbFailure e] is the reply of a handler's catch block,
    [res.status(500).json({ message: error.message })], for the error [e]
    raised by the database; the message is the database's. *)
Inductive Response : Type :=
| Json (body : Body)
| Status (code : Z) (message : string)
| DbFailure (error : DbError).

(** The [integer] columns hold signed 32-bit values; the write of a value
    outside that range is refused. *)
Definition inInteger (z : Z) : bool :=
  (-2147483648 <=? z) && (z <=? 2147483647).

(** ** POST /api/users/:userId/recalculate (routes.ts 1030-1094) *)

Record RecalcFlags : Type := mkFlags {
  shouldBeBanned : bool;
  shouldBeMuted : bool;
  flagExpiresAt : option Z
}.

(** The [for (const rule of allPunishmentRules)] loop: a met ban rule sets
    [shouldBeBanned] and breaks; a met mute rule sets [shouldBeMuted] and the
    expiry and goes on to the next rule. *)
Fixpoint recalculateScan (now newTotalPoints : Z) (rules : list PunishmentRule.t)
  (st : RecalcFlags) : RecalcFlags :=
  match rules with
  | [] => st
  | rule :: rest =>
      if newTotalPoints >=? PunishmentRule.pointThreshold rule then
        match PunishmentRule.type rule with
        | ban => mkFlags true (shouldBeMuted st) (flagExpiresAt st)
        | mute =>
            recalculateScan now newTotalPoints rest
              (mkFlags (shouldBeBanned st) true
                 (Some (expiryFrom now (PunishmentRule.duration rule))))
        end
      else recalculateScan now newTotalPoints rest st
  end.

(** [userWarnings.reduce((sum, warning) => sum + warning.points, 0)] *)
Definition sumPoints (ws : list Warning.t) : Z :=
  fold_left (fun sum warning => sum + Warning.points warning) ws 0.

Definition nonIgnoredOf (userId : string) (w : Warning.t) : bool :=
  warningOf userId w && Bool.eqb (Warning.messageIgnored w) false.

Definition recalculate (now : Z) (userId : string) (db : Db) : Response * Db :=
  match findFirst (userIs userId) (users db) with
  | None => (Status 404 "User not found", db)
  | Some user =>
      let userWarnings := findMany (nonIgnoredOf userId) (warnings db) in
      let newTotalPoints := sumPoints userWarnings in
      let allPunishmentRules := activeRulesDesc db in
      let st := recalculateScan now newTotalPoints allPunishmentRules
                  (mkFlags false false None) in
      let set (u : User.t) :=
        User.mk (User.id u) (User.username u) newTotalPoints
          (shouldBeBanned st) (shouldBeMuted st)
          (if shouldBeMuted st then flagExpiresAt st else None) in
      let updatedUser := returning (userIs userId) set (users db) in
      (Json (UserBody (hd_error updatedUser)),
       withUsers (updateWhere (userIs userId) set (users db)) db)
  end.

(** ** POST /api/warnings/:id/ignore (routes.ts 657-776)

    The handler makes its writes one by one, without a transaction.  The
    update of the warning writes the reviewer into [warnings.ignored_by],
    which references [users.id]: it is refused when the reviewer has no
    users row.  The update of [users.total_points] is refused when the new
    total is no [integer]; the warning has been marked by then.  Either
    refusal is caught and answered with status 500. *)

Definition markIgnored (now : Z) (by_ reason : string) (w : Warning.t) : Warning.t :=
  Warning.mk (Warning.id w) (Warning.userId w) (Warning.levelId w)
    (Warning.points w) (Warning.ruleTriggered w) (Warning.messageContent w)
    (Warning.createdAt w) (Warning.messageDeleted w)
    true (Some now) (Some by_) (Some reason).

Definition setTotalPoints (n : Z) (u : User.t) : User.t :=
  User.mk (User.id u) (User.username u) n
    (User.isBanned u) (User.isMuted u) (User.muteExpiresAt u).

(** The removal loop: [(shouldRemoveBan, shouldRemoveMute)] start as the
    user's flags; the first met rule withdraws the removal of its own type and
    breaks. *)
Fixpoint ignoreScan (newTotalPoints : Z) (rules : list PunishmentRule.t)
  (st : bool * bool) : bool * bool :=
  match rules with
  | [] => st
  | rule :: rest =>
      if newTotalPoints >=? PunishmentRule.pointThreshold rule then
        match PunishmentRule.type rule with
        | ban => (false, snd st)
        | mute => (fst st, false)
        end
      else ignoreScan newTotalPoints rest st
  end.

Definition ignoreWarning (now : Z) (id : Z) (userId reason : string) (db : Db)
  : Response * Db :=
  if String.eqb userId "" || String.eqb reason "" then
    (Status 400 "Missing required fields", db)
  else
    match findFirst (warningIs id) (warnings db) with
    | None => (Status 404 "Warning not found", db)
    | Some warning =>
        match findFirst (userIs (Warning.userId warning)) (users db) with
        | None => (Status 404 "User not found", db)
        | Some user =>
            if negb (existsb (userIs userId) (users db)) then
              (DbFailure ForeignKeyViolation, db)
            else
            let db1 :=
              withWarnings
                (updateWhere (warningIs id) (markIgnored now userId reason)
                   (warnings db)) db in
            let newTotalPoints := User.totalPoints user - Warning.points warning in
            if negb (inInteger newTotalPoints) then
              (DbFailure IntegerOutOfRange, db1)
            else
            let db2 :=
              withUsers
                (updateWhere (userIs (User.id user)) (setTotalPoints newTotalPoints)
                   (users db1)) db1 in
            let existingPunishmentRules := activeRulesDesc db2 in
            let st := ignoreScan newTotalPoints existingPunishmentRules
                        (User.isBanned user, User.isMuted user) in
            let shouldRemoveBan := fst st in
            let shouldRemoveMute := snd st in
            let db3 :=
              if shouldRemoveBan || shouldRemoveMute then
                withUsers
                  (updateWhere (userIs (User.id user))
                     (fun u =>
                        User.mk (User.id u) (User.username u) (User.totalPoints u)
                          (if negb shouldRemoveBan then User.isBanned user else false)
                          (if negb shouldRemoveMute then User.isMuted user else false)
                          (if negb shouldRemoveMute then User.muteExpiresAt user
                           else None))
                     (users db2)) db2
              else db2 in
            match findFirst (warningIs id) (warnings db3) with
            | None => (Status 404 "Warning not found after update", db3)
            | Some updatedWarning =>
                (Json (WarningBody updatedWarning (User.username user)), db3)
            end
        end
    end.

(** ** POST /api/users/:userId/reset-warnings (routes.ts 1097-1135)

    The update of the warnings writes "system" into [warnings.ignored_by],
    which references [users.id]: when it selects a warning and no users row
    has the id "system" it is refused, and the catch block answers with
    status 500 before anything is written. *)

Definition resetWarnings (now : Z) (userId : string) (db : Db) : Response * Db :=
  match findFirst (userIs userId) (users db) with
  | None => (Status 404 "User not found", db)
  | Some user =>
      if existsb (warningOf userId) (warnings db) &&
         negb (existsb (userIs "system") (users db))
      then (DbFailure ForeignKeyViolation, db)
      else
      let db1 :=
        withWarnings
          (updateWhere (warningOf userId)
             (markIgnored now "system" "Reset for testing purposes")
             (warnings db)) db in
      let db2 :=
        withUsers
          (updateWhere (userIs userId)
             (fun u => User.mk (User.id u) (User.username u) 0 false false None)
             (users db1)) db1 in
      (Json SuccessBody, db2)
  end.

(** ** services/moderation.ts *)

(** What the handlers read of the classifier's [AnalysisResult]. *)
Record AnalysisResult : Type := mkAnalysis {
  detected : bool;
  levelName : option string;
  explanation : string
}.

Record WarningResult : Type := mkWarningResult {
  warningLevel : string;
  ruleTriggered : string;
  deleteMessage : option bool;
  points : option Z
}.

(** What the handlers write with [console.warn] and [console.error]. *)
Inductive LogEvent : Type :=
| InvalidWarningLevel (level : option string)
| WarningLevelNotFound (level : string)
| FailedToGetOrCreateUser (userId : string)
| FailedToApplyPunishment (type : PunishmentType) (userId : string).

(** [String.prototype.toLowerCase] on the ASCII range. *)
Definition lowerAscii (c : ascii) : ascii :=
  let n := nat_of_ascii c in
  if (Nat.leb 65 n && Nat.leb n 90)%bool then ascii_of_nat (n + 32) else c.

Fixpoint toLowerCase (s : string) : string :=
  match s with
  | EmptyString => EmptyString
  | String c rest => String (lowerAscii c) (toLowerCase rest)
  end.

(** [WARNING_CONFIGS[level]] for its own keys: (points, deleteMessage). *)
Definition WARNING_CONFIGS (level : string) : option (Z * bool) :=
  if String.eqb level "yellow" then Some (1, false)
  else if String.eqb level "orange" then Some (3, true)
  else if String.eqb level "red" then Some (5, true)
  else None.

(** [level in WARNING_CONFIGS]: the own keys and those inherited from
    [Object.prototype]; of the latter only [constructor] and [__proto__] are
    spelled in lower case, and [level] has been lowered. *)
Definition inWarningConfigs (level : string) : bool :=
  match WARNING_CONFIGS level with
  | Some _ => true
  | None => String.eqb level "constructor" || String.eqb level "__proto__"
  end.

Definition noWarning : WarningResult :=
  mkWarningResult "none" "" (Some false) (Some 0).

Definition mapAnalysisToWarning (analysis : AnalysisResult)
  : WarningResult * list LogEvent :=
  if negb (detected analysis) then (noWarning, [])
  else
    let warningLevel := option_map toLowerCase (levelName analysis) in
    match warningLevel with
    | None => (noWarning, [InvalidWarningLevel None])
    | Some level =>
        if String.eqb level "" || negb (inWarningConfigs level) then
          (noWarning, [InvalidWarningLevel (Some level)])
        else
          let config := WARNING_CONFIGS level in
          (mkWarningResult level (explanation analysis)
             (option_map snd config) (option_map fst config), [])
    end.

(** ** Shared steps of the two recording handlers *)

Definition levelNamed (name : string) (l : WarningLevel.t) : bool :=
  String.eqb (WarningLevel.name l) name.

(** [db.insert(users).values({ id, username, totalPoints: 0 })]; the other
    columns take their defaults. *)
Definition insertUser (userId username : string) (db : Db) : Db :=
  withUsers (users db ++ [User.mk userId username 0 false false None]) db.

(** "Get or create user": the row read back after the insert, and the
    database. *)
Definition getOrCreateUser (userId username : string) (db : Db)
  : option User.t * Db :=
  match findFirst (userIs userId) (users db) with
  | Some user => (Some user, db)
  | None =>
      let db1 := insertUser userId username db in
      (findFirst (userIs userId) (users db1), db1)
  end.

Definition insertWarning (now : Z) (userId : string) (level : WarningLevel.t)
  (ruleTriggered content : string) (messageDeleted : option bool) (db : Db) : Db :=
  mkDb (users db) (warningLevels db)
    (warnings db ++
       [Warning.mk (warningsSeq db) userId (WarningLevel.id level)
          (WarningLevel.points level) ruleTriggered content now
          (match messageDeleted with Some b => b | None => false end)
          false None None None])
    (warningsSeq db + 1)
    (punishments db) (punishmentsSeq db) (punishmentRules db).

Definition insertPunishment (now : Z) (userId : string) (type : PunishmentType)
  (reason : string) (duration expiresAt : option Z) (db : Db) : Db :=
  mkDb (users db) (warningLevels db) (warnings db) (warningsSeq db)
    (punishments db ++
       [Punishment.mk (punishmentsSeq db) userId type reason duration now expiresAt])
    (punishmentsSeq db + 1) (punishmentRules db).

(** ** POST /api/test/moderate (routes.ts 484-611)

    The warning is inserted and the total is updated by two statements,
    without a transaction: when the update of [users.total_points] is refused
    because the new total is no [integer], the catch block answers with
    status 500 and the inserted warning stays. *)

Definition banUser (now : Z) (userId : string) (db : Db) : Db :=
  insertPunishment now userId ban "Exceeded maximum warning points" None None
    (withUsers
       (updateWhere (userIs userId)
          (fun u => User.mk (User.id u) (User.username u) (User.totalPoints u)
                      true (User.isMuted u) (User.muteExpiresAt u))
          (users db)) db).

Definition muteUser (now : Z) (userId : string) (rule : PunishmentRule.t) (db : Db)
  : Db :=
  let expiresAt := expiryFrom now (PunishmentRule.duration rule) in
  insertPunishment now userId mute "Accumulated warning points"
    (Some (durationOr60 (PunishmentRule.duration rule))) (Some expiresAt)
    (withUsers
       (updateWhere (userIs userId)
          (fun u => User.mk (User.id u) (User.username u) (User.totalPoints u)
                      (User.isBanned u) true (Some expiresAt))
          (users db)) db).

(** "Find the highest applicable punishment": a met ban rule is applied and
    ends the loop; a met mute rule is applied and ends the loop when the user
    row read at the start was not muted, and is passed over otherwise. *)
Fixpoint moderateLoop (now : Z) (userId : string) (user : User.t)
  (newTotalPoints : Z) (rules : list PunishmentRule.t) (db : Db)
  : option PunishmentType * Db :=
  match rules with
  | [] => (None, db)
  | rule :: rest =>
      if newTotalPoints >=? PunishmentRule.pointThreshold rule then
        match PunishmentRule.type rule with
        | ban => (Some ban, banUser now userId db)
        | mute =>
            if negb (User.isMuted user) then (Some mute, muteUser now userId rule db)
            else moderateLoop now userId user newTotalPoints rest db
        end
      else moderateLoop now userId user newTotalPoints rest db
  end.

Definition testModerate (now : Z) (analysis : AnalysisResult)
  (content userId username : string) (db : Db) : Response * list LogEvent * Db :=
  if String.eqb content "" || String.eqb userId "" || String.eqb username "" then
    (Status 400 "Missing required fields", [], db)
  else
    let '(warning, log) := mapAnalysisToWarning analysis in
    if String.eqb (warningLevel warning) "none" then (Json NoWarningBody, log, db)
    else
      match findFirst (levelNamed (warningLevel warning)) (warningLevels db) with
      | None =>
          (Status 500 "Warning level not found",
           log ++ [WarningLevelNotFound (warningLevel warning)], db)
      | Some level =>
          match getOrCreateUser userId username db with
          | (None, db1) => (Status 500 "Failed to create user", log, db1)
          | (Some user, db1) =>
              let db2 :=
                insertWarning now userId level (ruleTriggered warning) content
                  (deleteMessage warning) db1 in
              let newTotalPoints := User.totalPoints user + WarningLevel.points level in
              if negb (inInteger newTotalPoints) then
                (DbFailure IntegerOutOfRange, log, db2)
              else
              let db3 :=
                withUsers
                  (updateWhere (userIs userId) (setTotalPoints newTotalPoints)
                     (users db2)) db2 in
              let allPunishmentRules := activeRulesDesc db3 in
              let '(punishment, db4) :=
                moderateLoop now userId user newTotalPoints allPunishmentRules db3 in
              (Json (ModerateBody (warningLevel warning) (WarningLevel.points level)
                       newTotalPoints punishment),
               log, db4)
          end
      end.

(** ** Discord service: the MessageCreate handler, from the analysis on *)

(** The outcome of [safeApplyPunishment] for the call the loop makes on a
    rule: [true] when the platform ban or timeout went through. *)
Definition Executor : Type := PunishmentRule.t -> bool.

(** The punishment loop of the handler: every met rule is handed to the
    executor; on success an audit row is written and the loop ends, on failure
    the error is logged and the next rule is tried. *)
Fixpoint botLoop (exec : Executor) (now : Z) (authorId : string)
  (newTotalPoints : Z) (rules : list PunishmentRule.t) (db : Db)
  : option PunishmentType * list LogEvent * Db :=
  match rules with
  | [] => (None, [], db)
  | rule :: rest =>
      if newTotalPoints >=? PunishmentRule.pointThreshold rule then
        if exec rule then
          (Some (PunishmentRule.type rule), [],
           insertPunishment now authorId (PunishmentRule.type rule)
             "Accumulated warning points"
             (match PunishmentRule.type rule with
              | mute => PunishmentRule.duration rule
              | ban => None
              end)
             (match PunishmentRule.type rule with
              | mute => Some (expiryFrom now (PunishmentRule.duration rule))
              | ban => None
              end)
             db)
        else
          let '(applied, log, db') :=
            botLoop exec now authorId newTotalPoints rest db in
          (applied,
           FailedToApplyPunishment (PunishmentRule.type rule) authorId :: log, db')
      else botLoop exec now authorId newTotalPoints rest db
  end.

(** The parameters handed to [safeSendWarning]. *)
Record WarningParams : Type := mkParams {
  paramLevel : string;
  paramUserId : string;
  paramPoints : option Z;
  paramTotalPoints : Z;
  paramPunishment : option PunishmentType
}.

Record BotResult : Type := mkBot {
  sent : option WarningParams;
  botLog : list LogEvent;
  botDb : Db
}.

Definition onMessage (exec : Executor) (now : Z) (analysis : AnalysisResult)
  (authorId authorName : string) (db : Db) : BotResult :=
  let '(analysis', log) := mapAnalysisToWarning analysis in
  if String.eqb (warningLevel analysis') "none" then mkBot None log db
  else
    match findFirst (levelNamed (warningLevel analysis')) (warningLevels db) with
    | None =>
        mkBot None (log ++ [WarningLevelNotFound (warningLevel analysis')]) db
    | Some level =>
        match getOrCreateUser authorId authorName db with
        | (None, db1) => mkBot None (log ++ [FailedToGetOrCreateUser authorId]) db1
        | (Some user, db1) =>
            let newTotalPoints := User.totalPoints user + WarningLevel.points level in
            let db2 :=
              withUsers
                (updateWhere (userIs authorId) (setTotalPoints newTotalPoints)
                   (users db1)) db1 in
            let activePunishmentRules := activeRulesDesc db2 in
            let '(appliedPunishment, log', db3) :=
              botLoop exec now authorId newTotalPoints activePunishmentRules db2 in
            mkBot
              (Some (mkParams (warningLevel analysis') authorId (points analysis')
                       newTotalPoints appliedPunishment))
              (log ++ log') db3
        end
    end.

(** ** Vocabulary of the properties *)

(** The sum of [points] over a user's warnings whose [ignored] flag is false. *)
Definition ledgerTotal (userId : string) (db : Db) : Z :=
  sumPoints (findMany (nonIgnoredOf userId) (warnings db)).

(** Every user row carries the ledger total of its user. *)
Definition ledgerConsistent (db : Db) : Prop :=
  forall u, In u (users db) -> User.totalPoints u = ledgerTotal (User.id u) db.

Definition ledgerConsistentb (db : Db) : bool :=
  forallb (fun u => User.totalPoints u =? ledgerTotal (User.id u) db) (users db).

(** A row of [punishment_rules] that the handlers' query selects. *)
Definition activeRule (db : Db) (r : PunishmentRule.t) : Prop :=
  In r (punishmentRules db) /\ PunishmentRule.isActive r = true.

Definition descending (l : list PunishmentRule.t) : Prop :=
  StronglySorted
    (fun a b => PunishmentRule.pointThreshold b <= PunishmentRule.pointThreshold a) l.


Definition userAfter (userId : string) (db : Db) : option User.t :=
  findFirst (userIs userId) (users db).

(** A user id that has a row in [users]: what [warnings.ignored_by] may
    hold. *)
Definition hasRow (userId : string) (db : Db) : Prop :=
  exists u, In u (users db) /\ User.id u = userId.

(** The database accepts the reset of a user: the system actor has a users
    row, or the user has no warning for the update to select. *)
Definition resetAccepted (userId : string) (db : Db) : Prop :=
  hasRow "system" db \/ forall w, In w (warnings db) -> Warning.userId w <> userId.

(** ** Scenarios

    The configuration of the specification's examples: levels yellow, orange
    and red worth 1, 3 and 5 points, a 60-minute mute at 5 points and a ban at
    10 points. *)

Definition levels : list WarningLevel.t :=
  [WarningLevel.mk 1 "yellow" 1 false;
   WarningLevel.mk 2 "orange" 3 true;
   WarningLevel.mk 3 "red" 5 true].

Definition mute5 : PunishmentRule.t := PunishmentRule.mk 1 mute 5 (Some 60) true.
Definition ban10 : PunishmentRule.t := PunishmentRule.mk 2 ban 10 None true.
Definition mute5off : PunishmentRule.t := PunishmentRule.mk 1 mute 5 (Some 60) false.

Definition warningRow (id : Z) (userId : string) (levelId pts : Z) : Warning.t :=
  Warning.mk id userId levelId pts "spam" "buy now" 0 false false None None None.

(** A user muted at 8 points (red and orange); the mute rule has since been
    deactivated and only the ban at 10 points is active. *)
Definition mutedAt8 : User.t := User.mk "u1" "ann" 8 false true (Some 3600000).

Definition dbMuteDeactivated : Db :=
  mkDb [mutedAt8] levels [warningRow 1 "u1" 3 5; warningRow 2 "u1" 2 3] 3
       [] 1 [mute5off; ban10].

(** A user at 10 points (two red warnings) under the active rules mute at 5
    and ban at 10. *)
Definition at10 : User.t := User.mk "u1" "ann" 10 false false None.

Definition dbAt10 : Db :=
  mkDb [at10] levels [warningRow 1 "u1" 3 5; warningRow 2 "u1" 3 5] 3
       [] 1 [mute5; ban10].


(** A user at 5 points for one red warning; the only users row is the
    user's. *)
Definition dbOneRed : Db :=
  mkDb [User.mk "u1" "ann" 5 false false None] levels [warningRow 1 "u1" 3 5] 2
       [] 1 [mute5; ban10].

(** The reviewer of a warning is a user: the two moderators and the system
    actor of the reset have users rows of their own. *)
Definition staff : list User.t :=
  [User.mk "mod1" "moe" 0 false false None;
   User.mk "mod2" "mia" 0 false false None;
   User.mk "system" "system" 0 false false None].

Definition withStaff (db : Db) : Db := withUsers (users db ++ staff) db.

(** [dbOneRed] with the staff, after the moderator "mod1" has ignored the
    red warning. *)
Definition dbIgnoredOnce : Db :=
  snd (ignoreWarning 100 1 "mod1" "false positive" (withStaff dbOneRed)).

(** A user banned at 10 points for two red warnings. *)
Definition dbBannedAt10 : Db :=
  mkDb [User.mk "u1" "ann" 10 true false None] levels
       [warningRow 1 "u1" 3 5; warningRow 2 "u1" 3 5] 3
       [] 1 [mute5; ban10].


(** The classifier reports a violation of level "Red". *)
Definition redVerdict : AnalysisResult := mkAnalysis true (Some "Red") "insult".

Definition orangeVerdict : AnalysisResult := mkAnalysis true (Some "orange") "flood".

(** An unusual policy, a ban at 5 points below a mute at 10, and a user who
    is already muted at 7 points. *)
Definition ban5 : PunishmentRule.t := PunishmentRule.mk 1 ban 5 None true.
Definition mute10 : PunishmentRule.t := PunishmentRule.mk 2 mute 10 (Some 60) true.

Definition dbMutedAt7 : Db :=
  mkDb [User.mk "u1" "ann" 7 false true (Some 3600000)] levels
       [warningRow 1 "u1" 3 5; warningRow 2 "u1" 1 1; warningRow 3 "u1" 1 1] 4
       [] 1 [ban5; mute10].

(** A user with a yellow warning the moderator "mod1" has ignored and a red
    one that counts; the staff have users rows. *)
Definition dbWithIgnored : Db :=
  mkDb (User.mk "u1" "ann" 5 false true (Some 3600000) :: staff) levels
       [Warning.mk 1 "u1" 1 1 "spam" "buy now" 0 false
          true (Some 50) (Some "mod1") (Some "false positive");
        warningRow 2 "u1" 3 5] 3
       [] 1 [mute5; ban10].

(** What of a warning is written once and for all. *)
Definition auditData (w : Warning.t)
  : Z * string * Z * Z * string * string * Z * bool :=
  (Warning.id w, Warning.userId w, Warning.levelId w, Warning.points w,
   Warning.ruleTriggered w, Warning.messageContent w, Warning.createdAt w,
   Warning.messageDeleted w).

(** A level name matches a configured level when the two agree up to
    letter case. *)
Definition matchesLevel (name : string) (l : WarningLevel.t) : bool :=
  String.eqb (toLowerCase name) (toLowerCase (WarningLevel.name l)).

(** The classifier reports a level that is configured nowhere. *)
Definition purpleVerdict : AnalysisResult := mkAnalysis true (Some "Purple") "noise".

(** The database the Discord handler leaves after the red warning of
    [dbOneRed]: the user row has drifted from the ledger. *)
Definition dbDrifted : Db :=
  botDb (onMessage (fun _ => true) 300 redVerdict "u1" "ann" dbOneRed).


(** ** Vocabulary of the frame and integrity properties *)

(** The rows of every user but one, and the warnings of every user but one. *)
Definition otherUsers (userId : string) (db : Db) : list User.t :=
  filter (fun u => negb (userIs userId u)) (users db).

Definition otherWarnings (userId : string) (db : Db) : list Warning.t :=
  filter (fun w => negb (warningOf userId w)) (warnings db).

(** Key integrity of the ledger: warning ids are pairwise distinct and below
    the serial counter, and every warning belongs to a user that has a row
    (the foreign key of [warnings.user_id]). *)
Definition wellKeyed (db : Db) : Prop :=
  NoDup (map Warning.id (warnings db)) /\
  Forall (fun i => i < warningsSeq db) (map Warning.id (warnings db)) /\
  incl (map Warning.userId (warnings db)) (map User.id (users db)).

(** ** Runs of the engine

    One step is a call of the test endpoint, of [recalculate], of
    [resetWarnings], or of [ignoreWarning] on a warning that is not yet
    ignored (or on an id that is unknown); the calls of the test endpoint
    and of [ignoreWarning] are those the database does not stop between
    their two writes.  A run is a finite sequence of steps. *)
Inductive EngineStep : Db -> Db -> Prop :=
| StepModerate now analysis content userId username db :
    fst (fst (testModerate now analysis content userId username db)) <>
      DbFailure IntegerOutOfRange ->
    EngineStep db (snd (testModerate now analysis content userId username db))
| StepIgnore now id reviewer reason db :
    (forall w, findFirst (warningIs id) (warnings db) = Some w ->
               Warning.messageIgnored w = false) ->
    fst (ignoreWarning now id reviewer reason db) <> DbFailure IntegerOutOfRange ->
    EngineStep db (snd (ignoreWarning now id reviewer reason db))
| StepRecalculate now userId db :
    EngineStep db (snd (recalculate now userId db))
| StepReset now userId db :
    EngineStep db (snd (resetWarnings now userId db)).

Inductive EngineRun : Db -> Db -> Prop :=
| RunDone db : EngineRun db db
| RunStep db db1 db2 : EngineStep db db1 -> EngineRun db1 db2 -> EngineRun db db2.

(** ** Discord service: the MessageCreate handler, up to the analysis *)

Inductive Permission : Type :=
| SendMessages
| ViewChannel
| EmbedLinks
| ManageMessages
| BanMembers
| ModerateMembers.

Definition Permission_eqb (a b : Permission) : bool :=
  match a, b with
  | SendMessages, SendMessages | ViewChannel, ViewChannel
  | EmbedLinks, EmbedLinks | ManageMessages, ManageMessages
  | BanMembers, BanMembers | ModerateMembers, ModerateMembers => true
  | _, _ => false
  end.

Definition REQUIRED_PERMISSIONS : list Permission :=
  [SendMessages; ViewChannel; EmbedLinks; ManageMessages].

(** [permissions.has(permission)] *)
Definition has (permissions : list Permission) (p : Permission) : bool :=
  existsb (Permission_eqb p) permissions.

Record ContextMessage : Type := mkContext {
  ctxAuthor : string;
  ctxContent : string
}.

(** What the handler reads of the incoming message and of the platform:
    [permissions] is [permissionsFor(botMember)], [fetched] is the result of
    [messages.fetch({ limit: 6 })], newest message first, [None] when the
    fetch throws. *)
Record Incoming : Type := mkIncoming {
  authorIsBot : bool;
  hasGuildAndMember : bool;
  botMemberFound : bool;
  channelIsTextBased : bool;
  permissions : option (list Permission);
  fetched : option (list ContextMessage);
  authorId : string;
  authorName : string;
  content : string
}.

(** [Array.from(context.values()).reverse().slice(0, -1)], and the empty
    context when the fetch failed. *)
Definition contextOf (fetched : option (list ContextMessage)) : list ContextMessage :=
  match fetched with
  | Some messages => removelast (rev messages)
  | None => []
  end.

(** The [k]-th call of [analyzeMessage] on a content and a context: [None]
    when it throws. *)
Definition Classifier : Type :=
  nat -> string -> list ContextMessage -> option AnalysisResult.

(** The retry loop: [retries] calls are left, [k] have been made; a call that
    returns ends the loop, a call that throws uses up one retry. *)
Fixpoint analyzeWithRetry (classify : Classifier) (content : string)
  (context : list ContextMessage) (retries k : nat) : option AnalysisResult :=
  match retries with
  | O => None
  | S retries' =>
      match classify k content context with
      | Some analysis => Some analysis
      | None => analyzeWithRetry classify content context retries' (S k)
      end
  end.

(** What the part of the handler before the engine logs with [logError]. *)
Inductive ConnectorLog : Type :=
| BotMemberNotFound
| NoChannelPermissions
| MissingPermissions (missing : list Permission)
| ContextFetchFailed
| AnalysisFailedAfterRetries
| EngineLog (e : LogEvent).

Record HandlerResult : Type := mkHandled {
  handlerLog : list ConnectorLog;
  handlerSent : option WarningParams;
  handlerDb : Db
}.

Definition onMessageCreate (classify : Classifier) (exec : Executor) (now : Z)
  (message : Incoming) (db : Db) : HandlerResult :=
  if authorIsBot message then mkHandled [] None db
  else if negb (hasGuildAndMember message) then mkHandled [] None db
  else if negb (botMemberFound message) then mkHandled [BotMemberNotFound] None db
  else if negb (channelIsTextBased message) then mkHandled [] None db
  else
    match permissions message with
    | None => mkHandled [NoChannelPermissions] None db
    | Some perms =>
        let missingPermissions :=
          filter (fun permission => negb (has perms permission)) REQUIRED_PERMISSIONS in
        if negb (Nat.eqb (List.length missingPermissions) 0) then
          mkHandled [MissingPermissions missingPermissions] None db
        else
          let contextLog :=
            match fetched message with
            | Some _ => []
            | None => [ContextFetchFailed]
            end in
          let contextMessages := contextOf (fetched message) in
          match analyzeWithRetry classify (content message) contextMessages 3 0 with
          | None => mkHandled (contextLog ++ [AnalysisFailedAfterRetries]) None db
          | Some analysis =>
              let r := onMessage exec now analysis (authorId message)
                         (authorName message) db in
              mkHandled (contextLog ++ map EngineLog (botLog r)) (sent r) (botDb r)
          end
    end.

(** A message that passes every check before the analysis. *)
Definition humanMessage (perms : list Permission) (history : list ContextMessage)
  (authorId authorName content : string) : Incoming :=
  mkIncoming false true true true (Some perms) (Some history)
    authorId authorName content.

(** A classifier whose first call throws and whose later calls report a red
    violation. *)
Definition flakyClassifier : Classifier :=
  fun k _ _ => match k with O => None | _ => Some redVerdict end.

(** ** Replies of the configuration routes *)

(** [Thrown message]: the handler throws outside any [try]; nothing has been
    written and no reply is sent. *)
Inductive Reply (A : Type) : Type :=
| Ok (a : A)
| NoContent
| Fail (code : Z) (message : string)
| Thrown (message : string).

Arguments Ok {A} a.
Arguments NoContent {A}.
Arguments Fail {A} code message.
Arguments Thrown {A} message.

(** ** /api/punishment-rules (routes.ts 956-1027) *)

(** The request body: [bodyType] is the empty string when the field is
    missing, [bodyThreshold] and [bodyDuration] are [None] when the field is
    not a number, [bodyIsActive] is [None] when the field is null or
    missing. *)
Record RuleBody : Type := mkRuleBody {
  bodyType : string;
  bodyThreshold : option Z;
  bodyDuration : option Z;
  bodyIsActive : option bool
}.

(** [["ban", "mute"].includes(type)] and the value stored. *)
Definition parseType (type : string) : option PunishmentType :=
  if String.eqb type "ban" then Some ban
  else if String.eqb type "mute" then Some mute
  else None.

Definition withPunishmentRules (rs : list PunishmentRule.t) (db : Db) : Db :=
  mkDb (users db) (warningLevels db) (warnings db) (warningsSeq db)
       (punishments db) (punishmentsSeq db) rs.

Definition ruleIs (id : Z) (r : PunishmentRule.t) : bool :=
  PunishmentRule.id r =? id.

(** POST /api/punishment-rules; [newId] is the value the serial column
    draws. *)
Definition createPunishmentRule (newId : Z) (body : RuleBody) (db : Db)
  : Reply PunishmentRule.t * Db :=
  match bodyThreshold body with
  | None => (Fail 400 "Missing required fields", db)
  | Some pointThreshold =>
      if String.eqb (bodyType body) "" ||
         (String.eqb (bodyType body) "mute" &&
          match bodyDuration body with Some _ => false | None => true end)
      then (Fail 400 "Missing required fields", db)
      else
        match parseType (bodyType body) with
        | None => (Fail 400 "Invalid punishment type", db)
        | Some type =>
            let rule :=
              PunishmentRule.mk newId type pointThreshold
                (match type with mute => bodyDuration body | ban => None end)
                true in
            (Ok rule, withPunishmentRules (punishmentRules db ++ [rule]) db)
        end
  end.

(** PUT /api/punishment-rules/:id.  After the two checks of the body the
    handler evaluates [awaitdb.update(punishmentRules)]: the identifier
    [awaitdb] is bound nowhere, so a [ReferenceError] is thrown before the
    update is built; the handler has no [try]. *)
Definition updatePunishmentRule (id : Z) (body : RuleBody) (db : Db)
  : Reply PunishmentRule.t * Db :=
  match bodyThreshold body with
  | None => (Fail 400 "Missing required fields", db)
  | Some pointThreshold =>
      if String.eqb (bodyType body) "" ||
         (String.eqb (bodyType body) "mute" &&
          match bodyDuration body with Some _ => false | None => true end)
      then (Fail 400 "Missing required fields", db)
      else
        match parseType (bodyType body) with
        | None => (Fail 400 "Invalid punishment type", db)
        | Some type => (Thrown "awaitdb is not defined", db)
        end
  end.

(** DELETE /api/punishment-rules/:id *)
Definition deletePunishmentRule (id : Z) (db : Db) : Reply PunishmentRule.t * Db :=
  (NoContent,
   withPunishmentRules (filter (fun r => negb (ruleIs id r)) (punishmentRules db)) db).

(** A rule as the schema means it: a mute has a duration, a ban has none. *)
Definition ruleWellFormed (r : PunishmentRule.t) : Prop :=
  match PunishmentRule.type r with
  | ban => PunishmentRule.duration r = None
  | mute => PunishmentRule.duration r <> None
  end.

Definition policyWellFormed (db : Db) : Prop :=
  Forall ruleWellFormed (punishmentRules db).

(** ** Ordered queries of the configuration routes *)

(** [orderBy desc(key)] and [orderBy asc(key)] as insertion sorts; rows with
    equal keys stay in table order. *)
Fixpoint insertDescBy {A : Type} (key : A -> Z) (x : A) (l : list A) : list A :=
  match l with
  | [] => [x]
  | y :: ys => if key y <=? key x then x :: y :: ys else y :: insertDescBy key x ys
  end.

Definition sortDescBy {A : Type} (key : A -> Z) (l : list A) : list A :=
  fold_right (insertDescBy key) [] l.

Fixpoint insertAscBy {A : Type} (key : A -> Z) (x : A) (l : list A) : list A :=
  match l with
  | [] => [x]
  | y :: ys => if key x <=? key y then x :: y :: ys else y :: insertAscBy key x ys
  end.

Definition sortAscBy {A : Type} (key : A -> Z) (l : list A) : list A :=
  fold_right (insertAscBy key) [] l.

(** ** Rules of a warning level (routes.ts 361-481) *)

Module Rule.
Record t : Type := mk {
  id : Z;
  warningLevelId : Z;
  name : string;
  description : string;
  order : Z
}.
End Rule.

Definition withWarningLevels (ls : list WarningLevel.t) (db : Db) : Db :=
  mkDb (users db) ls (warnings db) (warningsSeq db)
       (punishments db) (punishmentsSeq db) (punishmentRules db).

Definition levelIs (id : Z) (l : WarningLevel.t) : bool :=
  WarningLevel.id l =? id.

Definition ruleOfLevel (levelId : Z) (r : Rule.t) : bool :=
  Rule.warningLevelId r =? levelId.

(** [error.message || fallback] *)
Definition messageOr (message fallback : string) : string :=
  if String.eqb message "" then fallback else message.

(** POST /api/warning-levels/:levelId/rules.  [levelId] is the integer the
    path parameter parses to, [newId] the value the serial column draws.  The
    insert raises when [rules.warning_level_id] refers to no level; [dbError]
    is the message of that error. *)
Definition createRule (dbError : string) (newId levelId : Z) (name description : string)
  (levels : list WarningLevel.t) (rules : list Rule.t) : Reply Rule.t * list Rule.t :=
  if String.eqb name "" || String.eqb description "" then
    (Fail 400 "Name and description are required", rules)
  else
    let existingRules :=
      firstn 1 (sortDescBy Rule.order (findMany (ruleOfLevel levelId) rules)) in
    let nextOrder :=
      match existingRules with
      | r :: _ => Rule.order r + 1
      | [] => 0
      end in
    if existsb (levelIs levelId) levels then
      let rule := Rule.mk newId levelId name description nextOrder in
      (Ok rule, rules ++ [rule])
    else (Fail 400 (messageOr dbError "Failed to create rule"), rules).

(** DELETE /api/rules/:id *)
Definition deleteRule (id : Z) (rules : list Rule.t) : Reply Rule.t * list Rule.t :=
  (NoContent, filter (fun r => negb (Rule.id r =? id)) rules).








(** Every rule refers to a level that is in the table (the foreign key of
    [rules.warning_level_id]). *)
Definition rulesResolved (levels : list WarningLevel.t) (rules : list Rule.t) : Prop :=
  forall r, In r rules ->
    exists l, In l levels /\ WarningLevel.id l = Rule.warningLevelId r.

(** ** DELETE /api/warning-levels/:id (routes.ts 334-359) *)

(** The delete raises when a rule refers to the level
    ([rules.warning_level_id]); [dbError] is the message of that error. *)
Definition deleteWarningLevel (dbError : string) (id : Z) (rules : list Rule.t) (db : Db)
  : Reply WarningLevel.t * Db :=
  let warningCount :=
    Z.of_nat (List.length (filter (fun w => Warning.levelId w =? id) (warnings db))) in
  if warningCount >? 0 then
    (Fail 400
       "Cannot delete warning level that has associated warnings. Remove the warnings first.",
     db)
  else if existsb (ruleOfLevel id) rules then (Fail 500 dbError, db)
  else
    (NoContent,
     withWarningLevels (filter (fun l => negb (levelIs id l)) (warningLevels db)) db).


(** Two rules of the red level, one of the orange level. *)
Definition rulesThree : list Rule.t :=
  [Rule.mk 1 3 "No slurs" "Slurs are banned" 0;
   Rule.mk 2 2 "No flooding" "Do not flood" 0;
   Rule.mk 3 3 "No threats" "Threats are banned" 1].

Definition banAt (threshold : Z) : RuleBody := mkRuleBody "ban" (Some threshold) None None.

(** ** GET /api/users (routes.ts 793-820) *)

Record UserWithWarnings : Type := mkUserWithWarnings {
  listedUser : User.t;
  warningCount : nat;
  activeWarnings : nat
}.

Definition usersWithWarnings (db : Db) : list UserWithWarnings :=
  map (fun user =>
         let userWarnings := findMany (warningOf (User.id user)) (warnings db) in
         mkUserWithWarnings user (List.length userWarnings)
           (List.length (filter (fun w => negb (Warning.messageIgnored w)) userWarnings)))
      (sortDescBy User.totalPoints (users db)).

(** ** /api/prompt-templates (routes.ts 822-954) *)

Module PromptTemplate.
Record t : Type := mk {
  id : Z;
  name : string;
  systemPrompt : string;
  isActive : bool;
  updatedAt : Z
}.
End PromptTemplate.

Module PromptHistory.
Record t : Type := mk {
  templateId : Z;
  systemPrompt : string;
  reason : string;
  createdAt : Z
}.
End PromptHistory.

Record PromptDb : Type := mkPromptDb {
  templates : list PromptTemplate.t;
  promptHistory : list PromptHistory.t
}.

Definition templateIs (id : Z) (t : PromptTemplate.t) : bool :=
  PromptTemplate.id t =? id.

(** [update(aiPromptTemplates).set({ isActive: false }).where(eq(isActive, true))] *)
Definition deactivateAll (ts : list PromptTemplate.t) : list PromptTemplate.t :=
  updateWhere PromptTemplate.isActive
    (fun t => PromptTemplate.mk (PromptTemplate.id t) (PromptTemplate.name t)
                (PromptTemplate.systemPrompt t) false (PromptTemplate.updatedAt t))
    ts.

(** POST /api/prompt-templates; [isActive] is the truthiness of the field. *)
Definition createTemplate (newId now : Z) (name systemPrompt : string)
  (isActive : bool) (pdb : PromptDb) : Reply PromptTemplate.t * PromptDb :=
  if String.eqb name "" || String.eqb systemPrompt "" then
    (Fail 400 "Missing required fields", pdb)
  else
    let ts := if isActive then deactivateAll (templates pdb) else templates pdb in
    let template := PromptTemplate.mk newId name systemPrompt isActive now in
    (Ok template,
     mkPromptDb (ts ++ [template])
       (promptHistory pdb ++
          [PromptHistory.mk newId systemPrompt "Initial template creation" now])).

(** PUT /api/prompt-templates/:id; [reason] is the empty string when the
    field is missing. *)
Definition updateTemplate (now id : Z) (name systemPrompt : string)
  (isActive : bool) (reason : string) (pdb : PromptDb)
  : Reply PromptTemplate.t * PromptDb :=
  let reason := if String.eqb reason "" then "Template update" else reason in
  if String.eqb name "" || String.eqb systemPrompt "" then
    (Fail 400 "Missing required fields", pdb)
  else
    let ts := if isActive then deactivateAll (templates pdb) else templates pdb in
    let set (t : PromptTemplate.t) :=
      PromptTemplate.mk (PromptTemplate.id t) name systemPrompt isActive now in
    match returning (templateIs id) set ts with
    | [] => (Fail 404 "Template not found", mkPromptDb ts (promptHistory pdb))
    | template :: _ =>
        (Ok template,
         mkPromptDb (updateWhere (templateIs id) set ts)
           (promptHistory pdb ++
              [PromptHistory.mk (PromptTemplate.id template) systemPrompt reason now]))
    end.

(** POST /api/prompt-templates/:id/activate *)
Definition activateTemplate (now id : Z) (pdb : PromptDb)
  : Reply PromptTemplate.t * PromptDb :=
  let ts := deactivateAll (templates pdb) in
  let set (t : PromptTemplate.t) :=
    PromptTemplate.mk (PromptTemplate.id t) (PromptTemplate.name t)
      (PromptTemplate.systemPrompt t) true now in
  match returning (templateIs id) set ts with
  | [] => (Fail 404 "Template not found", mkPromptDb ts (promptHistory pdb))
  | template :: _ =>
      (Ok template, mkPromptDb (updateWhere (templateIs id) set ts) (promptHistory pdb))
  end.

(** GET /api/prompt-templates/active, the query [getActivePromptTemplate]
    of the classifier issues as well. *)
Definition activeTemplate (pdb : PromptDb) : Reply PromptTemplate.t :=
  match findFirst PromptTemplate.isActive
          (sortDescBy PromptTemplate.updatedAt (templates pdb)) with
  | None => Fail 404 "No active template found"
  | Some template => Ok template
  end.

(** All active templates carry one id. *)
Definition atMostOneActive (pdb : PromptDb) : Prop :=
  forall a b, In a (templates pdb) -> In b (templates pdb) ->
    PromptTemplate.isActive a = true -> PromptTemplate.isActive b = true ->
    PromptTemplate.id a = PromptTemplate.id b.

(** Two templates, the first one active. *)
Definition promptsTwo : PromptDb :=
  mkPromptDb
    [PromptTemplate.mk 1 "strict" "Judge: {{RULES_LIST}}" true 10;
     PromptTemplate.mk 2 "lenient" "Be kind: {{RULES_LIST}}" false 20]
    [PromptHistory.mk 1 "Judge: {{RULES_LIST}}" "Initial template creation" 10;
     PromptHistory.mk 2 "Be kind: {{RULES_LIST}}" "Initial template creation" 20].

(** ** services/openai.ts *)

Module OpenAISettings.
Record t : Type := mk {
  apiKey : string;
  createdAt : Z
}.
End OpenAISettings.

(** [getOpenAIClient]: the key of the newest settings row; [None] when it
    throws "OpenAI API key not configured". *)
Definition getOpenAIClient (settings : list OpenAISettings.t) : option string :=
  match hd_error (sortDescBy OpenAISettings.createdAt settings) with
  | Some s =>
      if String.eqb (OpenAISettings.apiKey s) "" then None
      else Some (OpenAISettings.apiKey s)
  | None => None
  end.

(** [String.prototype.replace] with a string pattern: the first occurrence
    is replaced, and in the replacement [$$], [$&], [$`] and [$'] stand for a
    dollar sign, the match, the text before it and the text after it. *)
Fixpoint dropPrefix (pattern s : string) : option string :=
  match pattern, s with
  | EmptyString, _ => Some s
  | String a pattern', String b s' =>
      if Ascii.eqb a b then dropPrefix pattern' s' else None
  | String _ _, EmptyString => None
  end.

Fixpoint splitOn (pattern s : string) : option (string * string) :=
  match dropPrefix pattern s with
  | Some after => Some (EmptyString, after)
  | None =>
      match s with
      | EmptyString => None
      | String c rest =>
          match splitOn pattern rest with
          | Some (before, after) => Some (String c before, after)
          | None => None
          end
      end
  end.

Fixpoint getSubstitution (matched before after replacement : string) : string :=
  match replacement with
  | EmptyString => EmptyString
  | String c rest =>
      if Ascii.eqb c "$" then
        match rest with
        | String d rest' =>
            if Ascii.eqb d "$" then
              String "$" (getSubstitution matched before after rest')
            else if Ascii.eqb d "&" then
              (matched ++ getSubstitution matched before after rest')%string
            else if Ascii.eqb d "`" then
              (before ++ getSubstitution matched before after rest')%string
            else if Ascii.eqb d "'" then
              (after ++ getSubstitution matched before after rest')%string
            else String c (getSubstitution matched before after rest)
        | EmptyString => String c EmptyString
        end
      else String c (getSubstitution matched before after rest)
  end.

Definition replace (s pattern replacement : string) : string :=
  match splitOn pattern s with
  | None => s
  | Some (before, after) =>
      (before ++ getSubstitution pattern before after replacement ++ after)%string
  end.

Definition newline : string := String "010" EmptyString.

Definition showZ (z : Z) : string := NilZero.string_of_int (Z.to_int z).

(** [`Rule ${rule.id}: ${rule.name} - ${rule.description} (Warning Level: ${rule.level.name})`] *)
Definition ruleLine (rule : Rule.t) (level : WarningLevel.t) : string :=
  ("Rule " ++ showZ (Rule.id rule) ++ ": " ++ Rule.name rule ++ " - " ++
   Rule.description rule ++ " (Warning Level: " ++ WarningLevel.name level ++ ")")%string.

(** The lines of the rules with their levels; [None] when a rule has no
    level to read the name of. *)
Fixpoint ruleLines (levels : list WarningLevel.t) (rules : list Rule.t)
  : option (list string) :=
  match rules with
  | [] => Some []
  | rule :: rest =>
      match findFirst (levelIs (Rule.warningLevelId rule)) levels with
      | None => None
      | Some level => option_map (cons (ruleLine rule level)) (ruleLines levels rest)
      end
  end.

Definition RULES_LIST : string := "{{RULES_LIST}}".

(** [getActivePromptTemplate]: [None] when it throws. *)
Definition getActivePromptTemplate (pdb : PromptDb) (levels : list WarningLevel.t)
  (rules : list Rule.t) : option string :=
  match findFirst PromptTemplate.isActive
          (sortDescBy PromptTemplate.updatedAt (templates pdb)) with
  | None => None
  | Some template =>
      match ruleLines levels (sortAscBy Rule.id rules) with
      | None => None
      | Some lines =>
          let rulesList := String.concat newline lines in
          Some (replace (PromptTemplate.systemPrompt template) RULES_LIST rulesList)
      end
  end.

(** What [JSON.parse] yields of the reply, as far as the handlers read it:
    a field is [None] when it is null or missing, [parsedDetected] is the
    truthiness of [violation.detected], and the level name and the
    explanation are taken to be strings when they are present. *)
Record ParsedResult : Type := mkParsed {
  parsedDetected : option bool;
  parsedLevelName : option string;
  parsedExplanation : option string
}.

(** The chat completion on a system prompt and a user prompt, parsed;
    [None] when the request or the parse throws. *)
Definition Completion : Type := string -> string -> option ParsedResult.

Definition userPromptOf (content : string) (context : list ContextMessage) : string :=
  let contextString :=
    String.concat newline
      (map (fun msg => (ctxAuthor msg ++ ": " ++ ctxContent msg)%string) context) in
  ("Previous messages:" ++ newline ++ contextString ++ newline ++ newline ++
   "Message to analyze: " ++ content)%string.

Definition analysisFailed : AnalysisResult :=
  mkAnalysis false None "Error analyzing content".

(** [analyzeContent]: [None] when it throws. *)
Definition analyzeContent (settings : list OpenAISettings.t) (pdb : PromptDb)
  (levels : list WarningLevel.t) (rules : list Rule.t) (complete : Completion)
  (content : string) (context : list ContextMessage) : option AnalysisResult :=
  match getOpenAIClient settings with
  | None => None
  | Some _ =>
      match getActivePromptTemplate pdb levels rules with
      | None => None
      | Some systemPrompt =>
          match complete systemPrompt (userPromptOf content context) with
          | Some result =>
              Some (mkAnalysis
                      (match parsedDetected result with Some b => b | None => false end)
                      (parsedLevelName result)
                      (match parsedExplanation result with
                       | Some e => e
                       | None => "No explanation provided"
                       end))
          | None => Some analysisFailed
          end
      end
  end.

(** The classifier the Discord service calls: the [k]-th call reaches the
    completion [complete k]. *)
Definition classifierOf (settings : list OpenAISettings.t) (pdb : PromptDb)
  (levels : list WarningLevel.t) (rules : list Rule.t) (complete : nat -> Completion)
  : Classifier :=
  fun k content context =>
    analyzeContent settings pdb levels rules (complete k) content context.

Fixpoint hasDollar (s : string) : bool :=
  match s with
  | EmptyString => false
  | String c rest => Ascii.eqb c "$" || hasDollar rest
  end.

(** * Properties *)

(** ** Tables and queries *)

Lemma find_updateWhere {A : Type} (p : A -> bool) (f : A -> A) (l : list A) :
  (forall x, p (f x) = p x) ->
  find p (updateWhere p f l) = option_map f (find p l).
Proof.
  intros Hp. induction l as [|x l IH]; simpl; [reflexivity|].
  destruct (p x) eqn:Hx.
  - rewrite Hp, Hx. reflexivity.
  - rewrite Hx. exact IH.
Qed.

Lemma hd_error_returning {A : Type} (p : A -> bool) (f : A -> A) (l : list A) :
  hd_error (returning p f l) = option_map f (find p l).
Proof.
  unfold returning. induction l as [|x l IH]; simpl; [reflexivity|].
  destruct (p x); simpl; [reflexivity | exact IH].
Qed.

Lemma insertDesc_perm r l : Permutation (r :: l) (insertDesc r l).
Proof.
  induction l as [|x l IH]; simpl; [apply Permutation_refl|].
  destruct (PunishmentRule.pointThreshold x <=? PunishmentRule.pointThreshold r).
  - apply Permutation_refl.
  - eapply perm_trans; [apply perm_swap | apply perm_skip, IH].
Qed.

Lemma orderByThresholdDesc_perm l : Permutation l (orderByThresholdDesc l).
Proof.
  induction l as [|x l IH]; simpl; [constructor|].
  eapply perm_trans; [apply perm_skip, IH | apply insertDesc_perm].
Qed.

Lemma insertDesc_descending r l : descending l -> descending (insertDesc r l).
Proof.
  unfold descending. induction l as [|x l IH]; intros Hs; simpl.
  - repeat constructor.
  - apply StronglySorted_inv in Hs as [Hl Hx].
    destruct (PunishmentRule.pointThreshold x <=? PunishmentRule.pointThreshold r) eqn:E.
    + apply Z.leb_le in E. constructor; [constructor; assumption|].
      constructor; [exact E|].
      rewrite Forall_forall in *. intros y Hy. specialize (Hx y Hy). lia.
    + apply Z.leb_gt in E. constructor; [apply IH, Hl|].
      rewrite Forall_forall in *. intros y Hy.
      apply (Permutation_in _ (Permutation_sym (insertDesc_perm r l))) in Hy.
      destruct Hy as [<-|Hy]; [lia | apply Hx, Hy].
Qed.

Lemma orderByThresholdDesc_descending l : descending (orderByThresholdDesc l).
Proof.
  induction l as [|x l IH]; simpl; [constructor | apply insertDesc_descending, IH].
Qed.

Lemma activeRulesDesc_descending db : descending (activeRulesDesc db).
Proof. apply orderByThresholdDesc_descending. Qed.

Lemma In_activeRulesDesc db r : In r (activeRulesDesc db) <-> activeRule db r.
Proof.
  unfold activeRulesDesc, activeRule, findMany. rewrite <- filter_In. split; intros H.
  - eapply Permutation_in; [apply Permutation_sym, orderByThresholdDesc_perm | exact H].
  - eapply Permutation_in; [apply orderByThresholdDesc_perm | exact H].
Qed.

Lemma descending_cons_inv x l :
  descending (x :: l) ->
  descending l /\
  forall y, In y l -> PunishmentRule.pointThreshold y <= PunishmentRule.pointThreshold x.
Proof.
  intros H. apply StronglySorted_inv in H as [Hl Hx]. split; [exact Hl|].
  rewrite Forall_forall in Hx. exact Hx.
Qed.

Lemma meets_le total r :
  meets total r = true <-> PunishmentRule.pointThreshold r <= total.
Proof. unfold meets. rewrite Z.geb_le. lia. Qed.



Lemma geb_false_lt a b : (a >=? b) = false -> a < b.
Proof. rewrite Z.geb_leb. apply Z.leb_gt. Qed.

(** ** The recalculation scan *)








(** ** Recalculation *)






(** ** Ignoring a warning *)

Lemma ignoreScan_first total rules st :
  ignoreScan total rules st =
  match find (meets total) rules with
  | Some r =>
      match PunishmentRule.type r with
      | ban => (false, snd st)
      | mute => (fst st, false)
      end
  | None => st
  end.
Proof.
  induction rules as [|x rules IH]; [reflexivity|].
  simpl. unfold meets at 1. destruct (_ >=? _); [reflexivity | exact IH].
Qed.

(** The first met rule of a descending scan restricted by [p] is a met rule
    satisfying [p] with the highest threshold among them. *)
Lemma find_descending_highest total (p : PunishmentRule.t -> bool) rules r :
  descending rules ->
  find (fun x => meets total x && p x) rules = Some r ->
  In r rules /\ PunishmentRule.pointThreshold r <= total /\ p r = true /\
  forall r', In r' rules -> PunishmentRule.pointThreshold r' <= total ->
             p r' = true ->
             PunishmentRule.pointThreshold r' <= PunishmentRule.pointThreshold r.
Proof.
  induction rules as [|x rules IH]; intros Hs H; [discriminate|].
  apply descending_cons_inv in Hs as [Hs Hx]. simpl in H.
  destruct (meets total x && p x) eqn:E.
  - injection H as <-. apply andb_true_iff in E as [E1 E2]. apply meets_le in E1.
    repeat split; auto; [now left|].
    intros r' [<-|Hin] _ _; [lia | apply Hx, Hin].
  - destruct (IH Hs H) as (Hin & Hle & Hp & Hhigh).
    repeat split; auto; [now right|].
    intros r' [<-|Hin'] Hle' Hp'; [|now apply Hhigh].
    apply meets_le in Hle'. rewrite Hle', Hp' in E. discriminate.
Qed.

Lemma find_meets_none total (p : PunishmentRule.t -> bool) rules :
  find (fun x => meets total x && p x) rules = None ->
  forall r, In r rules -> p r = true -> total < PunishmentRule.pointThreshold r.
Proof.
  intros H r Hin Hp. pose proof (find_none _ _ H r Hin) as Hf. simpl in Hf.
  rewrite Hp, andb_true_r in Hf. now apply geb_false_lt.
Qed.

Lemma find_ext {A : Type} (p q : A -> bool) l :
  (forall x, p x = q x) -> find p l = find q l.
Proof.
  intros H. induction l as [|x l IH]; simpl; [reflexivity|].
  rewrite H, IH. reflexivity.
Qed.

Lemma userIs_eq userId u : userIs userId u = true <-> User.id u = userId.
Proof. unfold userIs. apply String.eqb_eq. Qed.

Lemma eqb_empty_false s : s <> "" -> String.eqb s "" = false.
Proof. intros H. now apply String.eqb_neq. Qed.

Lemma find_user_updateWhere userId (f : User.t -> User.t) us :
  (forall u, User.id (f u) = User.id u) ->
  find (userIs userId) (updateWhere (userIs userId) f us) =
  option_map f (find (userIs userId) us).
Proof.
  intros H. apply find_updateWhere. intros u. unfold userIs. now rewrite H.
Qed.

Lemma find_warning_updateWhere id (f : Warning.t -> Warning.t) ws :
  (forall w, Warning.id (f w) = Warning.id w) ->
  find (warningIs id) (updateWhere (warningIs id) f ws) =
  option_map f (find (warningIs id) ws).
Proof.
  intros H. apply find_updateWhere. intros w. unfold warningIs. now rewrite H.
Qed.

Lemma hasRow_existsb userId db :
  hasRow userId db <-> existsb (userIs userId) (users db) = true.
Proof.
  unfold hasRow. rewrite existsb_exists. split; intros (u & Hin & Hid); exists u;
    (split; [exact Hin | now apply userIs_eq]).
Qed.

(** The database a successful [ignoreWarning] leaves behind, and its answer. *)
Lemma ignoreWarning_ok now id reviewer reason db warning user :
  reviewer <> "" -> reason <> "" ->
  hasRow reviewer db ->
  findFirst (warningIs id) (warnings db) = Some warning ->
  userAfter (Warning.userId warning) db = Some user ->
  inInteger (User.totalPoints user - Warning.points warning) = true ->
  let newTotal := User.totalPoints user - Warning.points warning in
  let top := find (meets newTotal) (activeRulesDesc db) in
  let keepBan :=
    User.isBanned user && match top with Some r => isBan r | None => false end in
  let keepMute :=
    User.isMuted user && match top with Some r => isMute r | None => false end in
  fst (ignoreWarning now id reviewer reason db) =
    Json (WarningBody (markIgnored now reviewer reason warning) (User.username user)) /\
  warnings (snd (ignoreWarning now id reviewer reason db)) =
    updateWhere (warningIs id) (markIgnored now reviewer reason) (warnings db) /\
  userAfter (User.id user) (snd (ignoreWarning now id reviewer reason db)) =
    Some (User.mk (User.id user) (User.username user) newTotal keepBan keepMute
            (if User.isMuted user && negb keepMute then None
             else User.muteExpiresAt user)).
Proof.
  intros Hrev Hreason Hrow Hw Hu Hint. unfold userAfter, findFirst in *. cbv zeta.
  apply hasRow_existsb in Hrow.
  assert (Hid : User.id user = Warning.userId warning)
    by (apply find_some in Hu as [_ Hu']; now apply userIs_eq).
  rewrite <- Hid in Hu. unfold ignoreWarning, findFirst.
  rewrite (eqb_empty_false _ Hrev), (eqb_empty_false _ Hreason). simpl orb.
  cbv iota. rewrite Hw. cbv beta iota. rewrite <- Hid, Hu. rewrite Hrow.
  cbn [negb]. cbv zeta. rewrite Hint. cbn [negb].
  unfold activeRulesDesc, withUsers, withWarnings.
  cbn [users warnings warningLevels warningsSeq punishments punishmentsSeq
       punishmentRules].
  fold (activeRulesDesc db). rewrite !ignoreScan_first.
  set (newTotal := User.totalPoints user - Warning.points warning).
  destruct (find (meets newTotal) (activeRulesDesc db)) as [r|] eqn:Htop.
  - unfold isBan, isMute.
    destruct (PunishmentRule.type r), (User.isBanned user) eqn:Hb,
      (User.isMuted user) eqn:Hm; simpl;
      rewrite find_warning_updateWhere, Hw by reflexivity; simpl;
      rewrite !find_user_updateWhere, Hu by reflexivity; simpl;
      repeat split; destruct user; simpl in *; subst; reflexivity.
  - destruct (User.isBanned user) eqn:Hb, (User.isMuted user) eqn:Hm; simpl;
      rewrite find_warning_updateWhere, Hw by reflexivity; simpl;
      rewrite !find_user_updateWhere, Hu by reflexivity; simpl;
      repeat split; destruct user; simpl in *; subst; reflexivity.
Qed.






(** The handler never looks at [messageIgnored]: an already ignored warning
    is ignored again by any reviewer who has a users row, its sub-record
    rewritten and its points subtracted again. *)
Lemma ignoreWarning_ignores_again now id reviewer reason db warning user :
  reviewer <> "" -> reason <> "" ->
  hasRow reviewer db ->
  findFirst (warningIs id) (warnings db) = Some warning ->
  Warning.messageIgnored warning = true ->
  userAfter (Warning.userId warning) db = Some user ->
  inInteger (User.totalPoints user - Warning.points warning) = true ->
  fst (ignoreWarning now id reviewer reason db) =
    Json (WarningBody (markIgnored now reviewer reason warning) (User.username user)) /\
  findFirst (warningIs id) (warnings (snd (ignoreWarning now id reviewer reason db))) =
    Some (markIgnored now reviewer reason warning) /\
  option_map User.totalPoints
    (userAfter (User.id user) (snd (ignoreWarning now id reviewer reason db))) =
    Some (User.totalPoints user - Warning.points warning).
Proof.
  intros Hrev Hreason Hrow Hw _ Hu Hint.
  destruct (ignoreWarning_ok now id reviewer reason db warning user
              Hrev Hreason Hrow Hw Hu Hint) as (Hresp & Hws & Hafter).
  cbv zeta in Hafter. split; [exact Hresp|]. split.
  - rewrite Hws. unfold findFirst in *.
    rewrite find_warning_updateWhere, Hw by reflexivity. reflexivity.
  - rewrite Hafter. reflexivity.
Qed.

(** C2 on the code: the moderators "mod1" and "mod2" have users rows; the
    warning of [dbIgnoredOnce] is already ignored, by "mod1"; a second call,
    by "mod2", is answered with the warning as JSON, rewrites the ignore
    sub-record and takes the 5 points off once more. *)
Theorem reignore_rewrites_and_subtracts_again :
  map User.id (users dbIgnoredOnce) = ["u1"; "mod1"; "mod2"; "system"] /\
  fst (ignoreWarning 100 1 "mod1" "false positive" (withStaff dbOneRed)) =
    Json (WarningBody
            (Warning.mk 1 "u1" 3 5 "spam" "buy now" 0 false
               true (Some 100) (Some "mod1") (Some "false positive")) "ann") /\
  findFirst (warningIs 1) (warnings dbIgnoredOnce) =
    Some (Warning.mk 1 "u1" 3 5 "spam" "buy now" 0 false
            true (Some 100) (Some "mod1") (Some "false positive")) /\
  option_map User.totalPoints (userAfter "u1" dbIgnoredOnce) = Some 0 /\
  fst (ignoreWarning 200 1 "mod2" "duplicate" dbIgnoredOnce) =
    Json (WarningBody
            (Warning.mk 1 "u1" 3 5 "spam" "buy now" 0 false
               true (Some 200) (Some "mod2") (Some "duplicate")) "ann") /\
  findFirst (warningIs 1)
    (warnings (snd (ignoreWarning 200 1 "mod2" "duplicate" dbIgnoredOnce))) =
    Some (Warning.mk 1 "u1" 3 5 "spam" "buy now" 0 false
            true (Some 200) (Some "mod2") (Some "duplicate")) /\
  option_map User.totalPoints
    (userAfter "u1" (snd (ignoreWarning 200 1 "mod2" "duplicate" dbIgnoredOnce))) =
    Some (-5).
Proof. repeat split. Qed.

(** C1 on the code: with users rows for the moderators, the ledger of
    [dbOneRed] is consistent and stays so after the first ignore, which
    succeeds; ignoring the same warning again succeeds too and leaves the
    user at -5 points against a ledger total of 0; and a Discord message
    classified red raises the user to 10 points while the ledger, to which no
    warning is added, still totals 5. *)
Theorem ledger_total_drifts :
  ledgerConsistentb dbOneRed = true /\
  ledgerConsistentb (withStaff dbOneRed) = true /\
  map User.id (users (withStaff dbOneRed)) = ["u1"; "mod1"; "mod2"; "system"] /\
  fst (ignoreWarning 100 1 "mod1" "false positive" (withStaff dbOneRed)) =
    Json (WarningBody
            (Warning.mk 1 "u1" 3 5 "spam" "buy now" 0 false
               true (Some 100) (Some "mod1") (Some "false positive")) "ann") /\
  ledgerConsistentb dbIgnoredOnce = true /\
  fst (ignoreWarning 200 1 "mod2" "duplicate" dbIgnoredOnce) =
    Json (WarningBody
            (Warning.mk 1 "u1" 3 5 "spam" "buy now" 0 false
               true (Some 200) (Some "mod2") (Some "duplicate")) "ann") /\
  ledgerConsistentb
    (snd (ignoreWarning 200 1 "mod2" "duplicate" dbIgnoredOnce)) = false /\
  option_map User.totalPoints
    (userAfter "u1" (snd (ignoreWarning 200 1 "mod2" "duplicate" dbIgnoredOnce))) =
    Some (-5) /\
  ledgerTotal "u1" (snd (ignoreWarning 200 1 "mod2" "duplicate" dbIgnoredOnce)) = 0 /\
  ledgerConsistentb
    (botDb (onMessage (fun _ => true) 300 redVerdict "u1" "ann" dbOneRed)) = false /\
  option_map User.totalPoints
    (userAfter "u1"
       (botDb (onMessage (fun _ => true) 300 redVerdict "u1" "ann" dbOneRed))) =
    Some 10 /\
  warnings (botDb (onMessage (fun _ => true) 300 redVerdict "u1" "ann" dbOneRed)) =
    warnings dbOneRed /\
  ledgerTotal "u1"
    (botDb (onMessage (fun _ => true) 300 redVerdict "u1" "ann" dbOneRed)) = 5.
Proof. repeat split. Qed.

(** ** Resetting a user *)

Lemma map_updateWhere_invariant {A B : Type} (g : A -> B) (p : A -> bool)
  (f : A -> A) (l : list A) :
  (forall x, g (f x) = g x) -> map g (updateWhere p f l) = map g l.
Proof.
  intros H. unfold updateWhere. rewrite map_map. apply map_ext.
  intros x. destruct (p x); [apply H | reflexivity].
Qed.

Lemma In_updateWhere {A : Type} (p : A -> bool) (f : A -> A) (l : list A) y :
  In y (updateWhere p f l) <->
  exists x, In x l /\ y = if p x then f x else x.
Proof.
  unfold updateWhere. rewrite in_map_iff. split; intros (x & H1 & H2).
  - exists x. now split.
  - exists x. now split.
Qed.

Lemma warningOf_eq userId w : warningOf userId w = true <-> Warning.userId w = userId.
Proof. unfold warningOf. apply String.eqb_eq. Qed.

Lemma no_points_left_after_marking now by_ reason userId ws :
  findMany (nonIgnoredOf userId)
    (updateWhere (warningOf userId) (markIgnored now by_ reason) ws) = [].
Proof.
  unfold findMany, updateWhere, nonIgnoredOf.
  induction ws as [|w ws IH]; [reflexivity|]. simpl.
  destruct (warningOf userId w) eqn:E; simpl.
  - unfold warningOf in *. simpl. rewrite E. simpl. exact IH.
  - rewrite E. simpl. exact IH.
Qed.

Lemma resetWarnings_guard userId db :
  resetAccepted userId db ->
  existsb (warningOf userId) (warnings db) &&
  negb (existsb (userIs "system") (users db)) = false.
Proof.
  intros [Hsys|Hnone].
  - apply hasRow_existsb in Hsys. rewrite Hsys. apply andb_false_r.
  - apply andb_false_iff. left.
    destruct (existsb (warningOf userId) (warnings db)) eqn:E; [|reflexivity].
    apply existsb_exists in E as (w & Hin & Hw). apply warningOf_eq in Hw.
    now elim (Hnone w Hin).
Qed.

(** C9, as the code has it.  For an existing user whose reset the database
    accepts, [resetWarnings] answers success; every warning of the user,
    whether it was ignored before or not, ends ignored at [now] by "system"
    for "Reset for testing purposes"; warnings of other users are untouched;
    no row is deleted and the audit data of every row is as before; the
    user's ledger total is then 0, and the user row has [totalPoints] 0, no
    ban, no mute and no expiry. *)
Theorem resetWarnings_marks_every_warning :
  forall now userId db user,
    userAfter userId db = Some user ->
    resetAccepted userId db ->
    fst (resetWarnings now userId db) = Json SuccessBody /\
    map auditData (warnings (snd (resetWarnings now userId db))) =
      map auditData (warnings db) /\
    (forall w', In w' (warnings (snd (resetWarnings now userId db))) ->
                Warning.userId w' = userId ->
                Warning.messageIgnored w' = true /\
                Warning.ignoredAt w' = Some now /\
                Warning.ignoredBy w' = Some "system" /\
                Warning.ignoreReason w' = Some "Reset for testing purposes") /\
    (forall w, In w (warnings db) -> Warning.userId w <> userId ->
               In w (warnings (snd (resetWarnings now userId db)))) /\
    ledgerTotal userId (snd (resetWarnings now userId db)) = 0 /\
    userAfter userId (snd (resetWarnings now userId db)) =
      Some (User.mk (User.id user) (User.username user) 0 false false None).
Proof.
  intros now userId db user Hu Hacc. unfold userAfter, findFirst in *.
  unfold resetWarnings, findFirst. rewrite Hu, (resetWarnings_guard _ _ Hacc).
  cbv zeta. simpl.
  split; [reflexivity|]. split; [|split; [|split; [|split]]].
  - apply map_updateWhere_invariant. reflexivity.
  - intros w' Hin Hid. apply In_updateWhere in Hin as (w & _ & ->).
    destruct (warningOf userId w) eqn:E; [repeat split|].
    apply warningOf_eq in Hid. congruence.
  - intros w Hin Hid. apply In_updateWhere. exists w. split; [exact Hin|].
    destruct (warningOf userId w) eqn:E; [|reflexivity].
    apply warningOf_eq in E. contradiction.
  - unfold ledgerTotal. simpl. now rewrite no_points_left_after_marking.
  - rewrite find_user_updateWhere, Hu by reflexivity. reflexivity.
Qed.

(** The reset of [dbWithIgnored], where the system actor has a users row:
    both warnings stay in the table, the user is cleared. *)
Lemma resetWarnings_on_reviewed_user :
  map auditData (warnings (snd (resetWarnings 900 "u1" dbWithIgnored))) =
    map auditData (warnings dbWithIgnored) /\
  ledgerTotal "u1" (snd (resetWarnings 900 "u1" dbWithIgnored)) = 0 /\
  userAfter "u1" (snd (resetWarnings 900 "u1" dbWithIgnored)) =
    Some (User.mk "u1" "ann" 0 false false None).
Proof.
  destruct (resetWarnings_marks_every_warning 900 "u1" dbWithIgnored _ eq_refl)
    as (_ & Haudit & _ & _ & Htotal & Huser).
  { left. exists (User.mk "system" "system" 0 false false None).
    split; [simpl; auto | reflexivity]. }
  split; [exact Haudit|]. split; [exact Htotal | exact Huser].
Defined.

(** C9 as stated fails on its last clause: the moderator and the system
    actor have users rows, the reset answers success, and the warning the
    moderator had ignored at time 50 carries, after the reset, the system
    attribution and the reset's time and reason. *)
Lemma resetWarnings_overwrites_earlier_review :
  map User.id (users dbWithIgnored) = ["u1"; "mod1"; "mod2"; "system"] /\
  fst (resetWarnings 900 "u1" dbWithIgnored) = Json SuccessBody /\
  findFirst (warningIs 1) (warnings dbWithIgnored) =
    Some (Warning.mk 1 "u1" 1 1 "spam" "buy now" 0 false
            true (Some 50) (Some "mod1") (Some "false positive")) /\
  findFirst (warningIs 1) (warnings (snd (resetWarnings 900 "u1" dbWithIgnored))) =
    Some (Warning.mk 1 "u1" 1 1 "spam" "buy now" 0 false
            true (Some 900) (Some "system") (Some "Reset for testing purposes")).
Proof. repeat split. Qed.

(** ** The punishment decision of the recording handlers *)

Lemma moderateLoop_first now userId user total rules db :
  moderateLoop now userId user total rules db =
  match find (fun r => meets total r && (isBan r || negb (User.isMuted user))) rules with
  | Some r =>
      match PunishmentRule.type r with
      | ban => (Some ban, banUser now userId db)
      | mute => (Some mute, muteUser now userId r db)
      end
  | None => (None, db)
  end.
Proof.
  induction rules as [|x rules IH]; [reflexivity|].
  simpl. unfold meets at 1, isBan at 1.
  destruct (total >=? PunishmentRule.pointThreshold x); simpl; [|exact IH].
  destruct (PunishmentRule.type x) eqn:Ht; simpl; [now rewrite Ht|].
  destruct (User.isMuted user); simpl; [exact IH | now rewrite Ht].
Qed.

Lemma botLoop_first exec now authorId total rules db :
  fst (fst (botLoop exec now authorId total rules db)) =
  option_map PunishmentRule.type (find (fun r => meets total r && exec r) rules).
Proof.
  induction rules as [|x rules IH]; [reflexivity|].
  simpl. unfold meets at 1.
  destruct (total >=? PunishmentRule.pointThreshold x); simpl; [|exact IH].
  destruct (exec x); simpl; [reflexivity|].
  destruct (botLoop exec now authorId total rules db) as [[a l] d]. exact IH.
Qed.

Lemma activeRulesDesc_mute5_ban10 db m b :
  Permutation (punishmentRules db) [m; b] ->
  PunishmentRule.isActive m = true -> PunishmentRule.isActive b = true ->
  PunishmentRule.pointThreshold m = 5 -> PunishmentRule.pointThreshold b = 10 ->
  activeRulesDesc db = [b; m].
Proof.
  intros Hp Hm Hb Htm Htb. apply Permutation_sym, Permutation_length_2_inv in Hp.
  unfold activeRulesDesc, findMany.
  destruct Hp as [-> | ->]; simpl; rewrite Hm, Hb; simpl; rewrite Htm, Htb; reflexivity.
Qed.

(** C3, as the code has it.  Both recording handlers walk the active rules in
    descending threshold order and apply the first met rule they can act on,
    passing over the others: the test endpoint acts on a ban rule, and on a
    mute rule when the user was not muted; the Discord handler acts on a rule
    whose platform call succeeds.  The rule applied has the highest threshold
    among the met active rules that can be acted on, whatever the insertion
    order; for a user who is not muted the test endpoint applies the first met
    rule.  With exactly the active rules mute at 5 and ban at 10, in either
    insertion order, a total of 10 bans on the test endpoint, and in the
    Discord handler when the ban call succeeds. *)
Theorem punishment_decision_first_applicable :
  forall now userId user exec total db,
    (moderateLoop now userId user total (activeRulesDesc db) db =
     match find (fun r => meets total r && (isBan r || negb (User.isMuted user)))
                (activeRulesDesc db) with
     | Some r =>
         match PunishmentRule.type r with
         | ban => (Some ban, banUser now userId db)
         | mute => (Some mute, muteUser now userId r db)
         end
     | None => (None, db)
     end) /\
    (fst (fst (botLoop exec now userId total (activeRulesDesc db) db)) =
     option_map PunishmentRule.type
       (find (fun r => meets total r && exec r) (activeRulesDesc db))) /\
    (forall p r,
       find (fun x => meets total x && p x) (activeRulesDesc db) = Some r ->
       activeRule db r /\ PunishmentRule.pointThreshold r <= total /\ p r = true /\
       forall r', activeRule db r' -> PunishmentRule.pointThreshold r' <= total ->
                  p r' = true ->
                  PunishmentRule.pointThreshold r' <= PunishmentRule.pointThreshold r) /\
    (User.isMuted user = false ->
     find (fun r => meets total r && (isBan r || negb (User.isMuted user)))
          (activeRulesDesc db) =
     find (meets total) (activeRulesDesc db)) /\
    (forall m b,
       Permutation (punishmentRules db) [m; b] ->
       PunishmentRule.isActive m = true -> PunishmentRule.isActive b = true ->
       PunishmentRule.type m = mute -> PunishmentRule.pointThreshold m = 5 ->
       PunishmentRule.type b = ban -> PunishmentRule.pointThreshold b = 10 ->
       total = 10 ->
       moderateLoop now userId user total (activeRulesDesc db) db =
         (Some ban, banUser now userId db) /\
       userAfter userId (banUser now userId db) =
         option_map
           (fun u => User.mk (User.id u) (User.username u) (User.totalPoints u)
                       true (User.isMuted u) (User.muteExpiresAt u))
           (userAfter userId db) /\
       (exec b = true ->
        fst (fst (botLoop exec now userId total (activeRulesDesc db) db)) = Some ban)).
Proof.
  intros now userId user exec total db.
  split; [apply moderateLoop_first|]. split; [apply botLoop_first|].
  split; [|split].
  - intros p r Hr.
    destruct (find_descending_highest _ _ _ _ (activeRulesDesc_descending db) Hr)
      as (Hin & Hle & Hp & Hhigh).
    split; [now apply In_activeRulesDesc|]. do 2 (split; [assumption|]).
    intros r' Hr'. apply Hhigh. now apply In_activeRulesDesc.
  - intros Hm. apply find_ext. intros x. rewrite Hm. simpl.
    now rewrite orb_true_r, andb_true_r.
  - intros m b Hp Hma Hba Hmt Hm5 Hbt Hb10 ->.
    rewrite moderateLoop_first, botLoop_first.
    rewrite (activeRulesDesc_mute5_ban10 db m b Hp Hma Hba Hm5 Hb10).
    simpl. unfold meets, isBan. rewrite Hb10, Hbt. simpl. rewrite Hbt.
    split; [reflexivity|]. split.
    + unfold userAfter, findFirst, banUser. simpl.
      now rewrite find_user_updateWhere by reflexivity.
    + intros ->. simpl. now rewrite Hbt.
Qed.

(** C3 as stated fails.  On the test endpoint a muted user at 7 points takes
    an orange warning under the active rules ban at 5 and mute at 10: the
    first rule met by the total 10 is the mute, but the loop passes it over
    and applies the ban below it.  In the Discord handler, under mute at 5
    and ban at 10, a user reaching 10 points is muted when the platform ban
    fails and the timeout succeeds. *)
Lemma decision_passes_over_first_met_rule :
  find (meets 10) (activeRulesDesc dbMutedAt7) = Some mute10 /\
  fst (fst (testModerate 500 orangeVerdict "flood" "u1" "ann" dbMutedAt7)) =
    Json (ModerateBody "orange" 3 10 (Some ban)) /\
  userAfter "u1" (snd (testModerate 500 orangeVerdict "flood" "u1" "ann" dbMutedAt7)) =
    Some (User.mk "u1" "ann" 10 true true (Some 3600000)) /\
  activeRulesDesc dbOneRed = [ban10; mute5] /\
  option_map paramTotalPoints
    (sent (onMessage isMute 300 redVerdict "u1" "ann" dbOneRed)) = Some 10 /\
  option_map paramPunishment
    (sent (onMessage isMute 300 redVerdict "u1" "ann" dbOneRed)) = Some (Some mute).
Proof. repeat split. Qed.

(** ** Unknown level names *)

Lemma lowerAscii_idem c : lowerAscii (lowerAscii c) = lowerAscii c.
Proof. destruct c as [[] [] [] [] [] [] [] []]; reflexivity. Qed.

Lemma toLowerCase_idem s : toLowerCase (toLowerCase s) = toLowerCase s.
Proof.
  induction s as [|c s IH]; simpl; [reflexivity|].
  now rewrite lowerAscii_idem, IH.
Qed.

Lemma inWarningConfigs_not_none level :
  inWarningConfigs level = true -> String.eqb level "none" = false.
Proof.
  intros H. destruct (String.eqb_spec level "none") as [->|]; [|reflexivity].
  discriminate H.
Qed.

(** The two ways out of [mapAnalysisToWarning]: no warning, with the
    invalid level logged when a violation was reported; or a warning at the
    lowered level name, which is then a key of [WARNING_CONFIGS]. *)
Lemma mapAnalysisToWarning_cases analysis :
  (exists log,
     mapAnalysisToWarning analysis = (noWarning, log) /\
     (detected analysis = true ->
      log = [InvalidWarningLevel (option_map toLowerCase (levelName analysis))])) \/
  (exists name,
     levelName analysis = Some name /\
     inWarningConfigs (toLowerCase name) = true /\
     mapAnalysisToWarning analysis =
       (mkWarningResult (toLowerCase name) (explanation analysis)
          (option_map snd (WARNING_CONFIGS (toLowerCase name)))
          (option_map fst (WARNING_CONFIGS (toLowerCase name))), [])).
Proof.
  unfold mapAnalysisToWarning.
  destruct (detected analysis); simpl.
  2:{ left. exists []. split; [reflexivity | discriminate]. }
  destruct (levelName analysis) as [name|]; simpl.
  2:{ left. eexists. split; reflexivity. }
  destruct (String.eqb (toLowerCase name) "") eqn:E1; simpl.
  { left. eexists. split; reflexivity. }
  destruct (inWarningConfigs (toLowerCase name)) eqn:E2; simpl.
  - right. exists name. split; [reflexivity|]. split; [exact E2 | reflexivity].
  - left. eexists. split; reflexivity.
Qed.

Lemma unknown_level_not_found analysis db name :
  (forall n l, levelName analysis = Some n -> In l (warningLevels db) ->
               matchesLevel n l = false) ->
  levelName analysis = Some name ->
  findFirst (levelNamed (toLowerCase name)) (warningLevels db) = None.
Proof.
  intros Hno Hname. unfold findFirst.
  destruct (find (levelNamed (toLowerCase name)) (warningLevels db)) as [l|] eqn:E;
    [|reflexivity].
  apply find_some in E as [Hin Hl]. unfold levelNamed in Hl.
  apply String.eqb_eq in Hl. specialize (Hno name l Hname Hin).
  unfold matchesLevel in Hno. rewrite Hl, toLowerCase_idem, String.eqb_refl in Hno.
  discriminate.
Qed.

(** C8.  When the level name the classifier returned matches no configured
    warning level, not even up to letter case, both recording handlers leave
    the database exactly as it was: the Discord handler sends nothing, the
    test endpoint answers without a moderation result.  When a violation was
    reported the Discord handler logs one event, the invalid level or the
    level that was not found, and so does the test endpoint once it has its
    three fields. *)
Theorem unknown_level_is_noop :
  forall exec now analysis content userId username db,
    (forall name l, levelName analysis = Some name -> In l (warningLevels db) ->
                    matchesLevel name l = false) ->
    botDb (onMessage exec now analysis userId username db) = db /\
    sent (onMessage exec now analysis userId username db) = None /\
    snd (testModerate now analysis content userId username db) = db /\
    (fst (fst (testModerate now analysis content userId username db)) =
       Status 400 "Missing required fields" \/
     fst (fst (testModerate now analysis content userId username db)) =
       Json NoWarningBody \/
     fst (fst (testModerate now analysis content userId username db)) =
       Status 500 "Warning level not found") /\
    (detected analysis = true ->
     exists e,
       (e = InvalidWarningLevel (option_map toLowerCase (levelName analysis)) \/
        exists level, e = WarningLevelNotFound level) /\
       botLog (onMessage exec now analysis userId username db) = [e] /\
       (String.eqb content "" || String.eqb userId "" || String.eqb username "" = false ->
        snd (fst (testModerate now analysis content userId username db)) = [e])).
Proof.
  intros exec now analysis content userId username db Hno.
  unfold onMessage, testModerate.
  destruct (mapAnalysisToWarning_cases analysis)
    as [(log & -> & Hlog) | (name & Hname & Hcfg & ->)].
  - simpl.
    destruct (String.eqb content "" || String.eqb userId "" || String.eqb username "");
      simpl; repeat split; auto.
    + intros Hd. eexists. split; [left; reflexivity|].
      rewrite (Hlog Hd). split; [reflexivity|]. intros; discriminate.
    + intros Hd. eexists. split; [left; reflexivity|].
      rewrite (Hlog Hd). split; reflexivity.
  - cbn [warningLevel]. rewrite (inWarningConfigs_not_none _ Hcfg).
    rewrite (unknown_level_not_found analysis db name Hno Hname). simpl.
    destruct (String.eqb content "" || String.eqb userId "" || String.eqb username "");
      simpl; repeat split; auto.
    + intros _. eexists. split; [right; eexists; reflexivity|].
      split; [reflexivity|]. intros; discriminate.
    + intros _. eexists. split; [right; eexists; reflexivity|].
      split; reflexivity.
Qed.

(** C8 at work: the level "Purple" is configured nowhere; the user stays at 5
    points and the failed lookup is what the handler logs. *)
Lemma purple_level_is_noop :
  botDb (onMessage (fun _ => true) 300 purpleVerdict "u1" "ann" dbOneRed) = dbOneRed /\
  snd (testModerate 300 purpleVerdict "hello" "u1" "ann" dbOneRed) = dbOneRed /\
  botLog (onMessage (fun _ => true) 300 purpleVerdict "u1" "ann" dbOneRed) =
    [InvalidWarningLevel (Some "purple")].
Proof.
  assert (Hno : forall name l,
            levelName purpleVerdict = Some name -> In l (warningLevels dbOneRed) ->
            matchesLevel name l = false).
  { intros name l [= <-] Hin. simpl in Hin.
    destruct Hin as [<-|[<-|[<-|[]]]]; reflexivity. }
  destruct (unknown_level_is_noop (fun _ => true) 300 purpleVerdict "hello" "u1" "ann"
              dbOneRed Hno) as (Hbot & _ & Htest & _ & _).
  split; [exact Hbot|]. split; [exact Htest | reflexivity].
Defined.

(** ** The Discord handler and its executor *)

Lemma find_app_new {A : Type} (p : A -> bool) (l : list A) (x : A) :
  find p l = None -> find p (l ++ [x]) = if p x then Some x else None.
Proof.
  induction l as [|y l IH]; simpl; [reflexivity|].
  destruct (p y); [discriminate | exact IH].
Qed.

(** "Get or create user" always comes back with a row for the user, and
    writes to no table but [users]. *)
Lemma getOrCreateUser_some userId username db :
  exists user db1,
    getOrCreateUser userId username db = (Some user, db1) /\
    userAfter userId db1 = Some user /\
    (userAfter userId db = Some user /\ db1 = db \/
     userAfter userId db = None /\
     user = User.mk userId username 0 false false None /\
     db1 = insertUser userId username db).
Proof.
  unfold getOrCreateUser, userAfter, findFirst.
  destruct (find (userIs userId) (users db)) as [u|] eqn:E.
  - exists u, db. rewrite E. split; [reflexivity|]. split; [reflexivity|]. now left.
  - exists (User.mk userId username 0 false false None), (insertUser userId username db).
    assert (Hnew : find (userIs userId) (users (insertUser userId username db)) =
                   Some (User.mk userId username 0 false false None)).
    { unfold insertUser. simpl. rewrite (find_app_new _ _ _ E).
      unfold userIs. simpl. now rewrite String.eqb_refl. }
    rewrite Hnew. split; [reflexivity|]. split; [reflexivity|]. now right.
Qed.

(** The punishment loop of the Discord handler writes to [punishments] only. *)
Lemma botLoop_ledger exec now authorId total rules db :
  users (snd (botLoop exec now authorId total rules db)) = users db /\
  warnings (snd (botLoop exec now authorId total rules db)) = warnings db.
Proof.
  induction rules as [|x rules IH]; [now split|].
  simpl. destruct (total >=? PunishmentRule.pointThreshold x); [|exact IH].
  destruct (exec x); [now split|].
  destruct (botLoop exec now authorId total rules db) as [[a l] d]. exact IH.
Qed.

(** When every call fails the loop applies nothing, writes nothing, and logs
    one failure per met rule. *)
Lemma botLoop_all_fail exec now authorId total rules db :
  (forall r, In r rules -> exec r = false) ->
  botLoop exec now authorId total rules db =
  (None,
   map (fun r => FailedToApplyPunishment (PunishmentRule.type r) authorId)
       (filter (meets total) rules),
   db).
Proof.
  induction rules as [|x rules IH]; intros Hf; [reflexivity|].
  simpl. unfold meets at 1.
  assert (Hr : forall r, In r rules -> exec r = false) by (intros; apply Hf; now right).
  destruct (total >=? PunishmentRule.pointThreshold x); [|exact (IH Hr)].
  rewrite (Hf x (or_introl eq_refl)), (IH Hr). reflexivity.
Qed.

(** The Discord handler once the level is resolved: the point update, then
    the punishment loop. *)
Lemma onMessage_resolved exec now analysis authorId authorName db w log level user db1 :
  mapAnalysisToWarning analysis = (w, log) ->
  String.eqb (warningLevel w) "none" = false ->
  findFirst (levelNamed (warningLevel w)) (warningLevels db) = Some level ->
  getOrCreateUser authorId authorName db = (Some user, db1) ->
  onMessage exec now analysis authorId authorName db =
  let newTotal := User.totalPoints user + WarningLevel.points level in
  let db2 :=
    withUsers (updateWhere (userIs authorId) (setTotalPoints newTotal) (users db1)) db1 in
  let out := botLoop exec now authorId newTotal (activeRulesDesc db2) db2 in
  mkBot (Some (mkParams (warningLevel w) authorId (points w) newTotal (fst (fst out))))
        (log ++ snd (fst out)) (snd out).
Proof.
  intros Hmap Hnone Hlevel Huser. unfold onMessage.
  rewrite Hmap, Hnone, Hlevel, Huser. cbv zeta.
  destruct (botLoop exec now authorId _ _ _) as [[a l] d]. reflexivity.
Qed.

(** C6 on the code: the user of [dbOneRed], at 5 points, sends a message the
    classifier rates red while every platform call fails.  The Discord
    handler leaves the row at 10 points, logs the failed ban and the failed
    mute, writes no punishment row and reports the new total without a
    punishment: the point update is not undone.  But the warnings table is
    what it was: the handler has written no warning record of the message
    that could persist, while the test endpoint inserts one on the same
    input. *)
Theorem executor_failure_leaves_no_warning_record :
  userAfter "u1" (botDb (onMessage (fun _ => false) 300 redVerdict "u1" "ann" dbOneRed)) =
    Some (User.mk "u1" "ann" 10 false false None) /\
  botLog (onMessage (fun _ => false) 300 redVerdict "u1" "ann" dbOneRed) =
    [FailedToApplyPunishment ban "u1"; FailedToApplyPunishment mute "u1"] /\
  punishments (botDb (onMessage (fun _ => false) 300 redVerdict "u1" "ann" dbOneRed)) = [] /\
  option_map paramPunishment
    (sent (onMessage (fun _ => false) 300 redVerdict "u1" "ann" dbOneRed)) = Some None /\
  option_map paramTotalPoints
    (sent (onMessage (fun _ => false) 300 redVerdict "u1" "ann" dbOneRed)) = Some 10 /\
  warnings (botDb (onMessage (fun _ => false) 300 redVerdict "u1" "ann" dbOneRed)) =
    [warningRow 1 "u1" 3 5] /\
  warnings dbOneRed = [warningRow 1 "u1" 3 5] /\
  map (fun w => (Warning.id w, Warning.userId w, Warning.points w))
      (warnings (snd (testModerate 300 redVerdict "buy now" "u1" "ann" dbOneRed))) =
    [(1, "u1", 5); (2, "u1", 5)].
Proof. repeat split. Qed.

(** The Discord handler never raises a ban flag: a row that is banned after
    the handler was banned before it. *)
Lemma onMessage_never_sets_isBanned exec now analysis authorId authorName db u' :
  In u' (users (botDb (onMessage exec now analysis authorId authorName db))) ->
  User.isBanned u' = true ->
  exists u, In u (users db) /\ User.id u = User.id u' /\ User.isBanned u = true.
Proof.
  unfold onMessage. destruct (mapAnalysisToWarning analysis) as [w log].
  destruct (String.eqb (warningLevel w) "none"); [intros; now exists u'|].
  destruct (findFirst _ (warningLevels db)); [|intros; now exists u'].
  destruct (getOrCreateUser_some authorId authorName db)
    as (user & db1 & -> & _ & Hcase).
  set (newTotal := User.totalPoints user + WarningLevel.points _).
  set (db2 := withUsers _ db1).
  pose proof (botLoop_ledger exec now authorId newTotal (activeRulesDesc db2) db2)
    as [Hus _].
  destruct (botLoop exec now authorId newTotal (activeRulesDesc db2) db2) as [[a l] d].
  simpl in *. rewrite Hus. intros Hin Hb.
  apply In_updateWhere in Hin as (x & Hx & ->).
  assert (Hbx : User.isBanned x = true)
    by (destruct (userIs authorId x); [exact Hb | exact Hb]).
  assert (Hidx : User.id (if userIs authorId x then setTotalPoints newTotal x else x) =
                 User.id x) by (now destruct (userIs authorId x)).
  rewrite Hidx.
  destruct Hcase as [[_ ->]|(_ & _ & ->)]; [now exists x|].
  simpl in Hx. apply in_app_or in Hx as [Hx|[<-|[]]]; [now exists x | discriminate].
Qed.

(** The Discord handler never writes to the warnings table. *)
Lemma onMessage_writes_no_warning exec now analysis authorId authorName db :
  warnings (botDb (onMessage exec now analysis authorId authorName db)) = warnings db.
Proof.
  unfold onMessage. destruct (mapAnalysisToWarning analysis) as [w log].
  destruct (String.eqb (warningLevel w) "none"); [reflexivity|].
  destruct (findFirst _ (warningLevels db)); [|reflexivity].
  destruct (getOrCreateUser_some authorId authorName db)
    as (user & db1 & -> & _ & Hcase).
  set (newTotal := User.totalPoints user + WarningLevel.points _).
  set (db2 := withUsers _ db1).
  pose proof (botLoop_ledger exec now authorId newTotal (activeRulesDesc db2) db2)
    as [_ Hws].
  destruct (botLoop exec now authorId newTotal (activeRulesDesc db2) db2) as [[a l] d].
  simpl in *. rewrite Hws.
  destruct Hcase as [[_ ->]|(_ & _ & ->)]; reflexivity.
Qed.

(** Whenever the Discord handler resolves a level for a user whose row
    agreed with the ledger, the row exceeds the ledger by the level's points
    afterwards: the points are added to the row and no warning to the
    ledger. *)
Lemma onMessage_breaks_ledger exec now analysis authorId authorName db w log level user :
  mapAnalysisToWarning analysis = (w, log) ->
  String.eqb (warningLevel w) "none" = false ->
  findFirst (levelNamed (warningLevel w)) (warningLevels db) = Some level ->
  userAfter authorId db = Some user ->
  User.totalPoints user = ledgerTotal authorId db ->
  exists user',
    userAfter authorId (botDb (onMessage exec now analysis authorId authorName db)) =
      Some user' /\
    User.totalPoints user' =
      ledgerTotal authorId (botDb (onMessage exec now analysis authorId authorName db)) +
      WarningLevel.points level.
Proof.
  intros Hmap Hnone Hlevel Hu Htot.
  assert (Hws := onMessage_writes_no_warning exec now analysis authorId authorName db).
  unfold ledgerTotal at 1. rewrite Hws. fold (ledgerTotal authorId db).
  assert (Hget : getOrCreateUser authorId authorName db = (Some user, db)).
  { unfold getOrCreateUser. unfold userAfter in Hu. now rewrite Hu. }
  rewrite (onMessage_resolved exec now analysis authorId authorName db w log level user db
             Hmap Hnone Hlevel Hget).
  cbv zeta. cbn [botDb].
  set (newTotal := User.totalPoints user + WarningLevel.points level).
  set (db2 := withUsers _ db).
  destruct (botLoop_ledger exec now authorId newTotal (activeRulesDesc db2) db2)
    as [Hus _].
  unfold userAfter, findFirst in *. rewrite Hus. unfold db2. simpl.
  rewrite find_user_updateWhere, Hu by reflexivity. simpl.
  eexists. split; [reflexivity|]. simpl. unfold newTotal. lia.
Qed.

(** C7 on the code.  Under the rules ban at 10 and mute at 5 a user at 5
    points takes a red warning through the Discord handler.  When the
    platform ban succeeds the audit row is written and the loop ends, but the
    user row is left with [isBanned] false.  When the platform ban fails, no
    ban row is written and the loop goes on to the mute rule.  The test
    endpoint, on the same input, sets [isBanned], writes the ban row and
    stops. *)
Theorem discord_ban_leaves_flag_unset :
  activeRulesDesc dbOneRed = [ban10; mute5] /\
  sent (onMessage (fun _ => true) 300 redVerdict "u1" "ann" dbOneRed) =
    Some (mkParams "red" "u1" (Some 5) 10 (Some ban)) /\
  punishments (botDb (onMessage (fun _ => true) 300 redVerdict "u1" "ann" dbOneRed)) =
    [Punishment.mk 1 "u1" ban "Accumulated warning points" None 300 None] /\
  userAfter "u1" (botDb (onMessage (fun _ => true) 300 redVerdict "u1" "ann" dbOneRed)) =
    Some (User.mk "u1" "ann" 10 false false None) /\
  botLog (onMessage isMute 300 redVerdict "u1" "ann" dbOneRed) =
    [FailedToApplyPunishment ban "u1"] /\
  punishments (botDb (onMessage isMute 300 redVerdict "u1" "ann" dbOneRed)) =
    [Punishment.mk 1 "u1" mute "Accumulated warning points" (Some 60) 300
       (Some 3600300)] /\
  userAfter "u1" (snd (testModerate 300 redVerdict "buy now" "u1" "ann" dbOneRed)) =
    Some (User.mk "u1" "ann" 10 true false None) /\
  punishments (snd (testModerate 300 redVerdict "buy now" "u1" "ann" dbOneRed)) =
    [Punishment.mk 1 "u1" ban "Exceeded maximum warning points" None 300 None].
Proof. repeat split. Qed.

(** ** Where the ledger invariant is kept *)

Lemma sumPoints_from a ws :
  fold_left (fun sum warning => sum + Warning.points warning) ws a = a + sumPoints ws.
Proof.
  unfold sumPoints. revert a. induction ws as [|w ws IH]; intros a; simpl; [lia|].
  rewrite IH, (IH (Warning.points w)). lia.
Qed.

Lemma sumPoints_cons w ws : sumPoints (w :: ws) = Warning.points w + sumPoints ws.
Proof. unfold sumPoints at 1. simpl. now rewrite sumPoints_from. Qed.

Lemma sumPoints_app l1 l2 : sumPoints (l1 ++ l2) = sumPoints l1 + sumPoints l2.
Proof.
  induction l1 as [|w l1 IH]; simpl; [reflexivity|].
  rewrite !sumPoints_cons, IH. lia.
Qed.

Lemma userIs_false userId u : userIs userId u = false <-> User.id u <> userId.
Proof. unfold userIs. apply String.eqb_neq. Qed.

(** Marking the warnings of one user does not touch the ledger total of
    another. *)
Lemma nonIgnoredOf_other other w :
  Warning.userId w <> other -> nonIgnoredOf other w = false.
Proof.
  intros H. unfold nonIgnoredOf, warningOf.
  apply String.eqb_neq in H. now rewrite H.
Qed.

Lemma marking_keeps_other_totals now by_ reason userId other ws :
  other <> userId ->
  findMany (nonIgnoredOf other)
    (updateWhere (warningOf userId) (markIgnored now by_ reason) ws) =
  findMany (nonIgnoredOf other) ws.
Proof.
  intros Hne. unfold findMany, updateWhere.
  induction ws as [|w ws IH]; [reflexivity|]. cbn [map filter].
  destruct (warningOf userId w) eqn:E; [|now rewrite IH].
  apply warningOf_eq in E.
  rewrite IH, !nonIgnoredOf_other; [reflexivity | congruence | simpl; congruence].
Qed.



(** A reset the database does not accept writes nothing. *)
Lemma resetWarnings_not_accepted now userId db :
  ~ resetAccepted userId db -> snd (resetWarnings now userId db) = db.
Proof.
  intros Hno. unfold resetWarnings.
  destruct (findFirst (userIs userId) (users db)); [|reflexivity].
  destruct (existsb (warningOf userId) (warnings db)) eqn:Ew.
  - destruct (existsb (userIs "system") (users db)) eqn:Es; [|reflexivity].
    elim Hno. left. now apply hasRow_existsb.
  - elim Hno. right. intros w Hin Hid.
    assert (Hex : existsb (warningOf userId) (warnings db) = true)
      by (apply existsb_exists; exists w; split; [exact Hin | now apply warningOf_eq]).
    congruence.
Qed.

(** X2.  A reset the database accepts leaves its user at 0 points with an
    empty ledger, and the other users as they were: if the rows of the other
    users agree with the ledger, every row does afterwards. *)
Theorem resetWarnings_restores_ledger :
  forall now userId db,
    (forall u, In u (users db) -> User.id u <> userId ->
               User.totalPoints u = ledgerTotal (User.id u) db) ->
    resetAccepted userId db ->
    ledgerConsistent (snd (resetWarnings now userId db)).
Proof.
  intros now userId db Hothers Hacc. unfold resetWarnings, findFirst.
  rewrite (resetWarnings_guard _ _ Hacc).
  destruct (find (userIs userId) (users db)) as [user|] eqn:E; simpl.
  - intros u' Hin. simpl in Hin. apply In_updateWhere in Hin as (x & Hx & ->).
    unfold ledgerTotal. simpl. destruct (userIs userId x) eqn:Ex.
    + apply userIs_eq in Ex. simpl. rewrite Ex.
      now rewrite no_points_left_after_marking.
    + apply userIs_false in Ex. rewrite marking_keeps_other_totals by exact Ex.
      now apply Hothers.
  - intros u Hin. apply Hothers; [exact Hin|].
    apply userIs_false. exact (find_none _ _ E u Hin).
Qed.

(** With a users row for the system actor, the reset of the drifted
    database is accepted and the database is consistent again. *)
Lemma resetWarnings_repairs_drift :
  ledgerConsistentb (withStaff dbDrifted) = false /\
  fst (resetWarnings 400 "u1" (withStaff dbDrifted)) = Json SuccessBody /\
  ledgerConsistent (snd (resetWarnings 400 "u1" (withStaff dbDrifted))) /\
  userAfter "u1" (snd (resetWarnings 400 "u1" (withStaff dbDrifted))) =
    Some (User.mk "u1" "ann" 0 false false None).
Proof.
  split; [reflexivity|]. split; [reflexivity|]. split; [|reflexivity].
  apply (resetWarnings_restores_ledger 400 "u1" (withStaff dbDrifted)).
  - intros u Hin Hne. simpl in Hin.
    destruct Hin as [<-|[<-|[<-|[<-|[]]]]]; [now elim Hne | | |]; reflexivity.
  - left. exists (User.mk "system" "system" 0 false false None).
    split; [simpl; auto | reflexivity].
Defined.

Lemma updateWhere_compose {A : Type} (p : A -> bool) (f g : A -> A) (l : list A) :
  (forall x, p (f x) = p x) ->
  updateWhere p g (updateWhere p f l) = updateWhere p (fun x => g (f x)) l.
Proof.
  intros H. unfold updateWhere. rewrite map_map. apply map_ext. intros x.
  destruct (p x) eqn:E; [now rewrite H, E | now rewrite E].
Qed.

Lemma updateWhere_none {A : Type} (p : A -> bool) (f : A -> A) (l : list A) :
  (forall x, In x l -> p x = false) -> updateWhere p f l = l.
Proof.
  intros H. unfold updateWhere. induction l as [|x l IH]; [reflexivity|]. simpl.
  rewrite (H x (or_introl eq_refl)), IH; [reflexivity|].
  intros y Hy. apply H. now right.
Qed.

Lemma nonIgnoredOf_marked uid now by_ reason w :
  nonIgnoredOf uid (markIgnored now by_ reason w) = false.
Proof. unfold nonIgnoredOf. simpl. apply andb_false_r. Qed.

Lemma nonIgnoredOf_fresh uid w :
  Warning.messageIgnored w = false ->
  nonIgnoredOf uid w = String.eqb (Warning.userId w) uid.
Proof. intros H. unfold nonIgnoredOf, warningOf. rewrite H. apply andb_true_r. Qed.

(** Marking one warning that still counted takes exactly its points off the
    ledger total of its user, provided warning ids are unique. *)
Lemma marking_one_warning now by_ reason id ws w uid :
  NoDup (map Warning.id ws) ->
  find (warningIs id) ws = Some w ->
  Warning.messageIgnored w = false ->
  sumPoints (findMany (nonIgnoredOf uid)
               (updateWhere (warningIs id) (markIgnored now by_ reason) ws)) =
  sumPoints (findMany (nonIgnoredOf uid) ws) -
  (if String.eqb (Warning.userId w) uid then Warning.points w else 0).
Proof.
  unfold findMany. induction ws as [|x ws IH]; intros Hnd Hfind Hw; [discriminate|].
  simpl in Hnd. apply NoDup_cons_iff in Hnd as [Hx Hnd]. simpl in Hfind.
  change (updateWhere (warningIs id) (markIgnored now by_ reason) (x :: ws))
    with ((if warningIs id x then markIgnored now by_ reason x else x)
            :: updateWhere (warningIs id) (markIgnored now by_ reason) ws).
  cbn [filter].
  destruct (warningIs id x) eqn:E.
  - injection Hfind as <-.
    rewrite updateWhere_none.
    2:{ intros y Hy. unfold warningIs in *. apply Z.eqb_eq in E. apply Z.eqb_neq.
        intros Heq. apply Hx. rewrite E, <- Heq. now apply in_map. }
    rewrite nonIgnoredOf_marked, (nonIgnoredOf_fresh uid x Hw).
    destruct (String.eqb (Warning.userId x) uid);
      [rewrite sumPoints_cons; lia | lia].
  - specialize (IH Hnd Hfind Hw).
    destruct (nonIgnoredOf uid x); [rewrite !sumPoints_cons, IH; lia | exact IH].
Qed.

(** The users table after a successful [ignoreWarning]: the rows of the
    warned user are rewritten to the new total, the others are kept. *)
Lemma ignoreWarning_users now id reviewer reason db warning user :
  reviewer <> "" -> reason <> "" ->
  hasRow reviewer db ->
  findFirst (warningIs id) (warnings db) = Some warning ->
  userAfter (Warning.userId warning) db = Some user ->
  inInteger (User.totalPoints user - Warning.points warning) = true ->
  exists f,
    (forall u, User.id (f u) = User.id u /\
               User.totalPoints (f u) =
               User.totalPoints user - Warning.points warning) /\
    users (snd (ignoreWarning now id reviewer reason db)) =
      updateWhere (userIs (Warning.userId warning)) f (users db).
Proof.
  intros Hrev Hreason Hrow Hw Hu Hint. unfold userAfter, findFirst in *.
  apply hasRow_existsb in Hrow.
  unfold ignoreWarning, findFirst.
  rewrite (eqb_empty_false _ Hrev), (eqb_empty_false _ Hreason). simpl orb.
  cbv iota. rewrite Hw. cbv beta iota. rewrite Hu, Hrow. cbn [negb]. cbv zeta.
  rewrite Hint. cbn [negb].
  assert (Hid : User.id user = Warning.userId warning)
    by (apply find_some in Hu as [_ Hu']; now apply userIs_eq).
  rewrite Hid.
  match goal with
  | |- context [if ?c then _ else _] => destruct c
  end; simpl; rewrite find_warning_updateWhere, Hw by reflexivity; simpl.
  - rewrite updateWhere_compose by reflexivity.
    eexists. split; [|reflexivity]. intros u. split; reflexivity.
  - eexists. split; [|reflexivity]. intros u. split; reflexivity.
Qed.

(** The two refusals of [ignoreWarning]: a reviewer without a users row
    stops the handler before any write; a new total that is no [integer]
    stops it after the warning has been marked. *)
Lemma ignoreWarning_refused now id reviewer reason db warning user :
  reviewer <> "" -> reason <> "" ->
  findFirst (warningIs id) (warnings db) = Some warning ->
  userAfter (Warning.userId warning) db = Some user ->
  (existsb (userIs reviewer) (users db) = false ->
   ignoreWarning now id reviewer reason db = (DbFailure ForeignKeyViolation, db)) /\
  (existsb (userIs reviewer) (users db) = true ->
   inInteger (User.totalPoints user - Warning.points warning) = false ->
   ignoreWarning now id reviewer reason db =
     (DbFailure IntegerOutOfRange,
      withWarnings
        (updateWhere (warningIs id) (markIgnored now reviewer reason) (warnings db))
        db)).
Proof.
  intros Hrev Hreason Hw Hu. unfold userAfter in Hu. unfold ignoreWarning.
  rewrite (eqb_empty_false _ Hrev), (eqb_empty_false _ Hreason), Hw. simpl orb.
  cbv iota. rewrite Hu. split.
  - intros ->. reflexivity.
  - intros -> Hint. cbn [negb]. cbv zeta. rewrite Hint. reflexivity.
Qed.

(** X4.  The first ignore of a warning keeps the ledger invariant, as long
    as warning ids are unique and the update of the total is not refused
    after the warning has been marked. *)
Theorem first_ignore_keeps_ledger :
  forall now id reviewer reason db warning,
    ledgerConsistent db ->
    NoDup (map Warning.id (warnings db)) ->
    findFirst (warningIs id) (warnings db) = Some warning ->
    Warning.messageIgnored warning = false ->
    fst (ignoreWarning now id reviewer reason db) <> DbFailure IntegerOutOfRange ->
    ledgerConsistent (snd (ignoreWarning now id reviewer reason db)).
Proof.
  intros now id reviewer reason db warning Hcons Hnd Hw Hfresh Hrange.
  destruct (String.eqb_spec reviewer "") as [->|Hrev];
    [unfold ignoreWarning; simpl; exact Hcons|].
  destruct (String.eqb_spec reason "") as [->|Hreason].
  { unfold ignoreWarning. rewrite orb_true_r. exact Hcons. }
  destruct (userAfter (Warning.userId warning) db) as [user|] eqn:Hu.
  2:{ unfold ignoreWarning.
      rewrite (eqb_empty_false _ Hrev), (eqb_empty_false _ Hreason), Hw.
      unfold userAfter in Hu. simpl. rewrite Hu. exact Hcons. }
  destruct (ignoreWarning_refused now id reviewer reason db warning user
              Hrev Hreason Hw Hu) as [Hfk Hout].
  destruct (existsb (userIs reviewer) (users db)) eqn:Hrow;
    [|rewrite (Hfk eq_refl); exact Hcons].
  destruct (inInteger (User.totalPoints user - Warning.points warning)) eqn:Hint;
    [|rewrite (Hout eq_refl eq_refl) in Hrange; now elim Hrange].
  apply hasRow_existsb in Hrow.
  destruct (ignoreWarning_users now id reviewer reason db warning user
              Hrev Hreason Hrow Hw Hu Hint) as (f & Hf & Husers).
  destruct (ignoreWarning_ok now id reviewer reason db warning user
              Hrev Hreason Hrow Hw Hu Hint) as (_ & Hws & _).
  intros u' Hin. unfold ledgerTotal. rewrite Hws. rewrite Husers in Hin.
  apply In_updateWhere in Hin as (x & Hx & ->).
  rewrite (marking_one_warning now reviewer reason id (warnings db) warning _ Hnd Hw Hfresh).
  fold (ledgerTotal (User.id (if userIs (Warning.userId warning) x then f x else x)) db).
  destruct (userIs (Warning.userId warning) x) eqn:E.
  - destruct (Hf x) as [Hfid Hftot]. rewrite Hfid, Hftot.
    apply userIs_eq in E. rewrite E, String.eqb_refl.
    unfold userAfter, findFirst in Hu. apply find_some in Hu as [Huin Huid].
    apply userIs_eq in Huid. rewrite (Hcons user Huin), Huid. reflexivity.
  - apply userIs_false in E. apply String.eqb_neq in E.
    rewrite String.eqb_sym in E. rewrite E, (Hcons x Hx). lia.
Qed.

(** The first ignore of the red warning of [dbOneRed], by a moderator who
    has a users row, is answered with the warning and keeps the ledger. *)
Lemma first_ignore_on_red :
  hasRow "mod1" (withStaff dbOneRed) /\
  fst (ignoreWarning 100 1 "mod1" "false positive" (withStaff dbOneRed)) =
    Json (WarningBody
            (Warning.mk 1 "u1" 3 5 "spam" "buy now" 0 false
               true (Some 100) (Some "mod1") (Some "false positive")) "ann") /\
  ledgerConsistent dbIgnoredOnce /\
  userAfter "u1" dbIgnoredOnce = Some (User.mk "u1" "ann" 0 false false None).
Proof.
  split.
  { exists (User.mk "mod1" "moe" 0 false false None).
    split; [right; now left | reflexivity]. }
  split; [reflexivity|]. split; [|reflexivity].
  apply (first_ignore_keeps_ledger 100 1 "mod1" "false positive" (withStaff dbOneRed)
           (warningRow 1 "u1" 3 5)).
  - intros u [<-|[<-|[<-|[<-|[]]]]]; reflexivity.
  - repeat constructor. simpl. intros [].
  - reflexivity.
  - reflexivity.
  - discriminate.
Defined.

(** X30.  A reviewer is a user.  An [ignoreWarning] on a warning that
    exists, by a reviewer who has no users row, is answered with the 500 of
    the database's refusal and writes nothing: the warning still counts and
    the total is what it was.  So is a [resetWarnings] of a user who has a
    warning when no users row has the id "system". *)
Theorem reviewer_without_row_is_refused :
  forall now id reviewer reason userId db,
    (reviewer <> "" -> reason <> "" -> ~ hasRow reviewer db ->
     forall warning user,
       findFirst (warningIs id) (warnings db) = Some warning ->
       userAfter (Warning.userId warning) db = Some user ->
       ignoreWarning now id reviewer reason db = (DbFailure ForeignKeyViolation, db)) /\
    (~ hasRow "system" db ->
     forall user w,
       userAfter userId db = Some user ->
       In w (warnings db) -> Warning.userId w = userId ->
       resetWarnings now userId db = (DbFailure ForeignKeyViolation, db)).
Proof.
  intros now id reviewer reason userId db. split.
  - intros Hrev Hreason Hno warning user Hw Hu.
    apply (ignoreWarning_refused now id reviewer reason db warning user
             Hrev Hreason Hw Hu).
    destruct (existsb (userIs reviewer) (users db)) eqn:E; [|reflexivity].
    elim Hno. now apply hasRow_existsb.
  - intros Hno user w Hu Hin Hid. unfold resetWarnings. unfold userAfter in Hu.
    rewrite Hu.
    assert (Hex : existsb (warningOf userId) (warnings db) = true)
      by (apply existsb_exists; exists w; split; [exact Hin | now apply warningOf_eq]).
    assert (Hsys : existsb (userIs "system") (users db) = false).
    { destruct (existsb (userIs "system") (users db)) eqn:E; [|reflexivity].
      elim Hno. now apply hasRow_existsb. }
    now rewrite Hex, Hsys.
Qed.

(** In [dbOneRed] the only users row is that of "u1": the ignore by "mod1"
    and the reset are refused, and the user keeps the 5 points. *)
Lemma refused_on_one_red :
  ignoreWarning 100 1 "mod1" "false positive" dbOneRed =
    (DbFailure ForeignKeyViolation, dbOneRed) /\
  resetWarnings 400 "u1" dbOneRed = (DbFailure ForeignKeyViolation, dbOneRed) /\
  option_map User.totalPoints (userAfter "u1" dbOneRed) = Some 5.
Proof.
  assert (Hno : forall reviewer, reviewer <> "u1" -> ~ hasRow reviewer dbOneRed).
  { intros reviewer Hne (u & [<-|[]] & Hid). now elim Hne. }
  destruct (reviewer_without_row_is_refused 100 1 "mod1" "false positive" "u1" dbOneRed)
    as [Hignore _].
  destruct (reviewer_without_row_is_refused 400 1 "mod1" "false positive" "u1" dbOneRed)
    as [_ Hreset].
  split; [|split; [|reflexivity]].
  - apply (Hignore ltac:(discriminate) ltac:(discriminate) (Hno "mod1" ltac:(discriminate))
             (warningRow 1 "u1" 3 5) (User.mk "u1" "ann" 5 false false None));
      reflexivity.
  - apply (Hreset (Hno "system" ltac:(discriminate))
             (User.mk "u1" "ann" 5 false false None) (warningRow 1 "u1" 3 5));
      [reflexivity | now left | reflexivity].
Defined.

(** The punishment loop of the test endpoint changes flags and the audit
    log, never a total or a warning. *)
Lemma moderateLoop_ledger now userId user total rules db :
  warnings (snd (moderateLoop now userId user total rules db)) = warnings db /\
  map (fun u => (User.id u, User.totalPoints u))
      (users (snd (moderateLoop now userId user total rules db))) =
  map (fun u => (User.id u, User.totalPoints u)) (users db).
Proof.
  rewrite moderateLoop_first.
  destruct (find _ rules) as [r|]; [|now split].
  destruct (PunishmentRule.type r); simpl; (split; [reflexivity|]);
    now apply map_updateWhere_invariant.
Qed.



(** ** What the handlers leave alone *)

Lemma filter_updateWhere_other {A : Type} (p : A -> bool) (f : A -> A) (l : list A) :
  (forall x, p (f x) = p x) ->
  filter (fun x => negb (p x)) (updateWhere p f l) = filter (fun x => negb (p x)) l.
Proof.
  intros Hp. unfold updateWhere. induction l as [|x l IH]; [reflexivity|].
  cbn [map filter]. destruct (p x) eqn:E.
  - rewrite Hp, E. exact IH.
  - rewrite E, IH. reflexivity.
Qed.

Lemma otherUsers_updateWhere userId (f : User.t -> User.t) db :
  (forall u, User.id (f u) = User.id u) ->
  otherUsers userId (withUsers (updateWhere (userIs userId) f (users db)) db) =
  otherUsers userId db.
Proof.
  intros H. unfold otherUsers. simpl. apply filter_updateWhere_other.
  intros u. unfold userIs. now rewrite H.
Qed.

Lemma otherUsers_insertUser userId username db :
  otherUsers userId (insertUser userId username db) = otherUsers userId db.
Proof.
  unfold otherUsers, insertUser. simpl. rewrite filter_app. simpl.
  unfold userIs at 2. simpl. rewrite String.eqb_refl. simpl. apply app_nil_r.
Qed.

Lemma getOrCreateUser_frame userId username db :
  otherUsers userId (snd (getOrCreateUser userId username db)) = otherUsers userId db /\
  warnings (snd (getOrCreateUser userId username db)) = warnings db.
Proof.
  unfold getOrCreateUser. destruct (findFirst _ (users db)); simpl; [now split|].
  split; [apply otherUsers_insertUser | reflexivity].
Qed.

Lemma moderateLoop_frame now userId user total rules db :
  otherUsers userId (snd (moderateLoop now userId user total rules db)) =
  otherUsers userId db.
Proof.
  rewrite moderateLoop_first. destruct (find _ rules) as [r|]; [|reflexivity].
  destruct (PunishmentRule.type r); simpl; unfold otherUsers; simpl;
    apply filter_updateWhere_other; reflexivity.
Qed.

Lemma otherWarnings_insertWarning now userId level rule content del db :
  otherWarnings userId (insertWarning now userId level rule content del db) =
  otherWarnings userId db.
Proof.
  unfold otherWarnings, insertWarning. simpl. rewrite filter_app. simpl.
  unfold warningOf at 2. simpl. rewrite String.eqb_refl. simpl. apply app_nil_r.
Qed.

(** X6.  Each handler of the engine writes to the row and the warnings of one
    user only: the rows of all other users and the warnings of all other
    users are the same before and after [testModerate], the Discord handler,
    [recalculate] and [resetWarnings]; [ignoreWarning] leaves every user but
    the warned one, and every warning but the one with the given id, as they
    were, and writes nothing when the id is unknown. *)
Theorem handlers_touch_one_user :
  forall exec now analysis content userId username id reviewer reason db,
    (otherUsers userId (snd (testModerate now analysis content userId username db)) =
       otherUsers userId db /\
     otherWarnings userId (snd (testModerate now analysis content userId username db)) =
       otherWarnings userId db) /\
    (otherUsers userId (botDb (onMessage exec now analysis userId username db)) =
       otherUsers userId db /\
     warnings (botDb (onMessage exec now analysis userId username db)) = warnings db) /\
    (otherUsers userId (snd (recalculate now userId db)) = otherUsers userId db /\
     warnings (snd (recalculate now userId db)) = warnings db) /\
    (otherUsers userId (snd (resetWarnings now userId db)) = otherUsers userId db /\
     otherWarnings userId (snd (resetWarnings now userId db)) =
       otherWarnings userId db) /\
    match findFirst (warningIs id) (warnings db) with
    | Some w =>
        otherUsers (Warning.userId w) (snd (ignoreWarning now id reviewer reason db)) =
          otherUsers (Warning.userId w) db /\
        filter (fun x => negb (warningIs id x))
               (warnings (snd (ignoreWarning now id reviewer reason db))) =
          filter (fun x => negb (warningIs id x)) (warnings db)
    | None => snd (ignoreWarning now id reviewer reason db) = db
    end.
Proof.
  intros exec now analysis content userId username id reviewer reason db.
  split; [|split; [|split; [|split]]].
  - unfold testModerate.
    destruct (String.eqb content "" || String.eqb userId "" || String.eqb username "");
      [now split|].
    destruct (mapAnalysisToWarning analysis) as [w log].
    destruct (String.eqb (warningLevel w) "none"); [now split|].
    destruct (findFirst _ (warningLevels db)) as [level|]; [|now split].
    destruct (getOrCreateUser_frame userId username db) as [Hu Hw].
    destruct (getOrCreateUser userId username db) as [[user|] db1]; simpl in Hu, Hw;
      [|simpl; split; [exact Hu | unfold otherWarnings; now rewrite Hw]].
    cbv zeta.
    set (newTotal := User.totalPoints user + WarningLevel.points level).
    set (db2 := insertWarning now userId level (ruleTriggered w) content (deleteMessage w) db1).
    destruct (inInteger newTotal); cbn [negb].
    2:{ cbn [snd]. split.
        - unfold db2, otherUsers. simpl. exact Hu.
        - unfold db2. rewrite otherWarnings_insertWarning.
          unfold otherWarnings. now rewrite Hw. }
    set (db3 := withUsers _ db2).
    pose proof (moderateLoop_frame now userId user newTotal (activeRulesDesc db3) db3) as Hf.
    pose proof (moderateLoop_ledger now userId user newTotal (activeRulesDesc db3) db3)
      as [Hws _].
    destruct (moderateLoop now userId user newTotal (activeRulesDesc db3) db3) as [p db4].
    simpl in Hf, Hws. simpl snd. split.
    + rewrite Hf. unfold db3. rewrite otherUsers_updateWhere by reflexivity.
      unfold db2, otherUsers. simpl. exact Hu.
    + unfold otherWarnings at 1. rewrite Hws.
      change (otherWarnings userId db2 = otherWarnings userId db).
      unfold db2. rewrite otherWarnings_insertWarning.
      unfold otherWarnings. now rewrite Hw.
  - split; [|apply onMessage_writes_no_warning].
    unfold onMessage. destruct (mapAnalysisToWarning analysis) as [w log].
    destruct (String.eqb (warningLevel w) "none"); [reflexivity|].
    destruct (findFirst _ (warningLevels db)) as [level|]; [|reflexivity].
    destruct (getOrCreateUser_frame userId username db) as [Hu _].
    destruct (getOrCreateUser userId username db) as [[user|] db1]; simpl in Hu;
      [|exact Hu].
    set (newTotal := User.totalPoints user + WarningLevel.points level).
    set (db2 := withUsers _ db1).
    pose proof (botLoop_ledger exec now userId newTotal (activeRulesDesc db2) db2)
      as [Hus _].
    destruct (botLoop exec now userId newTotal (activeRulesDesc db2) db2) as [[a l] d].
    simpl in *. unfold otherUsers at 1. rewrite Hus.
    change (otherUsers userId db2 = otherUsers userId db).
    unfold db2. now rewrite otherUsers_updateWhere by reflexivity.
  - unfold recalculate. destruct (findFirst _ (users db)); simpl; [|now split].
    split; [|reflexivity]. unfold otherUsers. simpl.
    apply filter_updateWhere_other. reflexivity.
  - unfold resetWarnings. destruct (findFirst _ (users db)); [|now split].
    destruct (existsb (warningOf userId) (warnings db) &&
              negb (existsb (userIs "system") (users db))); [now split|].
    simpl. split.
    + unfold otherUsers. simpl. apply filter_updateWhere_other. reflexivity.
    + unfold otherWarnings. simpl. apply filter_updateWhere_other. reflexivity.
  - destruct (findFirst (warningIs id) (warnings db)) as [w|] eqn:Hw.
    + unfold ignoreWarning. rewrite Hw.
      destruct (String.eqb reviewer "" || String.eqb reason ""); [now split|].
      destruct (findFirst (userIs (Warning.userId w)) (users db)) as [user|] eqn:Hu;
        [|now split].
      assert (Hid : User.id user = Warning.userId w)
        by (apply find_some in Hu as [_ Hu']; now apply userIs_eq).
      destruct (existsb (userIs reviewer) (users db)); cbn [negb]; [|now split].
      cbv zeta.
      destruct (inInteger (User.totalPoints user - Warning.points w)); cbn [negb].
      2:{ cbn [snd]. split; [reflexivity|]. simpl.
          apply filter_updateWhere_other. reflexivity. }
      rewrite Hid.
      match goal with
      | |- context [if ?c then _ else _] => destruct c
      end; simpl; unfold findFirst in *;
        rewrite find_warning_updateWhere, Hw by reflexivity; simpl;
        unfold otherUsers; simpl;
        rewrite !filter_updateWhere_other by reflexivity; now split.
    + unfold ignoreWarning. rewrite Hw.
      now destruct (String.eqb reviewer "" || String.eqb reason "").
Qed.

(** X7.  The test endpoint only ever adds punishment: for a user who has a
    row, a ban flag that was set stays set, a mute flag that was set stays set
    with the expiry it had (an already muted user is not muted anew), and the
    total is either untouched, when nothing is recorded, or raised by the
    points of a configured level. *)
Theorem testModerate_never_lifts_punishment :
  forall now analysis content userId username db u,
    userAfter userId db = Some u ->
    exists u',
      userAfter userId (snd (testModerate now analysis content userId username db)) =
        Some u' /\
      (User.isBanned u = true -> User.isBanned u' = true) /\
      (User.isMuted u = true ->
       User.isMuted u' = true /\ User.muteExpiresAt u' = User.muteExpiresAt u) /\
      (u' = u \/
       exists level, In level (warningLevels db) /\
                     User.totalPoints u' = User.totalPoints u + WarningLevel.points level).
Proof.
  intros now analysis content userId username db u Hu.
  assert (Hsame : exists u', userAfter userId db = Some u' /\
            (User.isBanned u = true -> User.isBanned u' = true) /\
            (User.isMuted u = true ->
             User.isMuted u' = true /\ User.muteExpiresAt u' = User.muteExpiresAt u) /\
            (u' = u \/
             exists level, In level (warningLevels db) /\
               User.totalPoints u' = User.totalPoints u + WarningLevel.points level))
    by (exists u; repeat split; auto).
  unfold testModerate.
  destruct (String.eqb content "" || String.eqb userId "" || String.eqb username "");
    [exact Hsame|].
  destruct (mapAnalysisToWarning analysis) as [w log].
  destruct (String.eqb (warningLevel w) "none"); [exact Hsame|].
  destruct (findFirst _ (warningLevels db)) as [level|] eqn:Hlevel; [|exact Hsame].
  apply find_some in Hlevel as [Hlin _].
  unfold getOrCreateUser. unfold userAfter in Hu. rewrite Hu. cbv zeta.
  destruct (inInteger (User.totalPoints u + WarningLevel.points level)); cbn [negb];
    [|exact Hsame].
  rewrite moderateLoop_first.
  unfold userAfter in *. unfold findFirst in *.
  destruct (find _ (activeRulesDesc _)) as [r|] eqn:Hr.
  - apply find_some in Hr as [_ Hr]. apply andb_true_iff in Hr as [_ Hact].
    destruct (PunishmentRule.type r) eqn:Ht; simpl;
      rewrite !find_user_updateWhere, Hu by reflexivity; simpl;
      eexists; (split; [reflexivity|]); simpl.
    + repeat split; auto. right. exists level. now split.
    + unfold isBan in Hact. rewrite Ht in Hact. simpl in Hact.
      apply negb_true_iff in Hact. rewrite Hact.
      split; [auto|]. split; [discriminate|]. right. exists level. now split.
  - simpl. rewrite find_user_updateWhere, Hu by reflexivity. simpl.
    eexists. split; [reflexivity|]. simpl. repeat split; auto.
    right. exists level. now split.
Qed.

(** The muted user of [dbMutedAt7] takes an orange warning: the mute and its
    expiry stay, a ban is added. *)
Lemma testModerate_keeps_mute_at_7 :
  exists u',
    userAfter "u1" (snd (testModerate 500 orangeVerdict "flood" "u1" "ann" dbMutedAt7)) =
      Some u' /\
    User.isMuted u' = true /\ User.muteExpiresAt u' = Some 3600000.
Proof.
  destruct (testModerate_never_lifts_punishment 500 orangeVerdict "flood" "u1" "ann"
              dbMutedAt7 _ eq_refl) as (u' & Hfind & _ & Hm & _).
  exists u'. split; [exact Hfind|]. exact (Hm eq_refl).
Defined.

(** ** Recalculation, again *)

Lemma updateWhere_idem {A : Type} (p : A -> bool) (f : A -> A) (l : list A) :
  (forall x, f (f x) = f x) ->
  updateWhere p f (updateWhere p f l) = updateWhere p f l.
Proof.
  intros H. unfold updateWhere. rewrite map_map. apply map_ext. intros x.
  destruct (p x) eqn:E; [|now rewrite E].
  destruct (p (f x)); [apply H | reflexivity].
Qed.

(** X8.  [recalculate] is idempotent: run again at the same time on its own
    result, it answers the same and changes nothing. *)
Theorem recalculate_idempotent :
  forall now userId db,
    recalculate now userId (snd (recalculate now userId db)) =
    (fst (recalculate now userId db), snd (recalculate now userId db)).
Proof.
  intros now userId db. unfold recalculate, findFirst.
  destruct (find (userIs userId) (users db)) as [user|] eqn:E; simpl.
  - rewrite find_user_updateWhere, E by reflexivity. simpl.
    unfold activeRulesDesc, withUsers. simpl. fold (activeRulesDesc db).
    rewrite updateWhere_idem by reflexivity.
    rewrite !hd_error_returning, find_user_updateWhere, E by reflexivity.
    reflexivity.
  - rewrite E. reflexivity.
Qed.

Lemma recalculateScan_none_met now total rules st :
  (forall r, In r rules -> total < PunishmentRule.pointThreshold r) ->
  recalculateScan now total rules st = st.
Proof.
  induction rules as [|x rules IH]; intros H; [reflexivity|]. simpl.
  assert (Hx : (total >=? PunishmentRule.pointThreshold x) = false).
  { specialize (H x (or_introl eq_refl)). rewrite Z.geb_leb. apply Z.leb_gt. lia. }
  rewrite Hx. apply IH. intros r Hr. apply H. now right.
Qed.

(** X9.  A reset the database accepts, followed by a recalculation, leaves
    the user clear: with every active threshold above 0, the recalculated row
    has 0 points, no ban, no mute and no expiry. *)
Theorem recalculate_after_reset_is_clear :
  forall now now' userId db user,
    userAfter userId db = Some user ->
    resetAccepted userId db ->
    (forall r, activeRule db r -> 0 < PunishmentRule.pointThreshold r) ->
    userAfter userId (snd (recalculate now' userId (snd (resetWarnings now userId db)))) =
      Some (User.mk (User.id user) (User.username user) 0 false false None).
Proof.
  intros now now' userId db user Hu Hacc Hpos. unfold userAfter, findFirst in *.
  unfold resetWarnings, findFirst. rewrite Hu, (resetWarnings_guard _ _ Hacc).
  cbv zeta. simpl snd.
  unfold recalculate, findFirst. simpl users.
  rewrite find_user_updateWhere, Hu by reflexivity. simpl option_map. cbv zeta.
  simpl snd. simpl users.
  rewrite !find_user_updateWhere, Hu by reflexivity. simpl.
  rewrite no_points_left_after_marking.
  change (sumPoints []) with 0.
  unfold activeRulesDesc at 1 2 3. simpl punishmentRules. fold (activeRulesDesc db).
  rewrite recalculateScan_none_met; [reflexivity|].
  intros r Hr. apply Hpos. now apply In_activeRulesDesc.
Qed.

(** With a users row for the system actor, the banned user of
    [dbBannedAt10] is clear after a reset and a recalculation. *)
Lemma reset_then_recalculate_at_10 :
  fst (resetWarnings 600 "u1" (withStaff dbBannedAt10)) = Json SuccessBody /\
  userAfter "u1"
    (snd (recalculate 700 "u1" (snd (resetWarnings 600 "u1" (withStaff dbBannedAt10))))) =
    Some (User.mk "u1" "ann" 0 false false None).
Proof.
  split; [reflexivity|].
  apply (recalculate_after_reset_is_clear 600 700 "u1" (withStaff dbBannedAt10) _ eq_refl).
  - left. exists (User.mk "system" "system" 0 false false None).
    split; [simpl; auto | reflexivity].
  - intros r [Hin _]. simpl in Hin. destruct Hin as [<-|[<-|[]]]; reflexivity.
Defined.

(** ** Key integrity *)

(** Key integrity only reads the ids and owners of the warnings, the serial
    counter and the ids of the users. *)
Lemma wellKeyed_transfer db db' :
  map Warning.id (warnings db') = map Warning.id (warnings db) ->
  map Warning.userId (warnings db') = map Warning.userId (warnings db) ->
  warningsSeq db' = warningsSeq db ->
  incl (map User.id (users db)) (map User.id (users db')) ->
  wellKeyed db -> wellKeyed db'.
Proof.
  intros Hid Huid Hseq Hus (Hnd & Hlt & Hfk). unfold wellKeyed.
  rewrite Hid, Huid, Hseq. repeat split; auto.
  intros x Hx. apply Hus, Hfk, Hx.
Qed.

Lemma getOrCreateUser_keys userId username db :
  incl (map User.id (users db))
       (map User.id (users (snd (getOrCreateUser userId username db)))) /\
  warnings (snd (getOrCreateUser userId username db)) = warnings db /\
  warningsSeq (snd (getOrCreateUser userId username db)) = warningsSeq db /\
  (forall user, fst (getOrCreateUser userId username db) = Some user ->
                In userId (map User.id (users (snd (getOrCreateUser userId username db))))).
Proof.
  destruct (getOrCreateUser_some userId username db) as (user & db1 & Hget & Hafter & Hcase).
  rewrite Hget. simpl.
  assert (Hin : In userId (map User.id (users db1))).
  { unfold userAfter, findFirst in Hafter. apply find_some in Hafter as [Hin Hid].
    apply userIs_eq in Hid. rewrite <- Hid. now apply in_map. }
  destruct Hcase as [[_ ->]|(_ & _ & ->)].
  - repeat split; auto. apply incl_refl.
  - repeat split; auto. unfold insertUser. simpl. rewrite map_app.
    apply incl_appl, incl_refl.
Qed.

Lemma botLoop_seq exec now authorId total rules db :
  warningsSeq (snd (botLoop exec now authorId total rules db)) = warningsSeq db.
Proof.
  induction rules as [|x rules IH]; [reflexivity|]. simpl.
  destruct (total >=? PunishmentRule.pointThreshold x); [|exact IH].
  destruct (exec x); [reflexivity|].
  destruct (botLoop exec now authorId total rules db) as [[a lg] d]. exact IH.
Qed.

Lemma testModerate_wellKeyed now analysis content userId username db :
  wellKeyed db -> wellKeyed (snd (testModerate now analysis content userId username db)).
Proof.
  intros Hk.
  unfold testModerate.
  destruct (String.eqb content "" || String.eqb userId "" || String.eqb username "");
    [exact Hk|].
  destruct (mapAnalysisToWarning analysis) as [w log].
  destruct (String.eqb (warningLevel w) "none"); [exact Hk|].
  destruct (findFirst _ (warningLevels db)) as [level|]; [|exact Hk].
  destruct (getOrCreateUser_keys userId username db) as (Hus & Hws & Hseq & Hnew).
  destruct (getOrCreateUser userId username db) as [[user|] db1];
    simpl in Hus, Hws, Hseq, Hnew.
  2:{ simpl. apply (wellKeyed_transfer db db1); auto; now rewrite Hws. }
  specialize (Hnew user eq_refl). cbv zeta.
  set (newTotal := User.totalPoints user + WarningLevel.points level).
  set (db2 := insertWarning now userId level (ruleTriggered w) content (deleteMessage w) db1).
  assert (Hk2 : wellKeyed db2).
  { destruct Hk as (Hnd & Hlt & Hfk). unfold wellKeyed, db2. simpl.
    rewrite Hws, Hseq, !map_app. simpl. split; [|split].
    + apply NoDup_app_remove_l with (l := []). simpl.
      apply Permutation_NoDup with (l := warningsSeq db :: map Warning.id (warnings db)).
      * apply Permutation_cons_append.
      * constructor; [|exact Hnd]. intros Hin.
        rewrite Forall_forall in Hlt. specialize (Hlt _ Hin). lia.
    + apply Forall_app. split.
      * eapply Forall_impl; [|exact Hlt]. intros a Ha. simpl in Ha. lia.
      * constructor; [lia | constructor].
    + apply incl_app; [intros x Hx; apply Hus, Hfk, Hx|].
      intros x [<-|[]]. exact Hnew. }
  destruct (inInteger newTotal); cbn [negb]; [|exact Hk2].
  set (db3 := withUsers _ db2).
  pose proof (moderateLoop_ledger now userId user newTotal (activeRulesDesc db3) db3)
    as [Hlw Hlu].
  assert (Hseq4 : warningsSeq
            (snd (moderateLoop now userId user newTotal (activeRulesDesc db3) db3)) =
            warningsSeq db3).
  { rewrite moderateLoop_first. destruct (find _ _) as [r|]; [|reflexivity].
    now destruct (PunishmentRule.type r). }
  destruct (moderateLoop now userId user newTotal (activeRulesDesc db3) db3) as [p db4].
  cbn [snd] in *.
  assert (Hids : map User.id (users db4) = map User.id (users db2)).
  { apply (f_equal (map fst)) in Hlu. rewrite !map_map in Hlu. simpl in Hlu.
    transitivity (map User.id (users db3)); [exact Hlu|].
    unfold db3. simpl. now apply map_updateWhere_invariant. }
  apply (wellKeyed_transfer db2 db4); [| | |rewrite Hids; apply incl_refl|exact Hk2].
  + now rewrite Hlw.
  + now rewrite Hlw.
  + now rewrite Hseq4.
Qed.

Lemma onMessage_wellKeyed exec now analysis userId username db :
  wellKeyed db -> wellKeyed (botDb (onMessage exec now analysis userId username db)).
Proof.
  intros Hk.
  unfold onMessage. destruct (mapAnalysisToWarning analysis) as [w log].
  destruct (String.eqb (warningLevel w) "none"); [exact Hk|].
  destruct (findFirst _ (warningLevels db)) as [level|]; [|exact Hk].
  destruct (getOrCreateUser_keys userId username db) as (Hus & Hws & Hseq & _).
  destruct (getOrCreateUser userId username db) as [[user|] db1];
    simpl in Hus, Hws, Hseq.
  2:{ simpl. apply (wellKeyed_transfer db db1); auto; now rewrite Hws. }
  set (newTotal := User.totalPoints user + WarningLevel.points level).
  set (db2 := withUsers _ db1).
  pose proof (botLoop_ledger exec now userId newTotal (activeRulesDesc db2) db2)
    as [Hbu Hbw].
  pose proof (botLoop_seq exec now userId newTotal (activeRulesDesc db2) db2) as Hbs.
  destruct (botLoop exec now userId newTotal (activeRulesDesc db2) db2) as [[a l] d].
  simpl in *. apply (wellKeyed_transfer db d); auto.
  + now rewrite Hbw, Hws.
  + now rewrite Hbw, Hws.
  + now rewrite Hbs.
  + rewrite Hbu. unfold db2. simpl.
    rewrite map_updateWhere_invariant by reflexivity. exact Hus.
Qed.

Lemma ignoreWarning_wellKeyed now id reviewer reason db :
  wellKeyed db -> wellKeyed (snd (ignoreWarning now id reviewer reason db)).
Proof.
  intros Hk.
  unfold ignoreWarning.
  destruct (String.eqb reviewer "" || String.eqb reason ""); [exact Hk|].
  destruct (findFirst (warningIs id) (warnings db)) as [w|] eqn:Hw; [|exact Hk].
  destruct (findFirst (userIs (Warning.userId w)) (users db)) as [user|]; [|exact Hk].
  destruct (existsb (userIs reviewer) (users db)); cbn [negb]; [|exact Hk].
  cbv zeta.
  destruct (inInteger (User.totalPoints user - Warning.points w)); cbn [negb].
  2:{ cbn [snd]. apply (wellKeyed_transfer db); simpl; auto;
        rewrite ?map_updateWhere_invariant by reflexivity;
        try reflexivity; apply incl_refl. }
  match goal with
  | |- context [if ?c then _ else _] => destruct c
  end; simpl; unfold findFirst in *;
    rewrite find_warning_updateWhere, Hw by reflexivity; simpl;
    apply (wellKeyed_transfer db); simpl; auto;
    rewrite ?map_updateWhere_invariant by reflexivity;
    try reflexivity; apply incl_refl.
Qed.

Lemma recalculate_wellKeyed now userId db :
  wellKeyed db -> wellKeyed (snd (recalculate now userId db)).
Proof.
  intros Hk.
  unfold recalculate. destruct (findFirst _ (users db)); [|exact Hk]. simpl.
  apply (wellKeyed_transfer db); simpl; auto.
  rewrite map_updateWhere_invariant by reflexivity. apply incl_refl.
Qed.

Lemma resetWarnings_wellKeyed now userId db :
  wellKeyed db -> wellKeyed (snd (resetWarnings now userId db)).
Proof.
  intros Hk.
  unfold resetWarnings. destruct (findFirst _ (users db)); [|exact Hk].
  destruct (existsb (warningOf userId) (warnings db) &&
            negb (existsb (userIs "system") (users db))); [exact Hk|].
  simpl.
  apply (wellKeyed_transfer db); simpl;
    rewrite ?map_updateWhere_invariant by reflexivity; auto. apply incl_refl.
Qed.

(** In a well keyed database a user without a row has no warnings. *)
Lemma wellKeyed_no_row userId db :
  wellKeyed db -> userAfter userId db = None -> ledgerTotal userId db = 0.
Proof.
  intros Hk.
  intros Hnone. destruct Hk as (_ & _ & Hfk). unfold ledgerTotal, findMany.
  assert (Hno : forall w, In w (warnings db) -> nonIgnoredOf userId w = false).
  { intros w Hin. apply nonIgnoredOf_other. intros Heq.
    assert (Hu : In userId (map User.id (users db)))
      by (apply Hfk; rewrite <- Heq; now apply in_map).
    apply in_map_iff in Hu as (u & Hid & Huin).
    unfold userAfter, findFirst in Hnone.
    pose proof (find_none _ _ Hnone u Huin) as Hf.
    apply userIs_false in Hf. contradiction. }
  clear Hfk. induction (warnings db) as [|w ws IH]; [reflexivity|]. simpl.
  rewrite (Hno w (or_introl eq_refl)). apply IH. intros w' Hw'. apply Hno. now right.
Qed.

(** X10.  Key integrity is kept by every handler of the engine: if warning
    ids are pairwise distinct and below the serial counter and every warning
    belongs to a user with a row, the same holds after [testModerate], the
    Discord handler, [ignoreWarning], [recalculate] and [resetWarnings]; and
    in such a database a user without a row has a ledger total of 0. *)
Theorem handlers_keep_keys :
  forall exec now analysis content userId username id reviewer reason db,
    wellKeyed db ->
    wellKeyed (snd (testModerate now analysis content userId username db)) /\
    wellKeyed (botDb (onMessage exec now analysis userId username db)) /\
    wellKeyed (snd (ignoreWarning now id reviewer reason db)) /\
    wellKeyed (snd (recalculate now userId db)) /\
    wellKeyed (snd (resetWarnings now userId db)) /\
    (userAfter userId db = None -> ledgerTotal userId db = 0).
Proof.
  intros exec now analysis content userId username id reviewer reason db Hk.
  split; [now apply testModerate_wellKeyed|].
  split; [now apply onMessage_wellKeyed|].
  split; [now apply ignoreWarning_wellKeyed|].
  split; [now apply recalculate_wellKeyed|].
  split; [now apply resetWarnings_wellKeyed | now apply wellKeyed_no_row].
Qed.

(** [dbOneRed] is well keyed, and so is what the test endpoint makes of it. *)
Lemma testModerate_keeps_keys_on_red :
  wellKeyed (snd (testModerate 300 redVerdict "buy now" "u1" "ann" dbOneRed)).
Proof.
  apply (handlers_keep_keys (fun _ => true) 300 redVerdict "buy now" "u1" "ann"
           1 "mod1" "false positive" dbOneRed).
  unfold wellKeyed. simpl. split; [|split].
  - repeat constructor. intros [].
  - repeat constructor.
  - intros x [<-|[]]. now left.
Defined.

(** ** The ledger along a run *)

Lemma recalculate_ledger_step now userId db :
  (forall u, In u (users db) -> User.id u <> userId ->
             User.totalPoints u = ledgerTotal (User.id u) db) ->
  ledgerConsistent (snd (recalculate now userId db)).
Proof.
  intros Hothers. unfold recalculate, findFirst.
  destruct (find (userIs userId) (users db)) as [user|] eqn:E; simpl.
  - intros u' Hin. simpl in Hin. apply In_updateWhere in Hin as (x & Hx & ->).
    destruct (userIs userId x) eqn:Ex.
    + apply userIs_eq in Ex. simpl. now rewrite Ex.
    + apply userIs_false in Ex. now apply Hothers.
  - intros u Hin. apply Hothers; [exact Hin|].
    apply userIs_false. exact (find_none _ _ E u Hin).
Qed.

Lemma resetWarnings_ledger_step now userId db :
  ledgerConsistent db -> ledgerConsistent (snd (resetWarnings now userId db)).
Proof.
  intros Hcons. unfold resetWarnings, findFirst.
  destruct (find (userIs userId) (users db)) as [user|] eqn:E; [|exact Hcons].
  destruct (existsb (warningOf userId) (warnings db) &&
            negb (existsb (userIs "system") (users db))); [exact Hcons|].
  simpl. intros u' Hin. simpl in Hin. apply In_updateWhere in Hin as (x & Hx & ->).
  unfold ledgerTotal. simpl. destruct (userIs userId x) eqn:Ex.
  - apply userIs_eq in Ex. simpl. rewrite Ex.
    now rewrite no_points_left_after_marking.
  - apply userIs_false in Ex. rewrite marking_keeps_other_totals by exact Ex.
    now apply Hcons.
Qed.

Lemma testModerate_ledger_step now analysis content userId username db :
  ledgerConsistent db ->
  (userAfter userId db = None -> ledgerTotal userId db = 0) ->
  fst (fst (testModerate now analysis content userId username db)) <>
    DbFailure IntegerOutOfRange ->
  ledgerConsistent (snd (testModerate now analysis content userId username db)).
Proof.
  intros Hcons Hfk. unfold testModerate.
  destruct (String.eqb content "" || String.eqb userId "" || String.eqb username "");
    [intros _; exact Hcons|].
  destruct (mapAnalysisToWarning analysis) as [w log].
  destruct (String.eqb (warningLevel w) "none"); [intros _; exact Hcons|].
  destruct (findFirst _ (warningLevels db)) as [level|]; [|intros _; exact Hcons].
  destruct (getOrCreateUser_some userId username db)
    as (user & db1 & -> & Hafter & Hcase).
  cbv zeta.
  set (newTotal := User.totalPoints user + WarningLevel.points level).
  set (db2 := insertWarning now userId level (ruleTriggered w) content (deleteMessage w) db1).
  destruct (inInteger newTotal); cbn [negb];
    [|cbn [fst]; intros Hno; now elim Hno].
  set (db3 := withUsers _ db2).
  pose proof (moderateLoop_ledger now userId user newTotal (activeRulesDesc db3) db3)
    as [Hws Hus].
  destruct (moderateLoop now userId user newTotal (activeRulesDesc db3) db3)
    as [p db4].
  simpl in Hws, Hus. cbn [fst snd]. intros _.
  assert (Hws1 : warnings db1 = warnings db)
    by (destruct Hcase as [[_ ->]|(_ & _ & ->)]; reflexivity).
  assert (Huser : User.totalPoints user = ledgerTotal userId db).
  { destruct Hcase as [[Hu _]|(Hu & -> & _)].
    - unfold userAfter, findFirst in Hu. apply find_some in Hu as [Hin Hid].
      apply userIs_eq in Hid. rewrite (Hcons user Hin), Hid. reflexivity.
    - simpl. symmetry. exact (Hfk Hu). }
  intros u' Hin. unfold ledgerTotal. rewrite Hws, Hws1. unfold findMany.
  rewrite filter_app, sumPoints_app. fold (findMany (nonIgnoredOf (User.id u')) (warnings db)).
  fold (ledgerTotal (User.id u') db).
  apply (in_map (fun u => (User.id u, User.totalPoints u))) in Hin.
  rewrite Hus in Hin. apply in_map_iff in Hin as (u3 & Heq & Hin3).
  injection Heq as Hid Htot. rewrite <- Hid, <- Htot.
  apply In_updateWhere in Hin3 as (x & Hx & ->).
  cbn [filter]. rewrite nonIgnoredOf_fresh by reflexivity. cbn [Warning.userId].
  destruct (userIs userId x) eqn:E.
  - apply userIs_eq in E. simpl. rewrite E, String.eqb_refl, sumPoints_cons.
    unfold newTotal. cbn [Warning.points sumPoints fold_left]. rewrite Huser. lia.
  - pose proof E as E'. apply userIs_false in E'. apply String.eqb_neq in E'.
    rewrite String.eqb_sym in E'. rewrite E'. cbn [sumPoints fold_left].
    assert (Hxin : In x (users db)).
    { destruct Hcase as [[_ ->]|(_ & _ & ->)]; [exact Hx|].
      simpl in Hx. apply in_app_or in Hx as [Hx|[<-|[]]]; [exact Hx|].
      unfold userIs in E. simpl in E. now rewrite String.eqb_refl in E. }
    rewrite (Hcons x Hxin). lia.
Qed.

Lemma ignoreWarning_ledger_step now id reviewer reason db warning :
  ledgerConsistent db ->
  NoDup (map Warning.id (warnings db)) ->
  findFirst (warningIs id) (warnings db) = Some warning ->
  Warning.messageIgnored warning = false ->
  fst (ignoreWarning now id reviewer reason db) <> DbFailure IntegerOutOfRange ->
  ledgerConsistent (snd (ignoreWarning now id reviewer reason db)).
Proof.
  intros Hcons Hnd Hw Hfresh Hrange.
  destruct (String.eqb_spec reviewer "") as [->|Hrev];
    [unfold ignoreWarning; simpl; exact Hcons|].
  destruct (String.eqb_spec reason "") as [->|Hreason].
  { unfold ignoreWarning. rewrite orb_true_r. exact Hcons. }
  destruct (userAfter (Warning.userId warning) db) as [user|] eqn:Hu.
  2:{ unfold ignoreWarning.
      rewrite (eqb_empty_false _ Hrev), (eqb_empty_false _ Hreason), Hw.
      unfold userAfter in Hu. simpl. rewrite Hu. exact Hcons. }
  destruct (ignoreWarning_refused now id reviewer reason db warning user
              Hrev Hreason Hw Hu) as [Hfk Hout].
  destruct (existsb (userIs reviewer) (users db)) eqn:Hrow;
    [|rewrite (Hfk eq_refl); exact Hcons].
  destruct (inInteger (User.totalPoints user - Warning.points warning)) eqn:Hint;
    [|rewrite (Hout eq_refl eq_refl) in Hrange; now elim Hrange].
  apply hasRow_existsb in Hrow.
  destruct (ignoreWarning_users now id reviewer reason db warning user
              Hrev Hreason Hrow Hw Hu Hint) as (f & Hf & Husers).
  destruct (ignoreWarning_ok now id reviewer reason db warning user
              Hrev Hreason Hrow Hw Hu Hint) as (_ & Hws & _).
  intros u' Hin. unfold ledgerTotal. rewrite Hws. rewrite Husers in Hin.
  apply In_updateWhere in Hin as (x & Hx & ->).
  rewrite (marking_one_warning now reviewer reason id (warnings db) warning _ Hnd Hw Hfresh).
  fold (ledgerTotal (User.id (if userIs (Warning.userId warning) x then f x else x)) db).
  destruct (userIs (Warning.userId warning) x) eqn:E.
  - destruct (Hf x) as [Hfid Hftot]. rewrite Hfid, Hftot.
    apply userIs_eq in E. rewrite E, String.eqb_refl.
    unfold userAfter, findFirst in Hu. apply find_some in Hu as [Huin Huid].
    apply userIs_eq in Huid. rewrite (Hcons user Huin), Huid. reflexivity.
  - apply userIs_false in E. apply String.eqb_neq in E.
    rewrite String.eqb_sym in E. rewrite E, (Hcons x Hx). lia.
Qed.

Lemma EngineStep_invariant db db' :
  EngineStep db db' ->
  wellKeyed db /\ ledgerConsistent db -> wellKeyed db' /\ ledgerConsistent db'.
Proof.
  intros Hstep [Hk Hc]. destruct Hstep as [now analysis content userId username db Hrange
    | now id reviewer reason db Hfresh Hrange | now userId db | now userId db].
  - split; [now apply testModerate_wellKeyed|].
    apply testModerate_ledger_step;
      [exact Hc | now apply wellKeyed_no_row | exact Hrange].
  - split; [now apply ignoreWarning_wellKeyed|].
    destruct (findFirst (warningIs id) (warnings db)) as [w|] eqn:Hw.
    + apply (ignoreWarning_ledger_step now id reviewer reason db w); auto.
      apply Hk.
    + unfold ignoreWarning. rewrite Hw.
      now destruct (String.eqb reviewer "" || String.eqb reason "").
  - split; [now apply recalculate_wellKeyed|].
    apply recalculate_ledger_step. intros u Hin _. now apply Hc.
  - split; [now apply resetWarnings_wellKeyed|].
    now apply resetWarnings_ledger_step.
Qed.

(** X11.  Along every run of the engine that goes through the test endpoint,
    [recalculate], [resetWarnings] and [ignoreWarning] on warnings not yet
    ignored, with no call stopped by the database between its two writes, a
    database that is well keyed and whose user rows agree with the ledger
    stays so: after the run every user's [totalPoints] is the sum of the
    points of that user's warnings that are not ignored.  A call the database
    refuses before its first write is a step like any other. *)
Theorem engine_run_keeps_ledger :
  forall db db',
    wellKeyed db -> ledgerConsistent db -> EngineRun db db' ->
    wellKeyed db' /\ ledgerConsistent db'.
Proof.
  intros db db' Hk Hc Hrun. induction Hrun as [db|db db1 db2 Hstep Hrun IH].
  - now split.
  - destruct (EngineStep_invariant db db1 Hstep (conj Hk Hc)) as [Hk1 Hc1].
    now apply IH.
Qed.

(** A run from [dbOneRed] with the staff's users rows: an orange warning,
    the red one ignored by a moderator, a recalculation, another red warning,
    a reset; the database accepts every call. *)
Lemma engine_run_from_one_red :
  ledgerConsistent
    (snd (resetWarnings 5 "u1"
       (snd (testModerate 4 redVerdict "again" "u1" "ann"
          (snd (recalculate 3 "u1"
             (snd (ignoreWarning 2 1 "mod1" "false positive"
                (snd (testModerate 1 orangeVerdict "flood" "u1" "ann"
                        (withStaff dbOneRed))))))))))) /\
  option_map User.totalPoints
    (userAfter "u1"
       (snd (ignoreWarning 2 1 "mod1" "false positive"
          (snd (testModerate 1 orangeVerdict "flood" "u1" "ann" (withStaff dbOneRed)))))) =
    Some 3.
Proof.
  split; [|reflexivity].
  apply (engine_run_keeps_ledger (withStaff dbOneRed)).
  - unfold wellKeyed. simpl. split; [|split].
    + repeat constructor. intros [].
    + repeat constructor.
    + intros x [<-|[]]. now left.
  - intros u [<-|[<-|[<-|[<-|[]]]]]; reflexivity.
  - eapply RunStep.
    { apply (StepModerate 1 orangeVerdict "flood" "u1" "ann"). discriminate. }
    eapply RunStep.
    { apply (StepIgnore 2 1 "mod1" "false positive");
        [intros w [= <-]; reflexivity | discriminate]. }
    eapply RunStep; [apply (StepRecalculate 3 "u1")|].
    eapply RunStep.
    { apply (StepModerate 4 redVerdict "again" "u1" "ann"). discriminate. }
    eapply RunStep; [apply (StepReset 5 "u1")|]. apply RunDone.
Defined.

(** ** The MessageCreate handler before the engine *)

Lemma analyzeWithRetry_some classify content context retries k analysis :
  analyzeWithRetry classify content context retries k = Some analysis <->
  exists j, (j < retries)%nat /\
            classify (k + j)%nat content context = Some analysis /\
            forall i, (i < j)%nat -> classify (k + i)%nat content context = None.
Proof.
  revert k. induction retries as [|n IH]; intros k; simpl.
  - split; [discriminate | intros (j & Hj & _); lia].
  - destruct (classify k content context) as [a|] eqn:E.
    + split.
      * intros [= <-]. exists 0%nat. rewrite Nat.add_0_r.
        split; [lia|]. split; [exact E | intros i Hi; lia].
      * intros (j & Hj & Hc & Hnone). destruct j as [|j].
        -- rewrite Nat.add_0_r in Hc. congruence.
        -- specialize (Hnone 0%nat ltac:(lia)). rewrite Nat.add_0_r in Hnone. congruence.
    + rewrite IH. split.
      * intros (j & Hj & Hc & Hnone). exists (S j). split; [lia|].
        split; [now replace (k + S j)%nat with (S k + j)%nat by lia|].
        intros i Hi. destruct i as [|i]; [now rewrite Nat.add_0_r|].
        replace (k + S i)%nat with (S k + i)%nat by lia. apply Hnone. lia.
      * intros (j & Hj & Hc & Hnone). destruct j as [|j].
        -- rewrite Nat.add_0_r in Hc. congruence.
        -- exists j. split; [lia|].
           split; [now replace (S k + j)%nat with (k + S j)%nat by lia|].
           intros i Hi. replace (S k + i)%nat with (k + S i)%nat by lia.
           apply Hnone. lia.
Qed.

Lemma analyzeWithRetry_none classify content context retries k :
  analyzeWithRetry classify content context retries k = None <->
  forall j, (j < retries)%nat -> classify (k + j)%nat content context = None.
Proof.
  revert k. induction retries as [|n IH]; intros k; simpl.
  - split; [intros _ j Hj; lia | reflexivity].
  - destruct (classify k content context) as [a|] eqn:E.
    + split; [discriminate|]. intros H. specialize (H 0%nat ltac:(lia)).
      rewrite Nat.add_0_r in H. congruence.
    + rewrite IH. split.
      * intros H j Hj. destruct j as [|j]; [now rewrite Nat.add_0_r|].
        replace (k + S j)%nat with (S k + j)%nat by lia. apply H. lia.
      * intros H j Hj. replace (S k + j)%nat with (k + S j)%nat by lia.
        apply H. lia.
Qed.

(** X12.  The retry loop is bounded and takes the first answer: with a budget
    of [retries] calls it returns an analysis exactly when one of the first
    [retries] calls returns, and then the analysis of the earliest such call;
    it gives up exactly when all of them throw.  Calls beyond the budget are
    never consulted. *)
Theorem analyzeWithRetry_first_answer :
  forall classify content context retries,
    (forall analysis,
       analyzeWithRetry classify content context retries 0 = Some analysis <->
       exists j, (j < retries)%nat /\
                 classify j content context = Some analysis /\
                 forall i, (i < j)%nat -> classify i content context = None) /\
    (analyzeWithRetry classify content context retries 0 = None <->
     forall j, (j < retries)%nat -> classify j content context = None) /\
    (forall classify',
       (forall j, (j < retries)%nat ->
                  classify' j content context = classify j content context) ->
       analyzeWithRetry classify' content context retries 0 =
       analyzeWithRetry classify content context retries 0).
Proof.
  intros classify content context retries.
  split; [intros analysis; apply (analyzeWithRetry_some classify content context retries 0)|].
  split; [apply (analyzeWithRetry_none classify content context retries 0)|].
  intros classify' Hsame.
  destruct (analyzeWithRetry classify content context retries 0) as [a|] eqn:E.
  - apply analyzeWithRetry_some in E as (j & Hj & Hc & Hnone).
    apply analyzeWithRetry_some. exists j. split; [exact Hj|].
    split; [now rewrite Hsame|]. intros i Hi. rewrite Hsame by lia. now apply Hnone.
  - apply analyzeWithRetry_none. intros j Hj. rewrite Hsame by exact Hj.
    now apply (proj1 (analyzeWithRetry_none classify content context retries 0) E).
Qed.

Lemma missing_permission_found perms p :
  In p REQUIRED_PERMISSIONS -> has perms p = false ->
  Nat.eqb (List.length (filter (fun q => negb (has perms q)) REQUIRED_PERMISSIONS)) 0 = false.
Proof.
  intros Hin Hhas.
  assert (Hf : In p (filter (fun q => negb (has perms q)) REQUIRED_PERMISSIONS))
    by (apply filter_In; split; [exact Hin | now rewrite Hhas]).
  destruct (filter _ REQUIRED_PERMISSIONS); [destruct Hf | reflexivity].
Qed.

Lemma no_missing_permission perms :
  (forall p, In p REQUIRED_PERMISSIONS -> has perms p = true) ->
  filter (fun q => negb (has perms q)) REQUIRED_PERMISSIONS = [].
Proof.
  intros H. unfold REQUIRED_PERMISSIONS in *. simpl.
  rewrite !H by (simpl; tauto). reflexivity.
Qed.

(** X13.  The MessageCreate handler reaches the engine only for a message of
    a human member in a text channel of a guild where the bot holds the four
    required permissions and one of the first three classifier calls returns.
    In every other case it writes nothing and sends nothing; when it does
    reach the engine, its effect on the database and its notification are
    those of the engine on the first analysis returned. *)
Theorem onMessageCreate_guards :
  forall classify exec now message db,
    (authorIsBot message = true \/
     hasGuildAndMember message = false \/
     botMemberFound message = false \/
     channelIsTextBased message = false \/
     permissions message = None \/
     (exists perms p, permissions message = Some perms /\
                      In p REQUIRED_PERMISSIONS /\ has perms p = false) \/
     (forall k, (k < 3)%nat ->
                classify k (content message) (contextOf (fetched message)) = None) ->
     handlerDb (onMessageCreate classify exec now message db) = db /\
     handlerSent (onMessageCreate classify exec now message db) = None) /\
    (forall perms analysis,
       authorIsBot message = false ->
       hasGuildAndMember message = true ->
       botMemberFound message = true ->
       channelIsTextBased message = true ->
       permissions message = Some perms ->
       (forall p, In p REQUIRED_PERMISSIONS -> has perms p = true) ->
       analyzeWithRetry classify (content message) (contextOf (fetched message)) 3 0 =
         Some analysis ->
       handlerDb (onMessageCreate classify exec now message db) =
         botDb (onMessage exec now analysis (authorId message) (authorName message) db) /\
       handlerSent (onMessageCreate classify exec now message db) =
         sent (onMessage exec now analysis (authorId message) (authorName message) db)).
Proof.
  intros classify exec now message db. split.
  - intros Hguard. unfold onMessageCreate.
    destruct (authorIsBot message); [now split|].
    destruct (hasGuildAndMember message); [|now split].
    destruct (botMemberFound message); [|now split].
    destruct (channelIsTextBased message); [|now split].
    cbn [negb].
    destruct (permissions message) as [perms|]; [|now split].
    cbv zeta.
    destruct (Nat.eqb (List.length (filter (fun permission => negb (has perms permission))
                                   REQUIRED_PERMISSIONS)) 0) eqn:Hmiss;
      cbn [negb]; [|now split].
    destruct Hguard as [H|[H|[H|[H|[H|[H|H]]]]]]; try discriminate.
    + destruct H as (perms' & p & [= <-] & Hin & Hhas).
      rewrite (missing_permission_found perms p Hin Hhas) in Hmiss. discriminate.
    + apply (analyzeWithRetry_none classify _ _ 3 0) in H. rewrite H. now split.
  - intros perms analysis Hbot Hguild Hmember Htext Hperm Hall Hanalysis.
    unfold onMessageCreate.
    rewrite Hbot, Hguild, Hmember, Htext, Hperm. cbn [negb]. cbv zeta.
    rewrite (no_missing_permission perms Hall). cbn [List.length Nat.eqb negb].
    rewrite Hanalysis. now split.
Qed.

Lemma removelast_snoc {A : Type} (l : list A) (x : A) : removelast (l ++ [x]) = l.
Proof.
  induction l as [|y l IH]; [reflexivity|]. simpl.
  destruct (l ++ [x]) eqn:E; [now destruct l | now rewrite IH].
Qed.

(** X14.  The context handed to the classifier is the fetched history
    without its newest message (the message being judged), oldest first; it
    is empty when the fetch fails or returns nothing, and holds at most five
    messages for the six the handler asks for. *)
Theorem contextOf_drops_newest :
  forall messages,
    contextOf None = [] /\
    contextOf (Some messages) = rev (tl messages) /\
    List.length (contextOf (Some messages)) = Nat.pred (List.length messages) /\
    ((List.length messages <= 6)%nat ->
     (List.length (contextOf (Some messages)) <= 5)%nat).
Proof.
  intros messages. split; [reflexivity|].
  assert (H : contextOf (Some messages) = rev (tl messages)).
  { destruct messages as [|m older]; [reflexivity|]. simpl.
    apply removelast_snoc. }
  split; [exact H|]. rewrite H, length_rev.
  destruct messages; simpl; split; lia.
Qed.

(** A message the handler lets through, the first classifier call failing:
    the engine runs on the red verdict of the second call. *)
Lemma onMessageCreate_after_one_failure :
  handlerDb (onMessageCreate flakyClassifier (fun _ => true) 300
               (humanMessage REQUIRED_PERMISSIONS [] "u1" "ann" "buy now") dbOneRed) =
    botDb (onMessage (fun _ => true) 300 redVerdict "u1" "ann" dbOneRed) /\
  handlerSent (onMessageCreate flakyClassifier (fun _ => true) 300
                 (humanMessage REQUIRED_PERMISSIONS [] "u1" "ann" "buy now") dbOneRed) =
    Some (mkParams "red" "u1" (Some 5) 10 (Some ban)).
Proof.
  destruct (proj2 (onMessageCreate_guards flakyClassifier (fun _ => true) 300
                     (humanMessage REQUIRED_PERMISSIONS [] "u1" "ann" "buy now") dbOneRed)
              REQUIRED_PERMISSIONS redVerdict
              eq_refl eq_refl eq_refl eq_refl eq_refl) as [Hdb Hsent].
  - intros p Hp. simpl in Hp. destruct Hp as [<-|[<-|[<-|[<-|[]]]]]; reflexivity.
  - reflexivity.
  - split; [exact Hdb|]. rewrite Hsent. reflexivity.
Defined.

(** ** The moderation mapping *)

Lemma inWarningConfigs_cases level :
  inWarningConfigs level = true ->
  level = "yellow" \/ level = "orange" \/ level = "red" \/
  level = "constructor" \/ level = "__proto__".
Proof.
  unfold inWarningConfigs, WARNING_CONFIGS.
  destruct (String.eqb_spec level "yellow"); [auto|].
  destruct (String.eqb_spec level "orange"); [auto|].
  destruct (String.eqb_spec level "red"); [auto|].
  destruct (String.eqb_spec level "constructor"); [auto|].
  destruct (String.eqb_spec level "__proto__"); [auto 6|]. discriminate.
Qed.

(** X15.  What the mapping of an analysis can be: no warning, worth 0 points
    and without deletion, in particular whenever no violation was detected;
    or, for a detected violation, a warning at the lowered level name, which
    is then yellow (1 point, message kept), orange (3 points, message
    deleted) or red (5 points, message deleted) whatever the letter case of
    the name, or one of the two keys the table inherits, with no points and
    no deletion flag. *)
Theorem mapAnalysisToWarning_levels :
  forall analysis,
    (detected analysis = false ->
     mapAnalysisToWarning analysis = (noWarning, [])) /\
    (fst (mapAnalysisToWarning analysis) = noWarning \/
     detected analysis = true /\
     exists name,
       levelName analysis = Some name /\
       warningLevel (fst (mapAnalysisToWarning analysis)) = toLowerCase name /\
       ruleTriggered (fst (mapAnalysisToWarning analysis)) = explanation analysis /\
       (toLowerCase name = "yellow" /\
        points (fst (mapAnalysisToWarning analysis)) = Some 1 /\
        deleteMessage (fst (mapAnalysisToWarning analysis)) = Some false \/
        toLowerCase name = "orange" /\
        points (fst (mapAnalysisToWarning analysis)) = Some 3 /\
        deleteMessage (fst (mapAnalysisToWarning analysis)) = Some true \/
        toLowerCase name = "red" /\
        points (fst (mapAnalysisToWarning analysis)) = Some 5 /\
        deleteMessage (fst (mapAnalysisToWarning analysis)) = Some true \/
        (toLowerCase name = "constructor" \/ toLowerCase name = "__proto__") /\
        points (fst (mapAnalysisToWarning analysis)) = None /\
        deleteMessage (fst (mapAnalysisToWarning analysis)) = None)) /\
    (forall name,
       detected analysis = true -> levelName analysis = Some name ->
       toLowerCase name = "yellow" \/ toLowerCase name = "orange" \/
       toLowerCase name = "red" ->
       warningLevel (fst (mapAnalysisToWarning analysis)) = toLowerCase name).
Proof.
  intros analysis. split; [|split].
  - intros Hd. unfold mapAnalysisToWarning. now rewrite Hd.
  - unfold mapAnalysisToWarning.
    destruct (detected analysis); simpl; [|now left].
    destruct (levelName analysis) as [name|]; simpl; [|now left].
    destruct (String.eqb (toLowerCase name) ""); simpl; [now left|].
    destruct (inWarningConfigs (toLowerCase name)) eqn:Hcfg; simpl; [|now left].
    right. split; [reflexivity|]. exists name.
    do 3 (split; [reflexivity|]).
    destruct (inWarningConfigs_cases _ Hcfg) as [H|[H|[H|[H|H]]]]; rewrite H; simpl;
      auto 8.
  - intros name Hd Hname Hlow. unfold mapAnalysisToWarning. rewrite Hd, Hname. simpl.
    destruct Hlow as [-> | [-> | ->]]; reflexivity.
Qed.

(** ** The punishment policy routes *)

(** The shape of an accepted POST: the rule written, with the id drawn, the
    type and threshold of the body, a duration only for a mute, and active. *)
Lemma createPunishmentRule_ok newId body db rule :
  fst (createPunishmentRule newId body db) = Ok rule ->
  exists type threshold,
    parseType (bodyType body) = Some type /\
    bodyThreshold body = Some threshold /\
    (type = mute -> bodyDuration body <> None) /\
    rule = PunishmentRule.mk newId type threshold
             (match type with mute => bodyDuration body | ban => None end) true /\
    snd (createPunishmentRule newId body db) =
      withPunishmentRules (punishmentRules db ++ [rule]) db.
Proof.
  unfold createPunishmentRule.
  destruct (bodyThreshold body) as [th|]; [|discriminate].
  destruct (String.eqb (bodyType body) "") eqn:E1; [discriminate|]. simpl orb.
  destruct (String.eqb (bodyType body) "mute" &&
            match bodyDuration body with Some _ => false | None => true end) eqn:E2;
    [discriminate|].
  destruct (parseType (bodyType body)) as [t|] eqn:Ep; [|discriminate].
  simpl. intros [= <-]. exists t, th. repeat split; auto.
  intros -> Hd. unfold parseType in Ep.
  destruct (String.eqb (bodyType body) "ban"); [discriminate|].
  destruct (String.eqb (bodyType body) "mute"); [|discriminate].
  now rewrite Hd in E2.
Qed.

(** No PUT writes: the handler answers 400 or throws at [awaitdb]. *)
Lemma updatePunishmentRule_unchanged id body db :
  snd (updatePunishmentRule id body db) = db.
Proof.
  unfold updatePunishmentRule.
  destruct (bodyThreshold body); [|reflexivity].
  destruct (_ || _); [reflexivity|].
  now destruct (parseType (bodyType body)).
Qed.

(** A reply that is not [Ok] leaves the policy as it was. *)
Lemma policy_write_refused newId body db :
  (forall rule, fst (createPunishmentRule newId body db) <> Ok rule) ->
  snd (createPunishmentRule newId body db) = db.
Proof.
  unfold createPunishmentRule.
  destruct (bodyThreshold body); [|reflexivity].
  destruct (_ || _); [reflexivity|].
  destruct (parseType (bodyType body)); [|reflexivity].
  simpl. intros H. now elim (H _ eq_refl).
Qed.

(** X16.  The policy routes keep the policy well formed: if every mute rule
    has a duration and no ban rule has one, the same holds after any POST,
    PUT or DELETE on /api/punishment-rules, whatever the request (a PUT
    writes nothing). *)
Theorem policy_routes_keep_well_formed :
  forall newId id body db,
    policyWellFormed db ->
    policyWellFormed (snd (createPunishmentRule newId body db)) /\
    policyWellFormed (snd (updatePunishmentRule id body db)) /\
    policyWellFormed (snd (deletePunishmentRule id db)).
Proof.
  intros newId id body db Hwf. unfold policyWellFormed in *. split; [|split].
  - destruct (fst (createPunishmentRule newId body db)) as [rule| |code msg|msg] eqn:E.
    + destruct (createPunishmentRule_ok newId body db rule E)
        as (t & th & _ & _ & Hd & -> & ->).
      simpl. apply Forall_app. split; [exact Hwf|]. constructor; [|constructor].
      unfold ruleWellFormed. simpl. destruct t; [reflexivity | now apply Hd].
    + rewrite policy_write_refused; [exact Hwf | intros r; congruence].
    + rewrite policy_write_refused; [exact Hwf | intros r; congruence].
    + rewrite policy_write_refused; [exact Hwf | intros r; congruence].
  - now rewrite updatePunishmentRule_unchanged.
  - simpl. rewrite Forall_forall in *. intros r Hin.
    apply filter_In in Hin as [Hin _]. now apply Hwf.
Qed.

(** The policy of the scenarios is well formed, and stays so when a mute
    without a duration is posted (it is refused) and when a ban at 20 points
    is. *)
Lemma policy_of_scenarios_well_formed :
  policyWellFormed
    (snd (createPunishmentRule 3 (mkRuleBody "mute" (Some 7) None None) dbOneRed)) /\
  policyWellFormed (snd (createPunishmentRule 3 (banAt 20) dbOneRed)).
Proof.
  assert (Hwf : policyWellFormed dbOneRed).
  { unfold policyWellFormed. simpl. repeat constructor. discriminate. }
  split.
  - exact (proj1 (policy_routes_keep_well_formed 3 0
                    (mkRuleBody "mute" (Some 7) None None) dbOneRed Hwf)).
  - exact (proj1 (policy_routes_keep_well_formed 3 0 (banAt 20) dbOneRed Hwf)).
Defined.






(** X19.  PUT /api/punishment-rules/:id never changes the policy and never
    answers with a rule.  A body that one of the two checks refuses is
    answered with 400; every body that passes them, the known and the unknown
    id alike, makes the handler throw a [ReferenceError] at [awaitdb] before
    anything is written or answered.  So a recalculation after any PUT is the
    recalculation before it: a rule can be changed only by deleting it and
    posting it again. *)
Theorem updatePunishmentRule_never_writes :
  forall id body db,
    snd (updatePunishmentRule id body db) = db /\
    (forall rule, fst (updatePunishmentRule id body db) <> Ok rule) /\
    (fst (updatePunishmentRule id body db) = Thrown "awaitdb is not defined" <->
     exists type threshold,
       bodyThreshold body = Some threshold /\
       parseType (bodyType body) = Some type /\
       (type = mute -> bodyDuration body <> None)) /\
    (fst (updatePunishmentRule id body db) = Fail 400 "Missing required fields" \/
     fst (updatePunishmentRule id body db) = Fail 400 "Invalid punishment type" \/
     fst (updatePunishmentRule id body db) = Thrown "awaitdb is not defined") /\
    (forall now userId,
       recalculate now userId (snd (updatePunishmentRule id body db)) =
       recalculate now userId db).
Proof.
  intros id body db.
  split; [apply updatePunishmentRule_unchanged|].
  split; [|split; [|split]].
  - intros rule. unfold updatePunishmentRule.
    destruct (bodyThreshold body); [|discriminate].
    destruct (_ || _); [discriminate|].
    destruct (parseType (bodyType body)); discriminate.
  - unfold updatePunishmentRule, parseType.
    destruct (bodyThreshold body) as [threshold|].
    2:{ split; [discriminate | intros (t & th & H & _); discriminate]. }
    destruct (String.eqb_spec (bodyType body) "") as [Hempty|Hfull].
    { rewrite Hempty. simpl.
      split; [discriminate | intros (t & th & _ & H & _); discriminate]. }
    simpl orb.
    destruct (String.eqb (bodyType body) "ban") eqn:Eban.
    + apply String.eqb_eq in Eban. rewrite Eban. simpl.
      split; [|reflexivity]. intros _. exists ban, threshold.
      split; [reflexivity|]. split; [reflexivity | discriminate].
    + destruct (String.eqb (bodyType body) "mute") eqn:Emute; simpl.
      * destruct (bodyDuration body) as [d|]; simpl.
        -- split; [|reflexivity]. intros _. exists mute, threshold.
           split; [reflexivity|]. split; [reflexivity | discriminate].
        -- split; [discriminate|]. intros (t & th & _ & [= <-] & Hd).
           now elim (Hd eq_refl).
      * split; [discriminate | intros (t & th & _ & H & _); discriminate].
  - unfold updatePunishmentRule.
    destruct (bodyThreshold body); [|now left].
    destruct (_ || _); [now left|].
    destruct (parseType (bodyType body)); [right; now right | right; now left].
  - intros now userId. now rewrite updatePunishmentRule_unchanged.
Qed.

(** The deactivated mute rule of [dbMuteDeactivated] is put again with a
    complete body: the handler throws and the rule stays deactivated. *)
Lemma put_on_deactivated_mute_throws :
  updatePunishmentRule 1 (mkRuleBody "mute" (Some 5) (Some 60) (Some true))
    dbMuteDeactivated =
    (Thrown "awaitdb is not defined", dbMuteDeactivated) /\
  punishmentRules dbMuteDeactivated = [mute5off; ban10].
Proof.
  split; [|reflexivity].
  destruct (updatePunishmentRule_never_writes 1
              (mkRuleBody "mute" (Some 5) (Some 60) (Some true)) dbMuteDeactivated)
    as (Hdb & _ & Hthrown & _).
  rewrite (surjective_pairing (updatePunishmentRule _ _ _)), Hdb.
  rewrite (proj2 Hthrown); [reflexivity|]. exists mute, 5.
  split; [reflexivity|]. split; [reflexivity | discriminate].
Defined.

(** ** Deleting a warning level *)



(** ** The prompt template routes *)

Lemma insertDescBy_perm {A : Type} (key : A -> Z) x (l : list A) :
  Permutation (x :: l) (insertDescBy key x l).
Proof.
  induction l as [|y l IH]; simpl; [apply Permutation_refl|].
  destruct (key y <=? key x); [apply Permutation_refl|].
  eapply perm_trans; [apply perm_swap | apply perm_skip, IH].
Qed.

Lemma sortDescBy_perm {A : Type} (key : A -> Z) (l : list A) :
  Permutation l (sortDescBy key l).
Proof.
  induction l as [|x l IH]; simpl; [constructor|].
  eapply perm_trans; [apply perm_skip, IH | apply insertDescBy_perm].
Qed.

Lemma In_sortDescBy {A : Type} (key : A -> Z) (l : list A) x :
  In x (sortDescBy key l) <-> In x l.
Proof.
  split; intros H.
  - eapply Permutation_in; [apply Permutation_sym, sortDescBy_perm | exact H].
  - eapply Permutation_in; [apply sortDescBy_perm | exact H].
Qed.

Lemma find_exists {A : Type} (p : A -> bool) (l : list A) x :
  In x l -> p x = true -> exists y, find p l = Some y.
Proof.
  induction l as [|z l IH]; intros Hin Hp; [destruct Hin|]. simpl.
  destruct (p z) eqn:E; [now exists z|].
  destruct Hin as [->|Hin]; [congruence | now apply IH].
Qed.

Lemma deactivateAll_inactive ts t :
  In t (deactivateAll ts) -> PromptTemplate.isActive t = false.
Proof.
  unfold deactivateAll. intros Hin. apply In_updateWhere in Hin as (x & _ & ->).
  destruct (PromptTemplate.isActive x) eqn:E; [reflexivity | exact E].
Qed.


(** The templates after an activation: the rows with the id, active and
    stamped, the others inactive. *)
Lemma activateTemplate_rows now id pdb t :
  In t (updateWhere (templateIs id)
          (fun t => PromptTemplate.mk (PromptTemplate.id t) (PromptTemplate.name t)
                      (PromptTemplate.systemPrompt t) true now)
          (deactivateAll (templates pdb))) ->
  (PromptTemplate.id t = id /\ PromptTemplate.isActive t = true /\
   PromptTemplate.updatedAt t = now /\
   exists t0, In t0 (templates pdb) /\ PromptTemplate.id t0 = id /\
              PromptTemplate.name t = PromptTemplate.name t0 /\
              PromptTemplate.systemPrompt t = PromptTemplate.systemPrompt t0) \/
  (PromptTemplate.id t <> id /\ PromptTemplate.isActive t = false).
Proof.
  intros Hin. apply In_updateWhere in Hin as (x & Hx & ->).
  pose proof (deactivateAll_inactive _ _ Hx) as Hoff.
  unfold deactivateAll in Hx. apply In_updateWhere in Hx as (x0 & Hx0 & ->).
  unfold templateIs in *.
  destruct (PromptTemplate.isActive x0) eqn:Ea; simpl in *;
    destruct (Z.eqb_spec (PromptTemplate.id x0) id) as [Eid|Eid]; simpl.
  - left. split; [exact Eid|]. split; [reflexivity|]. split; [reflexivity|].
    exists x0. now split.
  - right. now split.
  - left. split; [exact Eid|]. split; [reflexivity|]. split; [reflexivity|].
    exists x0. now split.
  - right. now split.
Qed.

(** X21.  The prompt template routes keep at most one template active: if
    all active templates carry one id before a POST, a PUT or an activation,
    they do afterwards, whatever the request and whether or not it is
    accepted. *)
Theorem template_routes_keep_one_active :
  forall newId now id name systemPrompt isActive reason pdb,
    atMostOneActive pdb ->
    atMostOneActive (snd (createTemplate newId now name systemPrompt isActive pdb)) /\
    atMostOneActive (snd (updateTemplate now id name systemPrompt isActive reason pdb)) /\
    atMostOneActive (snd (activateTemplate now id pdb)).
Proof.
  intros newId now id name systemPrompt isActive reason pdb Hone.
  assert (Hoff : forall ts, (forall t, In t ts -> PromptTemplate.isActive t = false) ->
                            atMostOneActive (mkPromptDb ts (promptHistory pdb))).
  { intros ts H a b Ha _ Hact _. simpl in Ha. rewrite (H a Ha) in Hact. discriminate. }
  split; [|split].
  - unfold createTemplate.
    destruct (String.eqb name "" || String.eqb systemPrompt ""); [exact Hone|].
    cbv zeta. simpl. destruct isActive.
    + intros a b Ha Hb Haa Hba. simpl in Ha, Hb.
      apply in_app_or in Ha as [Ha|[<-|[]]];
        [rewrite (deactivateAll_inactive _ _ Ha) in Haa; discriminate|].
      apply in_app_or in Hb as [Hb|[<-|[]]];
        [rewrite (deactivateAll_inactive _ _ Hb) in Hba; discriminate | reflexivity].
    + intros a b Ha Hb Haa Hba. simpl in Ha, Hb.
      apply in_app_or in Ha as [Ha|[<-|[]]]; [|discriminate].
      apply in_app_or in Hb as [Hb|[<-|[]]]; [|discriminate].
      now apply Hone.
  - unfold updateTemplate. cbv zeta.
    destruct (String.eqb name "" || String.eqb systemPrompt ""); [exact Hone|].
    assert (Hrows : forall ts,
              (forall a b, In a ts -> In b ts -> PromptTemplate.isActive a = true ->
                           PromptTemplate.isActive b = true ->
                           PromptTemplate.id a = PromptTemplate.id b) ->
              (isActive = true -> forall t, In t ts -> PromptTemplate.isActive t = false) ->
              forall a b,
                In a (updateWhere (templateIs id)
                        (fun t => PromptTemplate.mk (PromptTemplate.id t) name
                                    systemPrompt isActive now) ts) ->
                In b (updateWhere (templateIs id)
                        (fun t => PromptTemplate.mk (PromptTemplate.id t) name
                                    systemPrompt isActive now) ts) ->
                PromptTemplate.isActive a = true -> PromptTemplate.isActive b = true ->
                PromptTemplate.id a = PromptTemplate.id b).
    { intros ts H1 Hall a b Ha Hb Haa Hba.
      apply In_updateWhere in Ha as (x & Hx & ->).
      apply In_updateWhere in Hb as (y & Hy & ->). unfold templateIs in *.
      destruct (PromptTemplate.id x =? id) eqn:Ex, (PromptTemplate.id y =? id) eqn:Ey;
        simpl in *; try (apply Z.eqb_eq in Ex); try (apply Z.eqb_eq in Ey).
      - congruence.
      - subst isActive. rewrite (Hall eq_refl y Hy) in Hba. discriminate.
      - subst isActive. rewrite (Hall eq_refl x Hx) in Haa. discriminate.
      - now apply H1. }
    destruct isActive.
    + destruct (returning _ _ (deactivateAll (templates pdb))) as [|t rest].
      * apply Hoff. apply deactivateAll_inactive.
      * intros a b Ha Hb. simpl in Ha, Hb. revert a b Ha Hb. apply Hrows.
        -- intros a b Ha _ Haa _.
           rewrite (deactivateAll_inactive _ _ Ha) in Haa. discriminate.
        -- intros _. apply deactivateAll_inactive.
    + destruct (returning _ _ (templates pdb)) as [|t rest]; [exact Hone|].
      intros a b Ha Hb. simpl in Ha, Hb. revert a b Ha Hb. apply Hrows.
      * exact Hone.
      * discriminate.
  - unfold activateTemplate. cbv zeta.
    destruct (returning _ _ (deactivateAll (templates pdb))) as [|t rest].
    + apply Hoff. apply deactivateAll_inactive.
    + intros a b Ha Hb Haa Hba. simpl in Ha, Hb.
      destruct (activateTemplate_rows now id pdb a Ha) as [(Hia & _)|(_ & Hoffa)];
        [|congruence].
      destruct (activateTemplate_rows now id pdb b Hb) as [(Hib & _)|(_ & Hoffb)];
        congruence.
Qed.

(** In [promptsTwo] one template is active, and one is after the second is
    activated. *)
Lemma one_active_after_activation :
  atMostOneActive (snd (activateTemplate 30 2 promptsTwo)).
Proof.
  apply (template_routes_keep_one_active 3 30 2 "" "" false "" promptsTwo).
  intros a b Ha Hb Haa Hba. simpl in Ha, Hb.
  destruct Ha as [<-|[<-|[]]]; [|discriminate].
  destruct Hb as [<-|[<-|[]]]; [reflexivity | discriminate].
Defined.

(** X22.  An activation is served back: after the activation of an id some
    template carries, the active-template query answers with a template of
    that id, active, stamped with the time of the activation, whose name and
    prompt are those of a template that carried the id. *)
Theorem activated_template_is_served :
  forall now id pdb t0,
    In t0 (templates pdb) -> PromptTemplate.id t0 = id ->
    exists t,
      activeTemplate (snd (activateTemplate now id pdb)) = Ok t /\
      PromptTemplate.id t = id /\
      PromptTemplate.isActive t = true /\
      PromptTemplate.updatedAt t = now /\
      exists t1, In t1 (templates pdb) /\ PromptTemplate.id t1 = id /\
                 PromptTemplate.name t = PromptTemplate.name t1 /\
                 PromptTemplate.systemPrompt t = PromptTemplate.systemPrompt t1.
Proof.
  intros now id pdb t0 Hin0 Hid0. unfold activateTemplate. cbv zeta.
  set (set := fun t => PromptTemplate.mk (PromptTemplate.id t) (PromptTemplate.name t)
                         (PromptTemplate.systemPrompt t) true now).
  assert (Hex : exists x, In x (deactivateAll (templates pdb)) /\ templateIs id x = true).
  { unfold deactivateAll. eexists. split.
    - apply In_updateWhere. exists t0. split; [exact Hin0 | reflexivity].
    - unfold templateIs. destruct (PromptTemplate.isActive t0); simpl;
        now apply Z.eqb_eq. }
  destruct Hex as (x & Hx & Hxid).
  assert (Hret : exists r rest,
            returning (templateIs id) set (deactivateAll (templates pdb)) = r :: rest).
  { unfold returning.
    destruct (filter (templateIs id) (deactivateAll (templates pdb))) as [|r rest] eqn:E.
    - assert (Hf : In x (filter (templateIs id) (deactivateAll (templates pdb))))
        by (apply filter_In; now split).
      rewrite E in Hf. destruct Hf.
    - simpl. now eexists; eexists. }
  destruct Hret as (r & rest & ->). simpl snd. unfold activeTemplate. simpl templates.
  assert (Hact : In (set x) (updateWhere (templateIs id) set (deactivateAll (templates pdb))))
    by (apply In_updateWhere; exists x; split; [exact Hx | now rewrite Hxid]).
  destruct (find_exists PromptTemplate.isActive
              (sortDescBy PromptTemplate.updatedAt
                 (updateWhere (templateIs id) set (deactivateAll (templates pdb))))
              (set x)) as (t & Ht); [now apply In_sortDescBy | reflexivity|].
  unfold findFirst. rewrite Ht. exists t. split; [reflexivity|].
  apply find_some in Ht as [Htin Hton]. apply In_sortDescBy in Htin.
  destruct (activateTemplate_rows now id pdb t Htin) as [(H1 & H2 & H3 & H4)|(_ & Hoff)];
    [|congruence].
  split; [exact H1|]. split; [exact H2|]. split; [exact H3 | exact H4].
Qed.

(** The lenient template of [promptsTwo] is activated and served. *)
Lemma lenient_template_is_served :
  activeTemplate (snd (activateTemplate 30 2 promptsTwo)) =
    Ok (PromptTemplate.mk 2 "lenient" "Be kind: {{RULES_LIST}}" true 30).
Proof.
  destruct (activated_template_is_served 30 2 promptsTwo
              (PromptTemplate.mk 2 "lenient" "Be kind: {{RULES_LIST}}" false 20))
    as (t & Hserved & _); [right; now left | reflexivity|].
  rewrite Hserved. vm_compute in Hserved. injection Hserved as <-. reflexivity.
Defined.



(** ** The rules of a warning level *)

Lemma insertAscBy_perm {A : Type} (key : A -> Z) x (l : list A) :
  Permutation (x :: l) (insertAscBy key x l).
Proof.
  induction l as [|y l IH]; simpl; [apply Permutation_refl|].
  destruct (key x <=? key y); [apply Permutation_refl|].
  eapply perm_trans; [apply perm_swap | apply perm_skip, IH].
Qed.

Lemma sortAscBy_perm {A : Type} (key : A -> Z) (l : list A) :
  Permutation l (sortAscBy key l).
Proof.
  induction l as [|x l IH]; simpl; [constructor|].
  eapply perm_trans; [apply perm_skip, IH | apply insertAscBy_perm].
Qed.


























(** ** The users listing *)

Lemma filter_updateWhere_same {A : Type} (p : A -> bool) (f : A -> A) (l : list A) :
  (forall x, p (f x) = p x) ->
  filter p (updateWhere p f l) = map f (filter p l).
Proof.
  intros H. unfold updateWhere. induction l as [|x l IH]; [reflexivity|].
  cbn [map filter]. destruct (p x) eqn:E.
  - rewrite H, E. simpl. now rewrite IH.
  - rewrite E. exact IH.
Qed.

Lemma filter_updateWhere_disjoint {A : Type} (p q : A -> bool) (f : A -> A)
  (l : list A) :
  (forall x, q (f x) = q x) -> (forall x, p x = true -> q x = false) ->
  filter q (updateWhere p f l) = filter q l.
Proof.
  intros Hq Hpq. unfold updateWhere. induction l as [|x l IH]; [reflexivity|].
  cbn [map filter]. destruct (p x) eqn:E.
  - rewrite Hq, (Hpq x E). exact IH.
  - now rewrite IH.
Qed.

Lemma no_active_after_marking now by_ reason (ws : list Warning.t) :
  filter (fun w => negb (Warning.messageIgnored w))
    (map (markIgnored now by_ reason) ws) = [].
Proof. induction ws as [|w ws IH]; [reflexivity | exact IH]. Qed.

(** X26.  The users listing after a reset: every row counts at most as
    many active warnings as warnings; when the database accepts the reset,
    the rows of the user who was reset show no points, no flag and no active
    warning while the number of warnings is what it was; every other row was
    in the listing before the reset; and after a reset the database refuses,
    every row was. *)
Theorem usersWithWarnings_after_reset :
  forall now userId db row,
    In row (usersWithWarnings (snd (resetWarnings now userId db))) ->
    (activeWarnings row <= warningCount row)%nat /\
    (User.id (listedUser row) = userId ->
     resetAccepted userId db ->
     activeWarnings row = 0%nat /\
     User.totalPoints (listedUser row) = 0 /\
     User.isBanned (listedUser row) = false /\
     User.isMuted (listedUser row) = false /\
     warningCount row =
       List.length (findMany (warningOf userId) (warnings db))) /\
    (User.id (listedUser row) <> userId -> In row (usersWithWarnings db)) /\
    (~ resetAccepted userId db -> In row (usersWithWarnings db)).
Proof.
  intros now userId db row Hrow.
  assert (Hrefused : ~ resetAccepted userId db -> In row (usersWithWarnings db))
    by (intros Hno; now rewrite (resetWarnings_not_accepted now userId db Hno) in Hrow).
  unfold usersWithWarnings in Hrow.
  apply in_map_iff in Hrow as (u & Hrow & Hu). apply In_sortDescBy in Hu.
  split; [rewrite <- Hrow; cbv zeta; cbn [warningCount activeWarnings];
          apply filter_length_le|].
  subst row. cbv zeta in *. cbn [listedUser warningCount activeWarnings] in *.
  assert (Hsame : In u (users db) ->
            In (mkUserWithWarnings u
                  (List.length (findMany (warningOf (User.id u)) (warnings db)))
                  (List.length
                     (filter (fun w => negb (Warning.messageIgnored w))
                        (findMany (warningOf (User.id u)) (warnings db)))))
               (usersWithWarnings db)).
  { intros Hin. unfold usersWithWarnings. apply in_map_iff. exists u.
    split; [reflexivity | now apply In_sortDescBy]. }
  revert Hu Hrefused. unfold resetWarnings.
  destruct (findFirst (userIs userId) (users db)) as [user|] eqn:Hfind.
  - destruct (existsb (warningOf userId) (warnings db) &&
              negb (existsb (userIs "system") (users db))) eqn:Hguard;
      cbv zeta; cbn [snd users warnings withUsers withWarnings]; intros Hu Hrefused.
    + split; [|split; [intros _; now apply Hsame | exact Hrefused]].
      intros _ Hacc. rewrite (resetWarnings_guard _ _ Hacc) in Hguard. discriminate.
    + clear Hsame. apply In_updateWhere in Hu as (x & Hx & ->).
      destruct (userIs userId x) eqn:Ex.
      * cbn [User.id User.totalPoints User.isBanned User.isMuted] in *.
        apply userIs_eq in Ex.
        split; [|split; [congruence | exact Hrefused]]. intros _ _. rewrite Ex.
        unfold findMany. rewrite filter_updateWhere_same by reflexivity.
        rewrite no_active_after_marking, length_map. now repeat split.
      * apply userIs_false in Ex.
        split; [congruence|]. split; [|exact Hrefused]. intros _.
        unfold findMany. rewrite filter_updateWhere_disjoint.
        -- unfold usersWithWarnings. apply in_map_iff. exists x.
           split; [reflexivity | now apply In_sortDescBy].
        -- reflexivity.
        -- intros w Hw. apply warningOf_eq in Hw. unfold warningOf.
           apply String.eqb_neq. congruence.
  - cbn [snd]. intros Hu Hrefused.
    split; [|split; [intros _; now apply Hsame | exact Hrefused]].
    intros Hid. unfold findFirst in Hfind.
    apply (find_none _ _ Hfind) in Hu. apply userIs_false in Hu. contradiction.
Qed.

(** With a users row for the system actor, the reset of [dbAt10] is accepted
    and the row of the user shows two warnings, none of them active. *)
Lemma users_listing_after_reset_at_10 :
  fst (resetWarnings 900 "u1" (withStaff dbAt10)) = Json SuccessBody /\
  In (mkUserWithWarnings (User.mk "u1" "ann" 0 false false None) 2 0)
     (usersWithWarnings (snd (resetWarnings 900 "u1" (withStaff dbAt10)))) /\
  2%nat = List.length (findMany (warningOf "u1") (warnings (withStaff dbAt10))).
Proof.
  assert (Hin : In (mkUserWithWarnings (User.mk "u1" "ann" 0 false false None) 2 0)
                   (usersWithWarnings (snd (resetWarnings 900 "u1" (withStaff dbAt10)))))
    by (left; reflexivity).
  split; [reflexivity|]. split; [exact Hin|].
  destruct (usersWithWarnings_after_reset 900 "u1" (withStaff dbAt10) _ Hin)
    as (_ & Hreset & _).
  assert (Hacc : resetAccepted "u1" (withStaff dbAt10)).
  { left. exists (User.mk "system" "system" 0 false false None).
    split; [simpl; auto | reflexivity]. }
  now destruct (Hreset eq_refl Hacc) as (_ & _ & _ & _ & Hcount).
Defined.

(** ** Levels in use *)

Lemma deleteWarningLevel_in_use dbError id rules db w :
  In w (warnings db) -> Warning.levelId w = id ->
  deleteWarningLevel dbError id rules db =
    (Fail 400
       "Cannot delete warning level that has associated warnings. Remove the warnings first.",
     db).
Proof.
  intros Hin Hid. unfold deleteWarningLevel. cbv zeta.
  destruct (filter (fun w => Warning.levelId w =? id) (warnings db)) as [|w0 rest] eqn:Ef.
  - assert (Hf : In w (filter (fun w => Warning.levelId w =? id) (warnings db)))
      by (apply filter_In; split; [exact Hin | now apply Z.eqb_eq]).
    rewrite Ef in Hf. destruct Hf.
  - replace (Z.of_nat (List.length (w0 :: rest)) >? 0) with true; [reflexivity|].
    symmetry. apply Z.gtb_lt. simpl List.length. lia.
Qed.

(** X27.  A level in use cannot be deleted.  After the test endpoint has
    recorded a warning (it answered with the level's name), the level of that
    name is refused with 400 and nothing is deleted; after a rule has been
    posted to a level no warning refers to, the level is refused with the
    error of the database and nothing is deleted. *)
Theorem level_in_use_is_not_deleted :
  forall dbError now analysis content userId username db rules,
    (forall name pts total punishment,
       fst (fst (testModerate now analysis content userId username db)) =
         Json (ModerateBody name pts total punishment) ->
       exists level,
         findFirst (levelNamed name) (warningLevels db) = Some level /\
         deleteWarningLevel dbError (WarningLevel.id level) rules
           (snd (testModerate now analysis content userId username db)) =
         (Fail 400
            "Cannot delete warning level that has associated warnings. Remove the warnings first.",
          snd (testModerate now analysis content userId username db))) /\
    (forall newId levelId name description rule,
       fst (createRule dbError newId levelId name description (warningLevels db) rules) =
         Ok rule ->
       (forall w, In w (warnings db) -> Warning.levelId w <> levelId) ->
       deleteWarningLevel dbError levelId
         (snd (createRule dbError newId levelId name description (warningLevels db) rules))
         db =
       (Fail 500 dbError, db)).
Proof.
  intros dbError now analysis content userId username db rules. split.
  - intros name pts total punishment. unfold testModerate.
    destruct (String.eqb content "" || String.eqb userId "" || String.eqb username "");
      [discriminate|].
    destruct (mapAnalysisToWarning analysis) as [w log].
    destruct (String.eqb (warningLevel w) "none"); [discriminate|].
    destruct (findFirst (levelNamed (warningLevel w)) (warningLevels db))
      as [level|] eqn:Hlevel; [|discriminate].
    destruct (getOrCreateUser_some userId username db) as (user & db1 & -> & _ & _).
    cbv zeta.
    destruct (inInteger (User.totalPoints user + WarningLevel.points level));
      cbn [negb]; [|discriminate].
    match goal with
    | |- context [moderateLoop ?n ?u ?us ?t ?rs ?d] =>
        pose proof (moderateLoop_ledger n u us t rs d) as [Hws _];
        destruct (moderateLoop n u us t rs d) as [p db4]
    end.
    cbn [fst snd] in *. intros Heq. injection Heq as <- _ _ _.
    exists level. split; [exact Hlevel|].
    eapply deleteWarningLevel_in_use.
    + rewrite Hws. cbn [warnings withUsers insertWarning].
      apply in_or_app. right. left. reflexivity.
    + reflexivity.
  - intros newId levelId name description rule. unfold createRule.
    destruct (String.eqb name "" || String.eqb description ""); [discriminate|].
    cbv zeta. destruct (existsb (levelIs levelId) (warningLevels db)); [|discriminate].
    cbn [fst snd]. intros Heq Hnone. injection Heq as <-.
    unfold deleteWarningLevel. cbv zeta.
    destruct (filter (fun w => Warning.levelId w =? levelId) (warnings db))
      as [|w0 rest] eqn:Ef.
    + cbn [List.length Z.of_nat Z.gtb Z.compare].
      rewrite existsb_app. cbn [existsb]. unfold ruleOfLevel at 2.
      cbn [Rule.warningLevelId]. rewrite Z.eqb_refl.
      now rewrite orb_true_r.
    + assert (Hin : In w0 (filter (fun w => Warning.levelId w =? levelId) (warnings db)))
        by (rewrite Ef; now left).
      apply filter_In in Hin as [Hin Heq]. apply Z.eqb_eq in Heq.
      now elim (Hnone w0 Hin).
Qed.

(** The red level of [dbOneRed] is refused after a second red warning; the
    yellow level is refused once a rule has been posted to it. *)
Lemma levels_in_use_of_one_red :
  fst (deleteWarningLevel "violates foreign key constraint" 3 []
         (snd (testModerate 300 redVerdict "buy now" "u1" "ann" dbOneRed))) =
    Fail 400
      "Cannot delete warning level that has associated warnings. Remove the warnings first." /\
  fst (deleteWarningLevel "violates foreign key constraint" 1
         (snd (createRule "violates foreign key constraint" 4 1 "Be nice" "No rudeness"
                 (warningLevels dbOneRed) []))
         dbOneRed) =
    Fail 500 "violates foreign key constraint".
Proof.
  destruct (level_in_use_is_not_deleted "violates foreign key constraint" 300 redVerdict
              "buy now" "u1" "ann" dbOneRed []) as [Hwarn Hrule].
  split.
  - edestruct Hwarn as (level & Hlevel & Hdel); [reflexivity|].
    vm_compute in Hlevel. injection Hlevel as <-.
    cbn [WarningLevel.id] in Hdel. now rewrite Hdel.
  - rewrite (Hrule 4 1 "Be nice" "No rudeness" (Rule.mk 4 1 "Be nice" "No rudeness" 0)
               eq_refl); [reflexivity|].
    intros w [<-|[]]. discriminate.
Defined.

(** ** The classifier service *)

Lemma dropPrefix_some pattern s after :
  dropPrefix pattern s = Some after -> s = (pattern ++ after)%string.
Proof.
  revert s. induction pattern as [|a pattern IH]; intros s H; simpl in *.
  - congruence.
  - destruct s as [|b s]; [discriminate|].
    destruct (Ascii.eqb_spec a b) as [->|]; [|discriminate].
    now rewrite (IH s H).
Qed.

Lemma splitOn_some pattern s before after :
  splitOn pattern s = Some (before, after) ->
  s = (before ++ pattern ++ after)%string.
Proof.
  revert before. induction s as [|c s IH]; intros before H.
  - simpl in H. destruct (dropPrefix pattern EmptyString) as [a|] eqn:E; [|discriminate].
    injection H as <- <-. exact (dropPrefix_some pattern _ a E).
  - cbn [splitOn] in H. destruct (dropPrefix pattern (String c s)) as [a|] eqn:E.
    + injection H as <- <-. exact (dropPrefix_some pattern _ a E).
    + destruct (splitOn pattern s) as [[b a]|]; [|discriminate].
      injection H as <- <-. simpl. now rewrite (IH b eq_refl).
Qed.

Lemma getSubstitution_plain matched before after replacement :
  hasDollar replacement = false ->
  getSubstitution matched before after replacement = replacement.
Proof.
  induction replacement as [|c rest IH]; intros H; [reflexivity|].
  simpl in H. apply orb_false_iff in H as [Hc Hrest].
  cbn [getSubstitution]. rewrite Hc. now rewrite IH.
Qed.

Lemma ruleLines_resolved levels rules :
  rulesResolved levels rules ->
  exists lines, ruleLines levels rules = Some lines /\
                List.length lines = List.length rules.
Proof.
  induction rules as [|r rules IH]; intros Hres; [now exists []|].
  destruct IH as (lines & Hlines & Hlen); [intros x Hx; apply Hres; now right|].
  simpl. destruct (Hres r (or_introl eq_refl)) as (l & Hl & Hid).
  destruct (find_exists (levelIs (Rule.warningLevelId r)) levels l Hl) as (level & Hfind);
    [unfold levelIs; now apply Z.eqb_eq|].
  unfold findFirst. rewrite Hfind, Hlines. simpl.
  eexists. split; [reflexivity|]. simpl. now rewrite Hlen.
Qed.

Lemma rulesResolved_sorted levels rules :
  rulesResolved levels rules -> rulesResolved levels (sortAscBy Rule.id rules).
Proof.
  intros Hres r Hr. apply Hres.
  eapply Permutation_in; [apply Permutation_sym, sortAscBy_perm | exact Hr].
Qed.

(** X28.  The system prompt of the classifier.  With an active template and
    every rule under a level, the prompt is built with one line per rule.  A
    template without the placeholder is sent as it is, whatever the rules;
    otherwise the template reads text, placeholder, text at the first
    occurrence of the placeholder, and when the rules hold no dollar sign the
    prompt is the first text, the lines of the rules and the last text. *)
Theorem prompt_carries_rules :
  forall pdb levels rules template,
    activeTemplate pdb = Ok template ->
    rulesResolved levels rules ->
    exists lines,
      ruleLines levels (sortAscBy Rule.id rules) = Some lines /\
      List.length lines = List.length rules /\
      match splitOn RULES_LIST (PromptTemplate.systemPrompt template) with
      | None =>
          getActivePromptTemplate pdb levels rules =
            Some (PromptTemplate.systemPrompt template)
      | Some (before, after) =>
          PromptTemplate.systemPrompt template = (before ++ RULES_LIST ++ after)%string /\
          (hasDollar (String.concat newline lines) = false ->
           getActivePromptTemplate pdb levels rules =
             Some (before ++ String.concat newline lines ++ after)%string)
      end.
Proof.
  intros pdb levels rules template Hactive Hres.
  unfold activeTemplate in Hactive.
  destruct (findFirst PromptTemplate.isActive
              (sortDescBy PromptTemplate.updatedAt (templates pdb)))
    as [t|] eqn:Hfind; [|discriminate].
  injection Hactive as ->.
  destruct (ruleLines_resolved levels (sortAscBy Rule.id rules))
    as (lines & Hlines & Hlen); [now apply rulesResolved_sorted|].
  exists lines. split; [exact Hlines|]. split.
  - rewrite Hlen. symmetry. apply Permutation_length, sortAscBy_perm.
  - unfold getActivePromptTemplate. rewrite Hfind, Hlines. cbv zeta. unfold replace.
    destruct (splitOn RULES_LIST (PromptTemplate.systemPrompt template))
      as [[before after]|] eqn:Hsplit; [|reflexivity].
    split; [now apply splitOn_some|].
    intros Hplain. now rewrite getSubstitution_plain.
Qed.

(** The prompt built from the active template of [promptsTwo] and the rules
    of [rulesThree]. *)
Lemma prompt_of_three_rules :
  getActivePromptTemplate promptsTwo levels rulesThree =
    Some ("Judge: " ++
          "Rule 1: No slurs - Slurs are banned (Warning Level: red)" ++ newline ++
          "Rule 2: No flooding - Do not flood (Warning Level: orange)" ++ newline ++
          "Rule 3: No threats - Threats are banned (Warning Level: red)")%string.
Proof.
  destruct (prompt_carries_rules promptsTwo levels rulesThree
              (PromptTemplate.mk 1 "strict" "Judge: {{RULES_LIST}}" true 10))
    as (lines & Hlines & _ & Hprompt).
  - reflexivity.
  - intros r [<-|[<-|[<-|[]]]];
      [exists (WarningLevel.mk 3 "red" 5 true)
      |exists (WarningLevel.mk 2 "orange" 3 true)
      |exists (WarningLevel.mk 3 "red" 5 true)];
      (split; [simpl; auto | reflexivity]).
  - vm_compute in Hlines. injection Hlines as <-.
    assert (Hsplit : splitOn RULES_LIST "Judge: {{RULES_LIST}}" = Some ("Judge: ", ""))
      by reflexivity.
    cbn [PromptTemplate.systemPrompt] in Hprompt. rewrite Hsplit in Hprompt.
    destruct Hprompt as [_ Hprompt]. rewrite Hprompt by reflexivity. reflexivity.
Defined.

Lemma analyzeWithRetry_answers classify content context analysis retries k :
  classify k content context = Some analysis ->
  analyzeWithRetry classify content context (S retries) k = Some analysis.
Proof. intros H. simpl. now rewrite H. Qed.

Lemma analyzeWithRetry_all_throw classify content context retries :
  forall k,
    (forall j, classify j content context = None) ->
    analyzeWithRetry classify content context retries k = None.
Proof.
  induction retries as [|retries IH]; intros k H; [reflexivity|].
  simpl. rewrite H. now apply IH.
Qed.

(** X29.  The analysis fails only on configuration.  For replies whose level
    name is a string or null, the three calls of the retry loop all throw
    exactly when no API key is configured or no prompt can be built;
    otherwise the first call answers, and when the completion of that call
    fails the answer is the clean verdict, on which the Discord handler
    writes nothing and sends nothing. *)
Theorem analysis_fails_only_on_configuration :
  forall settings pdb levels rules complete content context,
    (analyzeWithRetry (classifierOf settings pdb levels rules complete)
       content context 3 0 = None <->
     getOpenAIClient settings = None \/
     getActivePromptTemplate pdb levels rules = None) /\
    (forall analysis,
       analyzeWithRetry (classifierOf settings pdb levels rules complete)
         content context 3 0 = Some analysis ->
       analyzeContent settings pdb levels rules (complete 0%nat) content context =
         Some analysis /\
       forall systemPrompt,
         getActivePromptTemplate pdb levels rules = Some systemPrompt ->
         complete 0%nat systemPrompt (userPromptOf content context) = None ->
         analysis = analysisFailed /\
         forall exec now authorId authorName db,
           botDb (onMessage exec now analysis authorId authorName db) = db /\
           sent (onMessage exec now analysis authorId authorName db) = None).
Proof.
  intros settings pdb levels rules complete content context.
  destruct (getOpenAIClient settings) as [key|] eqn:Hkey.
  - destruct (getActivePromptTemplate pdb levels rules) as [systemPrompt|] eqn:Hprompt.
    + assert (Hfirst : exists analysis,
                classifierOf settings pdb levels rules complete 0%nat content context =
                  Some analysis).
      { unfold classifierOf, analyzeContent. rewrite Hkey, Hprompt.
        destruct (complete 0%nat systemPrompt (userPromptOf content context));
          eexists; reflexivity. }
      destruct Hfirst as (analysis0 & Hfirst).
      rewrite (analyzeWithRetry_answers _ _ _ _ _ _ Hfirst).
      split; [split; [discriminate | intros [H|H]; discriminate]|].
      intros analysis Heq. injection Heq as <-.
      split; [exact Hfirst|].
      intros systemPrompt' Hsp Hfail. injection Hsp as <-.
      unfold classifierOf, analyzeContent in Hfirst.
      rewrite Hkey, Hprompt, Hfail in Hfirst. injection Hfirst as <-.
      split; [reflexivity|]. intros exec now authorId authorName db. now split.
    + rewrite analyzeWithRetry_all_throw.
      * split; [split; [now right | reflexivity] | discriminate].
      * intros j. unfold classifierOf, analyzeContent. now rewrite Hkey, Hprompt.
  - rewrite analyzeWithRetry_all_throw.
    + split; [split; [now left | reflexivity] | discriminate].
    + intros j. unfold classifierOf, analyzeContent. now rewrite Hkey.
Qed.

(** With a key, the active template of [promptsTwo] and a completion that
    always fails, the first call answers the clean verdict. *)
Lemma failing_completion_reads_as_clean :
  analyzeWithRetry
    (classifierOf [OpenAISettings.mk "sk-test" 5] promptsTwo levels rulesThree
       (fun _ _ _ => None))
    "buy now" [] 3 0 = Some analysisFailed.
Proof.
  destruct (analysis_fails_only_on_configuration
              [OpenAISettings.mk "sk-test" 5] promptsTwo levels rulesThree
              (fun _ _ _ => None) "buy now" []) as [_ Hsome].
  destruct (analyzeWithRetry _ "buy now" [] 3 0) as [analysis|] eqn:E;
    [|vm_compute in E; discriminate].
  destruct (Hsome analysis eq_refl) as [_ Hclean].
  destruct (Hclean _ eq_refl eq_refl) as [-> _]. reflexivity.
Defined.
